(** * Model selection and recognition for per-word Gaussian HMMs

    A shallow embedding of [my_recognizer.py] and [my_model_selectors.py].

    - Python floats are IEEE binary64 numbers: the kernel's primitive floats,
      with their comparisons (false on NaN) and correctly rounded arithmetic.
    - Python dicts keep insertion order and the code iterates over them, so a
      dict is an association list with distinct keys.
    - The HMM library (constructing, fitting and scoring a GaussianHMM), the
      fold generator, [combine_sequences] and [math.log] are outside the
      repository: they are parameters of the development.  A call that raises
      is a call that answers with no value.
    - Code runs in a small monad that threads the local variables of a
      function, records the calls made to the HMM library and carries Python
      exceptions. *)

From Stdlib Require Import List ZArith Lia Bool String Floats.
Import ListNotations.

Set Implicit Arguments.
Local Open Scope Z_scope.

(** ** Python floats *)

Module PyFloat.

(** [x > y] and [x < y] on floats. *)
Definition gt (x y : float) : bool := PrimFloat.ltb y x.
Definition lt (x y : float) : bool := PrimFloat.ltb x y.

(** The float nearest to an integer (round to nearest, ties to even). *)
Definition of_int (z : Z) : float :=
  SF2Prim (binary_normalize prec emax z 0 false).

End PyFloat.

(** ** Exceptions and the call log *)

Inductive exn : Type :=
| IndexError | KeyError | ValueError | ZeroDivisionError
| OverflowError | UnboundLocalError | LibraryError.

Inductive outcome (A : Type) : Type :=
| Ok (a : A)
| Raise (e : exn).
Arguments Ok {A} a.
Arguments Raise {A} e.

(** A 2-d array of observations (frames of features), a sequence of frames,
    and the lengths of the sequences stacked in an array. *)
Definition frame := list float.
Definition array := list frame.
Definition sequence := list frame.
Definition word := string.

(** The parts of the program that live outside the repository.

    - [fit n rs X lengths] is
      [GaussianHMM(n_components=n, covariance_type="diag", n_iter=1000,
      random_state=rs, verbose=False).fit(X, lengths)];
    - [score m X lengths] is [m.score(X, lengths)];
    - [ln n] is [math.log(n)] for an integer [n >= 1];
    - [KFold_new k] is [KFold(n_splits=k)] and [KFold_split kf seqs] the
      folds [kf.split(seqs)] yields, as (train indices, test indices);
    - [combine_sequences idx seqs] is the helper of [asl_utils].

    [None] and [Raise] stand for a call that raises. *)
Class HmmLib : Type := {
  Model : Type;
  fit : Z -> Z -> array -> list Z -> option Model;
  score : Model -> array -> list Z -> option float;
  ln : Z -> float;
  KFold : Type;
  KFold_new : Z -> outcome KFold;
  KFold_split : KFold -> list sequence -> outcome (list (list nat * list nat));
  combine_sequences : list nat -> list sequence -> outcome (array * list Z)
}.

Section Effects.

Context {L : HmmLib}.

(** What the code asks of the HMM library and of the console, in the order
    it asks. *)
Inductive event : Type :=
| EvFit (n_components random_state : Z) (X : array) (lengths : list Z)
| EvScore (m : Model) (X : array) (lengths : list Z)
| EvPrint (created : bool) (w : word) (num_states : Z).

(** A computation over the local variables [S] of a function: it logs its
    calls, updates the variables and returns or raises.  Assignments made
    before an exception is raised are kept, as in Python. *)
Definition M (S A : Type) : Type := S -> (list event * S * outcome A)%type.

Definition ret {S A} (a : A) : M S A := fun s => ([], s, Ok a).
Definition raise {S A} (e : exn) : M S A := fun s => ([], s, Raise e).
Definition lift {S A} (o : outcome A) : M S A := fun s => ([], s, o).
Definition emit {S} (ev : event) : M S unit := fun s => ([ev], s, Ok tt).
Definition get {S} : M S S := fun s => ([], s, Ok s).
Definition put {S} (s' : S) : M S unit := fun _ => ([], s', Ok tt).
Definition modify {S} (f : S -> S) : M S unit := fun s => ([], f s, Ok tt).

Definition bind {S A B} (c : M S A) (k : A -> M S B) : M S B :=
  fun s =>
    match c s with
    | (t, s', Ok a) => let '(t', s'', r) := k a s' in (t ++ t', s'', r)
    | (t, s', Raise e) => (t, s', Raise e)
    end.

(** [try: c  except Exception: h] *)
Definition try_except {S A} (c : M S A) (h : exn -> M S A) : M S A :=
  fun s =>
    match c s with
    | (t, s', Ok a) => (t, s', Ok a)
    | (t, s', Raise e) => let '(t', s'', r) := h e s' in (t ++ t', s'', r)
    end.

(** A function call: run the body on fresh local variables. *)
Definition run {S A} (c : M S A) (locals : S) : list event * outcome A :=
  let '(t, _, r) := c locals in (t, r).

Definition trace {A} (c : list event * outcome A) : list event := fst c.
Definition result {A} (c : list event * outcome A) : outcome A := snd c.

(** The two library calls, logged. *)
Definition call_fit {S} (n rs : Z) (X : array) (lengths : list Z) : M S Model :=
  fun s =>
    ([EvFit n rs X lengths], s,
     match fit n rs X lengths with Some m => Ok m | None => Raise LibraryError end).

Definition call_score {S} (m : Model) (X : array) (lengths : list Z) : M S float :=
  fun s =>
    ([EvScore m X lengths], s,
     match score m X lengths with Some v => Ok v | None => Raise LibraryError end).

End Effects.

Declare Scope py_scope.
Delimit Scope py_scope with py.
Notation "x <- c ;; k" := (bind c (fun x => k))
  (at level 61, c at next level, right associativity) : py_scope.
Notation "c ;;; k" := (bind c (fun _ => k))
  (at level 61, right associativity) : py_scope.
Local Open Scope py_scope.

(** ** Loops *)

(** What a loop body hands back: go on, or leave the function with
    [return r]. *)
Inductive flow (R : Type) : Type :=
| Fallthrough
| Returned (r : R).
Arguments Fallthrough {R}.
Arguments Returned {R} r.

Section Loops.

Context {L : HmmLib}.

(** [for i in items: body(i)]; a [continue] ends the body early. *)
Fixpoint for_in {S I} (items : list I) (body : I -> M S unit) : M S unit :=
  match items with
  | [] => ret tt
  | i :: rest => body i ;;; for_in rest body
  end.

(** A loop whose body may [return]. *)
Fixpoint for_in_return {S I R} (items : list I) (body : I -> M S (flow R))
  : M S (flow R) :=
  match items with
  | [] => ret Fallthrough
  | i :: rest =>
      r <- body i ;;
      match r with
      | Fallthrough => for_in_return rest body
      | Returned v => ret (Returned v)
      end
  end.

End Loops.

(** [range(a, b)] *)
Definition range (a b : Z) : list Z :=
  map (fun k => a + Z.of_nat k) (seq 0 (Z.to_nat (b - a))).

(** [l[i]] on a Python list: negative indices count from the end. *)
Definition py_index {A} (l : list A) (i : Z) : outcome A :=
  let n := Z.of_nat (List.length l) in
  if (0 <=? i) && (i <? n) then
    match nth_error l (Z.to_nat i) with Some a => Ok a | None => Raise IndexError end
  else if (- n <=? i) && (i <? 0) then
    match nth_error l (Z.to_nat (n + i)) with Some a => Ok a | None => Raise IndexError end
  else Raise IndexError.

(** ** Dicts *)

Section Dict.

Variables K V : Type.
Variable eqb : K -> K -> bool.

Definition dict : Type := list (K * V).

Definition keys (d : dict) : list K := map fst d.

Fixpoint dict_get (k : K) (d : dict) : option V :=
  match d with
  | [] => None
  | (k', v) :: rest => if eqb k k' then Some v else dict_get k rest
  end.

(** [d[k] = v]: an existing key keeps its place, a new one goes last. *)
Fixpoint dict_set (k : K) (v : V) (d : dict) : dict :=
  match d with
  | [] => [(k, v)]
  | (k', v') :: rest =>
      if eqb k k' then (k', v) :: rest else (k', v') :: dict_set k v rest
  end.

(** [d[k]], raising [KeyError]. *)
Definition dict_item (k : K) (d : dict) : outcome V :=
  match dict_get k d with Some v => Ok v | None => Raise KeyError end.

Definition dict_wf (d : dict) : Prop := NoDup (keys d).

End Dict.

Arguments dict_wf {K V} d.
Arguments keys {K V} d.

(** ** Python numbers *)

(** A number that is an [int] or a [float]: [total_score] starts as the int
    [0] and becomes a float with the first score added to it. *)
Inductive pynum : Type :=
| PInt (z : Z)
| PFloat (f : float).

(** [float(z)] as the mixed operations [int * float], [float / int] compute
    it: [OverflowError] when the int is too large for a float. *)
Definition float_of_int (z : Z) : outcome float :=
  let f := PyFloat.of_int z in
  if PrimFloat.is_infinity f then Raise OverflowError else Ok f.

(** [a / b] on two ints.  The operands in this program are [0] or [1] over a
    count, for which the quotient of the nearest floats is Python's result. *)
Definition int_truediv (a b : Z) : outcome float :=
  if b =? 0 then Raise ZeroDivisionError
  else Ok (PyFloat.of_int a / PyFloat.of_int b)%float.

(** [x / b] for a number [x] and an int [b]. *)
Definition num_truediv (x : pynum) (b : Z) : outcome float :=
  match x with
  | PInt a => int_truediv a b
  | PFloat f =>
      match float_of_int b with
      | Raise e => Raise e
      | Ok fb => if b =? 0 then Raise ZeroDivisionError else Ok (f / fb)%float
      end
  end.

(** [x + y] for a number [x] that is an int only while it is [0], and a
    float [y]. *)
Definition num_add_float (x : pynum) (y : float) : outcome float :=
  match x with
  | PInt a =>
      match float_of_int a with
      | Raise e => Raise e
      | Ok fa => Ok (fa + y)%float
      end
  | PFloat f => Ok (f + y)%float
  end.

(** ** The recognizer ([my_recognizer.py]) *)

(** The test set: [wordlist] and the dict that [get_all_Xlengths] returns,
    from a word id to the observations of the item and their lengths. *)
Record SinglesData : Type := {
  wordlist : list word;
  hmm_data : dict Z (array * list Z)
}.

Definition get_all_Xlengths (test_set : SinglesData) : dict Z (array * list Z) :=
  hmm_data test_set.

Module Recognizer.

(** The local variables of [recognize]. *)
Record vars : Type := {
  probabilities : list (dict word float);
  guesses : list (option word);
  best_word : option word;
  prob_map : dict word float;
  max_prob : float
}.

Definition set_prob_map (pm : dict word float) (st : vars) : vars :=
  {| probabilities := probabilities st; guesses := guesses st;
     best_word := best_word st; prob_map := pm; max_prob := max_prob st |}.

Definition set_best (p : float) (w : word) (st : vars) : vars :=
  {| probabilities := probabilities st; guesses := guesses st;
     best_word := Some w; prob_map := prob_map st; max_prob := p |}.

Definition new_item (st : vars) : vars :=
  {| probabilities := probabilities st; guesses := guesses st;
     best_word := best_word st; prob_map := []; max_prob := neg_infinity |}.

Definition append_item (st : vars) : vars :=
  {| probabilities := probabilities st ++ [prob_map st];
     guesses := guesses st ++ [best_word st];
     best_word := best_word st; prob_map := prob_map st;
     max_prob := max_prob st |}.

(** Lines 21-24; [prob_map] and [max_prob] are unbound until the loop
    assigns them. *)
Definition locals : vars :=
  {| probabilities := []; guesses := []; best_word := None;
     prob_map := []; max_prob := neg_infinity |}.

Section Code.

Context {L : HmmLib}.

(** Lines 36-47: the body of the loop over [models.items()].  The int
    [-1000] of line 42 is recorded as the float it equals. *)
Definition score_word (test_X : array) (test_Xlength : list Z)
           (item : word * Model) : M vars unit :=
  let (w, model) := item in
  sc <- try_except (call_score model test_X test_Xlength)
                   (fun _ => ret (-1000)%float) ;;
  modify (fun st => set_prob_map (dict_set String.eqb w sc (prob_map st)) st) ;;;
  st <- get ;;
  if PyFloat.gt sc (max_prob st) then put (set_best sc w st) else ret tt.

(** Lines 27-50: the body of the loop over the word ids. *)
Definition recognize_item (models : dict word Model) (test_set : SinglesData)
           (word_id : Z) : M vars unit :=
  test_sequence <- lift (dict_item Z.eqb word_id (get_all_Xlengths test_set)) ;;
  let test_X := fst test_sequence in
  let test_Xlength := snd test_sequence in
  test_word <- lift (py_index (wordlist test_set) word_id) ;;
  modify new_item ;;;
  for_in models (score_word test_X test_Xlength) ;;;
  modify append_item.

Definition recognize (models : dict word Model) (test_set : SinglesData)
  : list event * outcome (list (dict word float) * list (option word)) :=
  run (for_in (keys (get_all_Xlengths test_set)) (recognize_item models test_set) ;;;
       st <- get ;;
       ret (probabilities st, guesses st))
      locals.

End Code.

End Recognizer.

(** ** The selectors ([my_model_selectors.py]) *)

(** The fields [ModelSelector.__init__] sets. *)
Record ModelSelector : Type := {
  words : dict word (list sequence);
  hwords : dict word (array * list Z);
  sequences : list sequence;
  X : array;
  lengths : list Z;
  this_word : word;
  n_constant : Z;
  min_n_components : Z;
  max_n_components : Z;
  random_state : Z;
  verbose : bool
}.

Definition ModelSelector_init
           (all_word_sequences : dict word (list sequence))
           (all_word_Xlengths : dict word (array * list Z)) (this_word : word)
           (n_constant min_n_components max_n_components random_state : Z)
           (verbose : bool) : outcome ModelSelector :=
  match dict_item String.eqb this_word all_word_sequences with
  | Raise e => Raise e
  | Ok seqs =>
      match dict_item String.eqb this_word all_word_Xlengths with
      | Raise e => Raise e
      | Ok (x, l) =>
          Ok {| words := all_word_sequences; hwords := all_word_Xlengths;
                sequences := seqs; X := x; lengths := l;
                this_word := this_word; n_constant := n_constant;
                min_n_components := min_n_components;
                max_n_components := max_n_components;
                random_state := random_state; verbose := verbose |}
      end
  end.

(** [math.log(n)] on an int. *)
Definition math_log {L : HmmLib} (n : Z) : outcome float :=
  if n <=? 0 then Raise ValueError else Ok (ln n).

Section BaseModel.

Context {L : HmmLib}.

(** [ModelSelector.base_model], lines 34-47. *)
Definition base_model (self : ModelSelector) (num_states : Z)
  : list event * outcome (option Model) :=
  run (try_except
         (hmm_model <- call_fit num_states (random_state self) (X self) (lengths self) ;;
          (if verbose self
           then emit (EvPrint true (this_word self) num_states)
           else ret tt) ;;;
          ret (Some hmm_model))
         (fun _ =>
            (if verbose self
             then emit (EvPrint false (this_word self) num_states)
             else ret tt) ;;;
            ret None))
      tt.

End BaseModel.

Module SelectorConstant.

Definition select {L : HmmLib} (self : ModelSelector)
  : list event * outcome (option Model) :=
  let best_num_components := n_constant self in
  base_model self best_num_components.

End SelectorConstant.

Module SelectorBIC.

(** The local variables of [select] that outlive an iteration. *)
Record vars {L : HmmLib} : Type := {
  best_model : option Model;
  best_score : float
}.

Section Code.

Context {L : HmmLib}.

(** Lines 82-86. *)
Definition locals : vars := {| best_model := None; best_score := infinity |}.

(** Line 100: [p = i * i + 2 * i * len(self.X[0]) - 1]. *)
Definition n_params (i n_features : Z) : Z := i * i + 2 * i * n_features - 1.

(** Lines 95-101, the body of the [try]: the fitted model and its BIC
    score [-2 * logL + p * math.log(N)]. *)
Definition bic_try (self : ModelSelector) (i : Z) : M vars (Model * float) :=
  hmm_model <- call_fit i (random_state self) (X self) (lengths self) ;;
  logL <- call_score hmm_model (X self) (lengths self) ;;
  let N := Z.of_nat (List.length (lengths self)) in
  x0 <- lift (py_index (X self) 0) ;;
  let p := n_params i (Z.of_nat (List.length x0)) in
  logN <- lift (math_log N) ;;
  pf <- lift (float_of_int p) ;;
  ret (hmm_model, ((-2) * logL + pf * logN)%float).

(** Lines 88-112: the body of the loop over the state counts. *)
Definition bic_body (self : ModelSelector) (i : Z) : M vars (flow (option Model)) :=
  l0 <- lift (py_index (lengths self) 0) ;;
  if i >=? l0 then ret Fallthrough
  else
    r <- try_except (x <- bic_try self i ;; ret (Some x)) (fun _ => ret None) ;;
    match r with
    | None => ret (Returned None)
    | Some (hmm_model, bic_score) =>
        st <- get ;;
        (if PyFloat.lt bic_score (best_score st)
         then put {| best_model := Some hmm_model; best_score := bic_score |}
         else ret tt) ;;;
        ret Fallthrough
    end.

Definition select (self : ModelSelector) : list event * outcome (option Model) :=
  run (r <- for_in_return
              (range (min_n_components self) (max_n_components self + 1))
              (bic_body self) ;;
       match r with
       | Returned v => ret v
       | Fallthrough => st <- get ;; ret (best_model st)
       end)
      locals.

End Code.

End SelectorBIC.

Module SelectorDIC.

Record vars {L : HmmLib} : Type := {
  best_model : option Model;
  best_score : float;
  other_model_scores : float;
  m_count : Z
}.

Section Code.

Context {L : HmmLib}.

(** Lines 132-136; the two counters are unbound until a candidate sets
    them. *)
Definition locals : vars :=
  {| best_model := None; best_score := neg_infinity;
     other_model_scores := 0%float; m_count := 0 |}.

Definition reset_others (st : vars) : vars :=
  {| best_model := best_model st; best_score := best_score st;
     other_model_scores := 0%float; m_count := 0 |}.

(** Lines 181-182.  [other_model_scores] starts as the int [0]; adding a
    float to it, or multiplying it by one, gives what the float [0] gives. *)
Definition add_other (sc : float) (st : vars) : vars :=
  {| best_model := best_model st; best_score := best_score st;
     other_model_scores := (other_model_scores st + sc)%float;
     m_count := m_count st + 1 |}.

Definition set_best (m : Model) (sc : float) (st : vars) : vars :=
  {| best_model := Some m; best_score := sc;
     other_model_scores := other_model_scores st; m_count := m_count st |}.

(** Lines 158-192: the body of the loop over [self.words], for the
    candidate [i], its model and its score on this word. *)
Definition dic_word (self : ModelSelector) (i : Z) (hmm_model : Model)
           (this_model_score : float) (w : word) : M vars unit :=
  if String.eqb w (this_word self) then ret tt
  else
    xl <- lift (dict_item String.eqb w (hwords self)) ;;
    let (X, lengths) := (xl : array * list Z) in
    l0 <- lift (py_index lengths 0) ;;
    if i >? l0 then ret tt
    else
      other_hmm_model <- call_fit i (random_state self) X lengths ;;
      other_hmm_model_score <-
        try_except (call_score other_hmm_model X lengths) (fun _ => ret 0%float) ;;
      modify (add_other other_hmm_model_score) ;;;
      st <- get ;;
      inv <- lift (int_truediv 1 (m_count st)) ;;
      let dic_score := (this_model_score - inv * other_model_scores st)%float in
      if PyFloat.gt dic_score (best_score st)
      then put (set_best hmm_model dic_score st)
      else ret tt.

(** Lines 143-195: the body of the loop over the state counts. *)
Definition dic_body (self : ModelSelector) (i : Z) : M vars unit :=
  try_except
    (l0 <- lift (py_index (lengths self) 0) ;;
     if i >? l0 then ret tt
     else
       hmm_model <- call_fit i (random_state self) (X self) (lengths self) ;;
       this_model_score <- call_score hmm_model (X self) (lengths self) ;;
       modify reset_others ;;;
       for_in (keys (words self)) (dic_word self i hmm_model this_model_score))
    (fun _ => ret tt).

Definition select (self : ModelSelector) : list event * outcome (option Model) :=
  run (for_in (range (min_n_components self) (max_n_components self + 1))
              (dic_body self) ;;;
       st <- get ;;
       ret (best_model st))
      locals.

End Code.

End SelectorDIC.

Module SelectorCV.

(** [hmm_model] is [None] while the variable is unbound. *)
Record vars {L : HmmLib} : Type := {
  best_model : option Model;
  best_score : float;
  hmm_model : option Model;
  total_score : pynum
}.

Section Code.

Context {L : HmmLib}.

(** Lines 218-222. *)
Definition locals : vars :=
  {| best_model := None; best_score := neg_infinity;
     hmm_model := None; total_score := PInt 0 |}.

Definition set_total (t : pynum) (st : vars) : vars :=
  {| best_model := best_model st; best_score := best_score st;
     hmm_model := hmm_model st; total_score := t |}.

Definition set_hmm_model (m : Model) (st : vars) : vars :=
  {| best_model := best_model st; best_score := best_score st;
     hmm_model := Some m; total_score := total_score st |}.

Definition set_best (m : Model) (sc : float) (st : vars) : vars :=
  {| best_model := Some m; best_score := sc;
     hmm_model := hmm_model st; total_score := total_score st |}.

(** Lines 229-245: the body of the loop over the folds. *)
Definition cv_fold (self : ModelSelector) (i : Z) (fold : list nat * list nat)
  : M vars unit :=
  let (cv_train_idx, cv_test_idx) := fold in
  let word_sequences := sequences self in
  xs <- lift (combine_sequences cv_train_idx word_sequences) ;;
  ys <- lift (combine_sequences cv_test_idx word_sequences) ;;
  let (X, X_lengths) := (xs : array * list Z) in
  let (Y, Y_lengths) := (ys : array * list Z) in
  try_except
    (m <- call_fit i (random_state self) X X_lengths ;;
     modify (set_hmm_model m) ;;;
     logL <- call_score m Y Y_lengths ;;
     st <- get ;;
     t <- lift (num_add_float (total_score st) logL) ;;
     modify (set_total (PFloat t)))
    (fun _ => ret tt).

(** Lines 224-253: the body of the loop over the state counts. *)
Definition cv_body (self : ModelSelector) (split_method : KFold) (i : Z)
  : M vars unit :=
  let word_sequences := sequences self in
  let num_splits := min_n_components self in
  modify (set_total (PInt 0)) ;;;
  folds <- lift (KFold_split split_method word_sequences) ;;
  for_in folds (cv_fold self i) ;;;
  st <- get ;;
  avg_score <- lift (num_truediv (total_score st) num_splits) ;;
  if PyFloat.gt avg_score (best_score st)
  then
    match hmm_model st with
    | Some m => put (set_best m avg_score st)
    | None => raise UnboundLocalError
    end
  else ret tt.

Definition select (self : ModelSelector) : list event * outcome (option Model) :=
  let word_sequences := sequences self in
  let num_splits := min_n_components self in
  if Z.of_nat (List.length word_sequences) <? num_splits
  then run (ret None) locals
  else
    run (split_method <- lift (KFold_new num_splits) ;;
         for_in (range (min_n_components self) (max_n_components self))
                (cv_body self split_method) ;;;
         st <- get ;;
         ret (best_model st))
        locals.

End Code.

End SelectorCV.

(** ** A table-driven library, to run the code on concrete inputs *)

Module TableLib.

(** [combine_sequences] of [asl_utils]: the sequences at the given
    indices, stacked, and their lengths. *)
Fixpoint pick_sequences (idx : list nat) (seqs : list sequence)
  : outcome (list sequence) :=
  match idx with
  | [] => Ok []
  | i :: rest =>
      match nth_error seqs i, pick_sequences rest seqs with
      | Some s, Ok ss => Ok (s :: ss)
      | None, _ => Raise IndexError
      | _, Raise e => Raise e
      end
  end.

Definition combine (idx : list nat) (seqs : list sequence)
  : outcome (array * list Z) :=
  match pick_sequences idx seqs with
  | Ok fold => Ok (List.concat fold, map (fun s => Z.of_nat (List.length s)) fold)
  | Raise e => Raise e
  end.

(** [KFold(n_splits=k).split] without shuffling: [k] consecutive test
    folds, the first [n mod k] of them one longer than the rest. *)
Fixpoint kfold_from (n q r : nat) (start : nat) (folds : nat)
  : list (list nat * list nat) :=
  match folds with
  | O => []
  | S folds' =>
      let size := (q + (if Nat.ltb 0 r then 1 else 0))%nat in
      (seq 0 start ++ seq (start + size) (n - (start + size)), seq start size)
        :: kfold_from n q (Nat.pred r) (start + size) folds'
  end.

Definition kfold_split (k : Z) (seqs : list sequence)
  : outcome (list (list nat * list nat)) :=
  let n := List.length seqs in
  if Z.of_nat n <? k then Raise ValueError
  else Ok (kfold_from n (n / Z.to_nat k) (n mod Z.to_nat k) 0 (Z.to_nat k)).

(** [math.log] at the arguments the examples reach: 1, 2, 6, 7 and 20. *)
Definition log_table (n : Z) : float :=
  if n =? 1 then 0%float
  else if n =? 2 then 0x1.62e42fefa39efp-1%float
  else if n =? 6 then 0x1.cab0bfa2a2002p+0%float
  else if n =? 7 then 0x1.f2272ae325a57p+0%float
  else if n =? 20 then 0x1.7f7427b73e391p+1%float
  else nan.

(** A model remembers its number of states and the number of frames it
    was fitted to; [fit_ok] says which fits succeed and [score_of] gives
    the log-likelihood of an array by its number of frames. *)
Definition lib (fit_ok : Z -> nat -> bool)
           (score_of : Z -> nat -> nat -> option float) : HmmLib :=
  {| Model := Z * nat;
     fit := fun n _ X _ =>
              if fit_ok n (List.length X) then Some (n, List.length X) else None;
     score := fun m X _ => score_of (fst m) (snd m) (List.length X);
     ln := log_table;
     KFold := Z;
     KFold_new := fun k => if k <=? 1 then Raise ValueError else Ok k;
     KFold_split := kfold_split;
     combine_sequences := combine |}.

(** An array of [n] one-feature frames. *)
Definition frames (n : nat) : array := repeat [0%float] n.

End TableLib.

(** ** What the loops of the recognizer compute *)

Module RecognizerSpec.

Section Spec.

Context {L : HmmLib}.

(** The value lines 38-44 record for a model. *)
Definition item_score (model : Model) (test_X : array) (test_Xlength : list Z) : float :=
  match score model test_X test_Xlength with
  | Some v => v
  | None => (-1000)%float
  end.

Definition scored (models : dict word Model) (test_X : array) (test_Xlength : list Z)
  : dict word float :=
  map (fun item => (fst item, item_score (snd item) test_X test_Xlength)) models.

(** Lines 45-47 along a list of scores. *)
Fixpoint pick (scores : dict word float) (max_prob : float) (best_word : option word)
  : float * option word :=
  match scores with
  | [] => (max_prob, best_word)
  | (w, s) :: rest =>
      if PyFloat.gt s max_prob then pick rest s (Some w)
      else pick rest max_prob best_word
  end.

(** The dictionary and the guess of each item, in turn. *)
Fixpoint run_items (models : dict word Model) (items : list (array * list Z))
         (best_word : option word) : list (dict word float * option word) :=
  match items with
  | [] => []
  | (test_X, test_Xlength) :: rest =>
      let pm := scored models test_X test_Xlength in
      let bw := snd (pick pm neg_infinity best_word) in
      (pm, bw) :: run_items models rest bw
  end.

(** The local variables after one word, after the words of one item and
    after one item. *)
Definition after_word (w : word) (s : float) (st : Recognizer.vars) : Recognizer.vars :=
  let st' := Recognizer.set_prob_map (Recognizer.prob_map st ++ [(w, s)]) st in
  if PyFloat.gt s (Recognizer.max_prob st) then Recognizer.set_best s w st' else st'.

Definition after_words (scores : dict word float) (st : Recognizer.vars)
  : Recognizer.vars :=
  let r := pick scores (Recognizer.max_prob st) (Recognizer.best_word st) in
  {| Recognizer.probabilities := Recognizer.probabilities st;
     Recognizer.guesses := Recognizer.guesses st;
     Recognizer.best_word := snd r;
     Recognizer.prob_map := Recognizer.prob_map st ++ scores;
     Recognizer.max_prob := fst r |}.

Definition after_item (models : dict word Model) (data : array * list Z)
           (st : Recognizer.vars) : Recognizer.vars :=
  Recognizer.append_item
    (after_words (scored models (fst data) (snd data)) (Recognizer.new_item st)).

(** [w] has a value in [pm] that no value of [pm] is above. *)
Definition best_in (pm : dict word float) (w : word) : Prop :=
  exists s, dict_get String.eqb w pm = Some s /\
            forall w' s', dict_get String.eqb w' pm = Some s' -> PyFloat.gt s' s = false.

(** No value of [pm] is above [-inf]: each is [-inf] or NaN. *)
Definition all_lowest (pm : dict word float) : Prop :=
  forall w s, dict_get String.eqb w pm = Some s -> PyFloat.gt s neg_infinity = false.

Definition known_word (models : dict word Model) (best_word : option word) : Prop :=
  match best_word with
  | Some w => In w (keys models)
  | None => True
  end.

(** The claim that every guess is a best word of its item, as the
    documentation of [recognize] puts it. *)
Definition guesses_are_best (models : dict word Model)
           (probs : list (dict word float)) (guesses : list (option word)) : Prop :=
  models <> [] ->
  forall k pm g,
    nth_error probs k = Some pm -> nth_error guesses k = Some g ->
    exists w, g = Some w /\ In w (keys models) /\ best_in pm w.

End Spec.

End RecognizerSpec.

(** [word_id] is a key of the test set and an index of its word list. *)
Definition item_of (test_set : SinglesData) (word_id : Z) (data : array * list Z) : Prop :=
  dict_get Z.eqb word_id (get_all_Xlengths test_set) = Some data /\
  - Z.of_nat (List.length (wordlist test_set)) <= word_id
    < Z.of_nat (List.length (wordlist test_set)).

(** Every word id of the test set indexes its word list, as in a
    [SinglesData] built from one table of items. *)
Definition ids_valid (test_set : SinglesData) : Prop :=
  forall word_id, In word_id (keys (get_all_Xlengths test_set)) ->
    - Z.of_nat (List.length (wordlist test_set)) <= word_id
      < Z.of_nat (List.length (wordlist test_set)).

(** ** Concrete inputs for the recognizer *)

Module RecognizerExamples.

(** A library whose every score is [-inf]. *)
Definition silent_lib : HmmLib :=
  TableLib.lib (fun _ _ => true) (fun _ _ _ => Some neg_infinity).

(** A library whose every score is NaN. *)
Definition nan_lib : HmmLib :=
  TableLib.lib (fun _ _ => true) (fun _ _ _ => Some nan).

Definition one_model : dict word (@Model silent_lib) := [("JOHN"%string, (3, 10%nat))].

Definition one_item : SinglesData :=
  {| wordlist := ["JOHN"%string];
     hmm_data := [(0, (TableLib.frames 2, [2]))] |}.

(** A library whose two-state models score [-50] on two frames and [-70]
    otherwise, and whose other models raise when they score. *)
Definition mixed_lib : HmmLib :=
  TableLib.lib (fun _ _ => true)
               (fun n _ frames =>
                  if n =? 2
                  then Some (if Nat.eqb frames 2 then (-50)%float else (-70)%float)
                  else None).

Definition two_models : dict word (@Model mixed_lib) :=
  [("JOHN"%string, (2, 10%nat)); ("BOOK"%string, (3, 12%nat))].

Definition two_items : SinglesData :=
  {| wordlist := ["BOOK"%string; "JOHN"%string];
     hmm_data := [(0, (TableLib.frames 3, [3])); (1, (TableLib.frames 2, [2]))] |}.

Definition no_models : dict word (@Model mixed_lib) := [].

End RecognizerExamples.

(** ** Reading the selectors *)

(** The selector with other bounds on the number of states. *)
Definition with_bounds (self : ModelSelector) (min_n max_n : Z) : ModelSelector :=
  {| words := words self; hwords := hwords self; sequences := sequences self;
     X := X self; lengths := lengths self; this_word := this_word self;
     n_constant := n_constant self;
     min_n_components := min_n; max_n_components := max_n;
     random_state := random_state self; verbose := verbose self |}.

(** Every event of a computation satisfies [P], whatever the local
    variables it starts from. *)
Definition emits {L : HmmLib} {S A} (P : event -> Prop) (c : M S A) : Prop :=
  forall s, Forall P (fst (fst (c s))).

(** An event that is not a fit with [n] states outside [lo <= n < hi]. *)
Definition fits_within {L : HmmLib} (lo hi : Z) (ev : event) : Prop :=
  match ev with
  | EvFit n _ _ _ => lo <= n < hi
  | _ => True
  end.

Module BICSpec.

Section Spec.

Context {L : HmmLib}.

(** The candidate [i] fits and scores without raising, giving the model [m]
    and the score [b] that lines 95-101 compute, in which [N] is
    [len(self.lengths)], the number of training sequences. *)
Definition bic_of (self : ModelSelector) (i : Z) (m : Model) (b : float) : Prop :=
  fit i (random_state self) (X self) (lengths self) = Some m /\
  exists logL x0 pf,
    score m (X self) (lengths self) = Some logL /\
    py_index (X self) 0 = Ok x0 /\
    float_of_int (SelectorBIC.n_params i (Z.of_nat (List.length x0))) = Ok pf /\
    b = ((-2) * logL + pf * ln (Z.of_nat (List.length (lengths self))))%float.

(** Fitting or scoring the candidate [i] raises. *)
Definition fit_or_score_raises (self : ModelSelector) (i : Z) : Prop :=
  fit i (random_state self) (X self) (lengths self) = None \/
  exists m, fit i (random_state self) (X self) (lengths self) = Some m /\
            score m (X self) (lengths self) = None.

(** The BIC score as the documentation of [SelectorBIC] states it (lines
    68 and 72): [BIC = -2 * logL + p * logN] with [p] the number of
    parameters and [N] the number of data points, [len(self.X)].  The
    candidate [i] fits and scores without raising, giving the model [m] and
    the documented score [b]. *)
Definition bic_documented (self : ModelSelector) (i : Z) (m : Model) (b : float)
  : Prop :=
  fit i (random_state self) (X self) (lengths self) = Some m /\
  exists logL x0 pf,
    score m (X self) (lengths self) = Some logL /\
    py_index (X self) 0 = Ok x0 /\
    float_of_int (SelectorBIC.n_params i (Z.of_nat (List.length x0))) = Ok pf /\
    b = ((-2) * logL + pf * ln (Z.of_nat (List.length (X self))))%float.



(** The local variables after a candidate that fitted and scored. *)
Definition after_candidate (m : Model) (b : float) (st : SelectorBIC.vars)
  : SelectorBIC.vars :=
  if PyFloat.lt b (SelectorBIC.best_score st)
  then {| SelectorBIC.best_model := Some m; SelectorBIC.best_score := b |}
  else st.


End Spec.

End BICSpec.

Module DICSpec.

Section Spec.

Context {L : HmmLib}.

(** The log-likelihood of the data of a word under a model with [i] states
    fitted to that data. *)
Definition logL_of (self : ModelSelector) (i : Z) (data : array * list Z)
  : option float :=
  match fit i (random_state self) (fst data) (snd data) with
  | Some m => score m (fst data) (snd data)
  | None => None
  end.

Fixpoint logLs (self : ModelSelector) (i : Z) (others : list (array * list Z))
  : option (list float) :=
  match others with
  | [] => Some []
  | data :: rest =>
      match logL_of self i data, logLs self i rest with
      | Some v, Some vs => Some (v :: vs)
      | _, _ => None
      end
  end.

(** The words of the training set other than [this_word], with their data. *)
Definition other_words (self : ModelSelector) : list (array * list Z) :=
  map snd (filter (fun e => negb (String.eqb (fst e) (this_word self))) (hwords self)).

(** The score as the documentation of [SelectorDIC] states it:
    [DIC = logL(this_word) - 1/(M-1) * SUM(logL(other words))], the sum over
    all the [M-1] other words. *)
Definition dic_documented (self : ModelSelector) (i : Z) : option float :=
  match logL_of self i (X self, lengths self), logLs self i (other_words self) with
  | Some this, Some others =>
      Some (this
            - (1 / PyFloat.of_int (Z.of_nat (List.length others)))
              * fold_left PrimFloat.add others 0)%float
  | _, _ => None
  end.

End Spec.

End DICSpec.

(** ** Concrete inputs for the selectors *)

Module SelectorExamples.

(** The arrays and lengths that [get_all_Xlengths] holds for a word. *)
Definition xlengths (seqs : list sequence) : array * list Z :=
  (List.concat seqs, map (fun s => Z.of_nat (List.length s)) seqs).

Definition training (entries : dict word (list sequence)) : dict word (array * list Z) :=
  map (fun e => (fst e, xlengths (snd e))) entries.

(** The selector [ModelSelector(sequences, Xlengths, w, min_n_components=min_n,
    max_n_components=max_n)] for the word [w], whose sequences are [own]. *)
Definition selector (entries : dict word (list sequence)) (w : word)
           (own : list sequence) (min_n max_n : Z) : ModelSelector :=
  {| words := entries; hwords := training entries; sequences := own;
     X := fst (xlengths own); lengths := snd (xlengths own); this_word := w;
     n_constant := 3; min_n_components := min_n; max_n_components := max_n;
     random_state := 14; verbose := false |}.

(** A library in which three states fit much better than two. *)
Definition steep_lib : HmmLib :=
  TableLib.lib (fun _ _ => true)
               (fun n _ _ => if n =? 2 then Some (-100)%float else Some (-10)%float).

(** A library in which no model with three states or more can be fitted. *)
Definition brittle_lib : HmmLib :=
  TableLib.lib (fun n _ => n <? 3) (fun _ _ _ => Some (-100)%float).

Definition fish : dict word (list sequence) :=
  [("FISH"%string, [TableLib.frames 3; TableLib.frames 3])].

Definition book : dict word (list sequence) :=
  [("BOOK"%string, [TableLib.frames 4; TableLib.frames 3])].

Definition john : dict word (list sequence) :=
  [("JOHN"%string, [TableLib.frames 5; TableLib.frames 4])].

Definition go : dict word (list sequence) := [("GO"%string, [TableLib.frames 3])].

Definition fish_2_3 : ModelSelector :=
  selector fish "FISH"%string [TableLib.frames 3; TableLib.frames 3] 2 3.

Definition book_2_3 : ModelSelector :=
  selector book "BOOK"%string [TableLib.frames 4; TableLib.frames 3] 2 3.

Definition john_2_4 : ModelSelector :=
  selector john "JOHN"%string [TableLib.frames 5; TableLib.frames 4] 2 4.

Definition go_2_3 : ModelSelector := selector go "GO"%string [TableLib.frames 3] 2 3.

(** Three words of one sequence each, told apart by their numbers of frames
    (5, 6 and 7), and the log-likelihood of each under a model with two or
    three states fitted to it. *)
Definition three_words : dict word (list sequence) :=
  [("FISH"%string, [TableLib.frames 5]);
   ("BOOK"%string, [TableLib.frames 6]);
   ("JOHN"%string, [TableLib.frames 7])].

Definition three_words_lib : HmmLib :=
  TableLib.lib
    (fun _ _ => true)
    (fun n fitted _ =>
       if n =? 2
       then Some (if Nat.eqb fitted 5 then (-100)%float
                  else if Nat.eqb fitted 6 then (-120)%float else (-80)%float)
       else Some (if Nat.eqb fitted 5 then (-100)%float
                  else if Nat.eqb fitted 6 then (-100)%float else (-110)%float)).

Definition fish_of_three : ModelSelector :=
  selector three_words "FISH"%string [TableLib.frames 5] 2 3.

End SelectorExamples.

(** ** Pre- and postconditions *)

(** From local variables that satisfy [P], the computation [c] ends with a
    value and local variables that satisfy [Q], or raises with local
    variables that satisfy [E]. *)
Definition hoare {L : HmmLib} {S A} (P : S -> Prop) (c : M S A)
           (Q : A -> S -> Prop) (E : exn -> S -> Prop) : Prop :=
  forall s, P s ->
    match c s with
    | (_, s', Ok a) => Q a s'
    | (_, s', Raise e) => E e s'
    end.

(** The calls [recognize] makes for one item: one score per model, in the
    order of the dict. *)
Definition score_calls {L : HmmLib} (models : dict word Model)
           (data : array * list Z) : list event :=
  map (fun item => EvScore (snd item) (fst data) (snd data)) models.

(** The calls made for the word id of an item. *)
Definition calls_of {L : HmmLib} (models : dict word Model) (test_set : SinglesData)
           (word_id : Z) : list event :=
  match dict_get Z.eqb word_id (get_all_Xlengths test_set) with
  | Some data => score_calls models data
  | None => []
  end.

(** The guess before item [k]: [None] before the first item. *)
Definition guess_before (guesses : list (option word)) (k : nat) : option word :=
  match k with
  | O => None
  | Datatypes.S k' => nth k' guesses None
  end.

(** An event that is not a fit, or a fit whose arguments satisfy [P]. *)
Definition fit_with {L : HmmLib} (P : Z -> Z -> array -> list Z -> Prop)
           (ev : event) : Prop :=
  match ev with
  | EvFit n rs X lengths => P n rs X lengths
  | _ => True
  end.

(** A call [SelectorBIC.select] may make: a fit or a score on the data of
    the word, the fit with the selector's random state and a number of
    states within the bounds and below the first length. *)
Definition bic_call {L : HmmLib} (self : ModelSelector) (ev : event) : Prop :=
  match ev with
  | EvFit n rs X' lengths' =>
      min_n_components self <= n <= max_n_components self /\
      match lengths self with l0 :: _ => n < l0 | [] => False end /\
      rs = random_state self /\ X' = X self /\ lengths' = lengths self
  | EvScore _ X' lengths' => X' = X self /\ lengths' = lengths self
  | EvPrint _ _ _ => False
  end.


(** A call [SelectorDIC.select] may make: a score, or a fit with the
    selector's random state and a number of states within the bounds and no
    greater than the first length of the data fitted, which is the data of
    the word or of another word of the training set. *)
Definition dic_call {L : HmmLib} (self : ModelSelector) (ev : event) : Prop :=
  match ev with
  | EvFit n rs X' lengths' =>
      min_n_components self <= n <= max_n_components self /\
      rs = random_state self /\
      (exists l0 ls, lengths' = l0 :: ls /\ n <= l0) /\
      ((X', lengths') = (X self, lengths self) \/
       exists w, w <> this_word self /\
                 dict_get String.eqb w (hwords self) = Some (X', lengths'))
  | EvScore _ _ _ => True
  | EvPrint _ _ _ => False
  end.

(** A model fitted to the data of the word for a candidate within the
    bounds and no greater than the first length, and scored on that data
    without raising. *)
Definition dic_candidate {L : HmmLib} (self : ModelSelector) (m : Model) : Prop :=
  exists i,
    min_n_components self <= i <= max_n_components self /\
    fit i (random_state self) (X self) (lengths self) = Some m /\
    (exists v, score m (X self) (lengths self) = Some v) /\
    exists l0 ls, lengths self = l0 :: ls /\ i <= l0.

(** A call [SelectorCV.select] may make: a score, or a fit with the
    selector's random state, a number of states from [min_n_components] up
    to and not including [max_n_components], on sequences of the word that
    [combine_sequences] put together. *)
Definition cv_call {L : HmmLib} (self : ModelSelector) (ev : event) : Prop :=
  match ev with
  | EvFit n rs X' lengths' =>
      min_n_components self <= n < max_n_components self /\
      rs = random_state self /\
      exists idx, combine_sequences idx (sequences self) = Ok (X', lengths')
  | EvScore _ _ _ => True
  | EvPrint _ _ _ => False
  end.

(** A model fitted for a candidate of [SelectorCV.select] to the training
    sequences of a fold: one of the folds that
    [KFold(n_splits=self.min_n_components).split(self.sequences)] yields,
    its training sequences put together by [combine_sequences]. *)
Definition cv_candidate {L : HmmLib} (self : ModelSelector) (m : Model) : Prop :=
  exists i split_method folds cv_train_idx cv_test_idx X' lengths',
    min_n_components self <= i < max_n_components self /\
    KFold_new (min_n_components self) = Ok split_method /\
    KFold_split split_method (sequences self) = Ok folds /\
    In (cv_train_idx, cv_test_idx) folds /\
    combine_sequences cv_train_idx (sequences self) = Ok (X', lengths') /\
    fit i (random_state self) X' lengths' = Some m.

(** ** More concrete inputs *)

Module MoreExamples.

(** A test set whose second word id, 5, is outside its list of one word. *)
Definition stray_item : SinglesData :=
  {| wordlist := ["JOHN"%string];
     hmm_data := [(0, (TableLib.frames 2, [2])); (5, (TableLib.frames 3, [3]))] |}.

(** The observations of [two_items] under other words. *)
Definition two_items_relabelled : SinglesData :=
  {| wordlist := ["GIVE"%string; "GIVE"%string];
     hmm_data := hmm_data RecognizerExamples.two_items |}.

(** A library in which every model scores [-100]. *)
Definition flat_lib : HmmLib :=
  TableLib.lib (fun _ _ => true) (fun _ _ _ => Some (-100)%float).

(** A library in which nothing can be fitted. *)
Definition never_lib : HmmLib :=
  TableLib.lib (fun _ _ => false) (fun _ _ _ => None).

(** GO with no sequence, with one sequence of two frames, and with one of
    five. *)
Definition go_none : ModelSelector :=
  SelectorExamples.selector [("GO"%string, [])] "GO"%string [] 2 3.

Definition go_short : ModelSelector :=
  SelectorExamples.selector [("GO"%string, [TableLib.frames 2])] "GO"%string
                            [TableLib.frames 2] 2 3.

Definition go_five : ModelSelector :=
  SelectorExamples.selector [("GO"%string, [TableLib.frames 5])] "GO"%string
                            [TableLib.frames 5] 2 3.

(** A library whose models score [-50] on three frames and [-inf]
    otherwise. *)
Definition fading_lib : HmmLib :=
  TableLib.lib (fun _ _ => true)
               (fun _ _ frames =>
                  Some (if Nat.eqb frames 3 then (-50)%float else neg_infinity)).

(** A library whose models raise when they score three frames; otherwise
    those with two states score [-70] and the others [-50]. *)
Definition choking_lib : HmmLib :=
  TableLib.lib (fun _ _ => true)
               (fun n _ frames =>
                  if Nat.eqb frames 3 then None
                  else Some (if n =? 2 then (-70)%float else (-50)%float)).

(** A library in which three states fit a little better than two: the
    log-likelihoods are [-93] and [-100]. *)
Definition close_lib : HmmLib :=
  TableLib.lib (fun _ _ => true)
               (fun n _ _ => if n =? 2 then Some (-100)%float else Some (-93)%float).

(** GIVE with two sequences of ten frames. *)
Definition give_2_3 : ModelSelector :=
  SelectorExamples.selector
    [("GIVE"%string, [TableLib.frames 10; TableLib.frames 10])] "GIVE"%string
    [TableLib.frames 10; TableLib.frames 10] 2 3.

End MoreExamples.

(** * Properties *)

Unset Implicit Arguments.

(** ** The order on floats *)

Module FloatOrder.

Lemma SFltb_irrefl (f : spec_float) : SFltb f f = false.
Proof.
  unfold SFltb.
  destruct f as [s| [|] | | [|] m e]; simpl; try reflexivity;
    rewrite Z.compare_refl, Pos.compare_cont_refl; reflexivity.
Qed.

Lemma SFltb_trans (f g h : spec_float) :
  SFltb f g = true -> SFltb g h = true -> SFltb f h = true.
Proof.
  unfold SFltb.
  destruct f as [sf| [|] | | [|] mf ef];
    destruct g as [sg| [|] | | [|] mg eg];
    destruct h as [sh| [|] | | [|] mh eh];
    simpl; try discriminate; try reflexivity;
    rewrite ?Pos.compare_cont_spec; simpl;
    destruct (Z.compare_spec ef eg); try discriminate;
    destruct (Z.compare_spec eg eh); try discriminate;
    destruct (Z.compare_spec ef eh); try lia; try reflexivity;
    subst;
    destruct (Pos.compare_spec mf mg); try discriminate;
    destruct (Pos.compare_spec mg mh); try discriminate;
    destruct (Pos.compare_spec mf mh); try lia; try reflexivity;
    simpl; intros; try discriminate.
Qed.

Lemma SFltb_neg_infinity_least (f g : spec_float) :
  SFltb (S754_infinity true) f = false -> SFltb g f = false.
Proof.
  unfold SFltb.
  destruct f as [sf| [|] | | [|] mf ef]; simpl; try discriminate;
    destruct g as [sg| [|] | | [|] mg eg]; simpl; reflexivity.
Qed.

Lemma ltb_irrefl (x : float) : PrimFloat.ltb x x = false.
Proof. rewrite ltb_spec. apply SFltb_irrefl. Qed.

Lemma ltb_trans (x y z : float) :
  PrimFloat.ltb x y = true -> PrimFloat.ltb y z = true -> PrimFloat.ltb x z = true.
Proof. rewrite !ltb_spec. apply SFltb_trans. Qed.

Lemma gt_irrefl (x : float) : PyFloat.gt x x = false.
Proof. apply ltb_irrefl. Qed.

(** Nothing that was not above [y] is above something above [y]. *)
Lemma gt_false_mono (s x y : float) :
  PyFloat.gt s y = false -> PyFloat.gt x y = true -> PyFloat.gt s x = false.
Proof.
  unfold PyFloat.gt. intros Hs Hx.
  destruct (PrimFloat.ltb x s) eqn:E; [|reflexivity].
  rewrite (ltb_trans _ _ _ Hx E) in Hs. discriminate.
Qed.

(** A float that is not above [-inf] (it is [-inf] or NaN) is above nothing. *)
Lemma not_gt_neg_infinity (x y : float) :
  PyFloat.gt x neg_infinity = false -> PyFloat.gt x y = false.
Proof.
  unfold PyFloat.gt. rewrite !ltb_spec.
  change (Prim2SF neg_infinity) with (S754_infinity true).
  apply SFltb_neg_infinity_least.
Qed.

End FloatOrder.

(** ** Dicts *)

Section DictFacts.

Variables K V : Type.
Variable eqb : K -> K -> bool.
Hypothesis eqb_spec : forall a b, eqb a b = true <-> a = b.

Lemma eqb_refl_of_spec (k : K) : eqb k k = true.
Proof. apply eqb_spec. reflexivity. Qed.

Lemma eqb_false_of_spec (a b : K) : a <> b -> eqb a b = false.
Proof.
  intros Hne. destruct (eqb a b) eqn:E; [|reflexivity].
  apply eqb_spec in E. contradiction.
Qed.

Lemma dict_set_fresh (k : K) (v : V) (d : dict K V) :
  ~ In k (keys d) -> dict_set eqb k v d = d ++ [(k, v)].
Proof.
  induction d as [|[k' v'] d IH]; simpl; intros Hn; [reflexivity|].
  rewrite eqb_false_of_spec by (intros ->; apply Hn; now left).
  rewrite IH by (intros Hin; apply Hn; now right). reflexivity.
Qed.

Lemma dict_get_In (k : K) (v : V) (d : dict K V) :
  dict_get eqb k d = Some v -> In (k, v) d.
Proof.
  induction d as [|[k' v'] d IH]; simpl; [discriminate|].
  destruct (eqb k k') eqn:E.
  - apply eqb_spec in E. subst. intros [= ->]. now left.
  - intros H. right. now apply IH.
Qed.

Lemma In_dict_get (k : K) (v : V) (d : dict K V) :
  dict_wf d -> In (k, v) d -> dict_get eqb k d = Some v.
Proof.
  unfold dict_wf.
  induction d as [|[k' v'] d IH]; simpl; intros Hnd Hin; [contradiction|].
  inversion Hnd as [|? ? Hnotin Hnd']; subst.
  destruct Hin as [[= -> ->]|Hin].
  - now rewrite eqb_refl_of_spec.
  - rewrite eqb_false_of_spec; [now apply IH|].
    intros ->. apply Hnotin. apply (in_map fst) in Hin. exact Hin.
Qed.

Lemma dict_get_key (k : K) (d : dict K V) :
  In k (keys d) -> exists v, dict_get eqb k d = Some v.
Proof.
  induction d as [|[k' v'] d IH]; simpl; [contradiction|].
  intros [->|Hin].
  - rewrite eqb_refl_of_spec. eauto.
  - destruct (eqb k k'); eauto.
Qed.

End DictFacts.

(** ** The recognizer *)

Section RecognizerFacts.

Context {L : HmmLib}.

Import Recognizer RecognizerSpec.

Lemma score_word_run (test_X : array) (test_Xlength : list Z) (w : word) (model : Model)
      (st : vars) :
  ~ In w (keys (prob_map st)) ->
  exists t,
    score_word test_X test_Xlength (w, model) st
    = (t, after_word w (item_score model test_X test_Xlength) st, Ok tt).
Proof.
  intros Hfresh.
  unfold score_word, after_word, item_score, bind, try_except, call_score, modify, get,
    put, ret.
  destruct (score model test_X test_Xlength) as [v|]; cbn;
    rewrite (dict_set_fresh _ _ String.eqb String.eqb_eq) by exact Hfresh.
  - unfold PyFloat.gt. destruct (PrimFloat.ltb (max_prob st) v); cbn; eexists; reflexivity.
  - unfold PyFloat.gt. destruct (PrimFloat.ltb (max_prob st) (-1000)); cbn; eexists;
      reflexivity.
Qed.

Lemma after_words_cons (w : word) (s : float) (scores : dict word float) (st : vars) :
  after_words scores (after_word w s st) = after_words ((w, s) :: scores) st.
Proof.
  unfold after_words, after_word, PyFloat.gt. cbn [pick].
  destruct (PrimFloat.ltb (max_prob st) s) eqn:E; cbn; unfold PyFloat.gt; rewrite E;
    rewrite <- app_assoc; reflexivity.
Qed.

Lemma score_words_run (test_X : array) (test_Xlength : list Z)
      (models : dict word Model) :
  dict_wf models ->
  forall st,
    (forall w, In w (keys models) -> ~ In w (keys (prob_map st))) ->
    exists t,
      for_in models (score_word test_X test_Xlength) st
      = (t, after_words (scored models test_X test_Xlength) st, Ok tt).
Proof.
  unfold dict_wf.
  induction models as [|[w model] models IH]; intros Hnd st Hfresh.
  - exists []. unfold after_words. cbn. rewrite app_nil_r. destruct st; reflexivity.
  - inversion Hnd as [|? ? Hw Hnd']; subst.
    destruct (score_word_run test_X test_Xlength w model st) as [t1 E1].
    { apply Hfresh. now left. }
    destruct (IH Hnd' (after_word w (item_score model test_X test_Xlength) st))
      as [t2 E2].
    { intros w' Hin Hin'.
      assert (Hk : keys (prob_map (after_word w (item_score model test_X test_Xlength) st))
                   = keys (prob_map st) ++ [w]).
      { unfold after_word. destruct (PyFloat.gt _ _); cbn; unfold keys;
          rewrite map_app; reflexivity. }
      rewrite Hk in Hin'.
      apply in_app_or in Hin'. destruct Hin' as [Hin'|[<-|[]]].
      - apply (Hfresh w'); [now right|exact Hin'].
      - apply Hw. exact Hin. }
    exists (t1 ++ t2).
    cbn [for_in]. unfold bind at 1. rewrite E1, E2.
    rewrite after_words_cons. reflexivity.
Qed.

Lemma py_index_valid {A} (l : list A) (i : Z) :
  - Z.of_nat (List.length l) <= i < Z.of_nat (List.length l) ->
  exists a, py_index l i = Ok a.
Proof.
  intros Hi. unfold py_index. cbv zeta.
  destruct ((0 <=? i) && (i <? Z.of_nat (List.length l))) eqn:E1.
  - apply andb_true_iff in E1. destruct E1 as [H0 H1].
    apply Z.leb_le in H0. apply Z.ltb_lt in H1.
    destruct (nth_error l (Z.to_nat i)) eqn:E; [eauto|].
    apply nth_error_None in E. lia.
  - assert (Hneg : i < 0).
    { apply andb_false_iff in E1. destruct E1 as [E|E].
      - apply Z.leb_gt in E. lia.
      - apply Z.ltb_ge in E. lia. }
    replace ((- Z.of_nat (List.length l) <=? i) && (i <? 0)) with true
      by (symmetry; apply andb_true_iff; split; [apply Z.leb_le|apply Z.ltb_lt]; lia).
    destruct (nth_error l (Z.to_nat (Z.of_nat (List.length l) + i))) eqn:E; [eauto|].
    apply nth_error_None in E. lia.
Qed.

Lemma recognize_item_run (models : dict word Model) (test_set : SinglesData)
      (word_id : Z) (data : array * list Z) (st : vars) :
  dict_wf models ->
  item_of test_set word_id data ->
  exists t,
    recognize_item models test_set word_id st = (t, after_item models data st, Ok tt).
Proof.
  intros Hwf [Hget Hidx].
  destruct (py_index_valid (wordlist test_set) word_id Hidx) as [tw Htw].
  destruct (score_words_run (fst data) (snd data) models Hwf (new_item st))
    as [t E]; [intros w _ []|].
  exists ([] ++ [] ++ [] ++ t ++ []).
  unfold recognize_item, dict_item, bind, lift, modify.
  rewrite Hget, Htw, E. reflexivity.
Qed.

Lemma recognize_items_run (models : dict word Model) (test_set : SinglesData) :
  dict_wf models ->
  forall ids datas st,
    Forall2 (item_of test_set) ids datas ->
    exists t st',
      for_in ids (recognize_item models test_set) st = (t, st', Ok tt) /\
      probabilities st'
      = probabilities st ++ map fst (run_items models datas (best_word st)) /\
      guesses st' = guesses st ++ map snd (run_items models datas (best_word st)).
Proof.
  intros Hwf ids datas st H. revert st.
  induction H as [|word_id data ids datas Hitem _ IH]; intros st.
  - exists [], st. cbn. rewrite !app_nil_r. auto.
  - destruct (recognize_item_run models test_set word_id data st Hwf Hitem) as [t1 E1].
    destruct (IH (after_item models data st)) as (t2 & st' & E2 & Hp & Hg).
    exists (t1 ++ t2), st'.
    cbn [for_in]. unfold bind at 1. rewrite E1, E2.
    split; [reflexivity|].
    rewrite Hp, Hg. destruct data as [test_X test_Xlength].
    cbn. rewrite <- !app_assoc. auto.
Qed.

Lemma ids_valid_items (test_set : SinglesData) :
  ids_valid test_set ->
  exists datas, Forall2 (item_of test_set) (keys (get_all_Xlengths test_set)) datas.
Proof.
  intros Hvalid.
  assert (Hall : forall ids, incl ids (keys (get_all_Xlengths test_set)) ->
                   exists datas, Forall2 (item_of test_set) ids datas).
  { induction ids as [|word_id ids IH]; intros Hincl.
    - exists []. constructor.
    - destruct IH as [datas Hdatas]; [intros x Hx; apply Hincl; now right|].
      assert (Hin : In word_id (keys (get_all_Xlengths test_set)))
        by (apply Hincl; now left).
      destruct (dict_get_key _ _ Z.eqb Z.eqb_eq word_id _ Hin) as [data Hdata].
      exists (data :: datas). constructor; [|exact Hdatas].
      split; [exact Hdata|]. apply Hvalid, Hin. }
  apply Hall, incl_refl.
Qed.

(** [recognize] returns the dictionaries and guesses of [run_items]. *)
Lemma recognize_run (models : dict word Model) (test_set : SinglesData) :
  dict_wf models ->
  ids_valid test_set ->
  exists datas,
    Forall2 (item_of test_set) (keys (get_all_Xlengths test_set)) datas /\
    result (recognize models test_set)
    = Ok (map fst (run_items models datas None), map snd (run_items models datas None)).
Proof.
  intros Hwf Hvalid.
  destruct (ids_valid_items test_set Hvalid) as [datas Hdatas].
  exists datas. split; [exact Hdatas|].
  destruct (recognize_items_run models test_set Hwf _ _ locals Hdatas)
    as (t & st' & E & Hp & Hg).
  unfold recognize, run, bind, get, ret. rewrite E. cbn.
  rewrite Hp, Hg. reflexivity.
Qed.

Lemma keys_scored (models : dict word Model) (test_X : array) (test_Xlength : list Z) :
  keys (scored models test_X test_Xlength) = keys models.
Proof.
  unfold scored, keys. rewrite map_map. apply map_ext. reflexivity.
Qed.

Lemma scored_wf (models : dict word Model) (test_X : array) (test_Xlength : list Z) :
  dict_wf models -> dict_wf (scored models test_X test_Xlength).
Proof. unfold dict_wf. now rewrite keys_scored. Qed.

Lemma In_scored (models : dict word Model) (test_X : array) (test_Xlength : list Z)
      (w : word) (model : Model) :
  In (w, model) models ->
  In (w, item_score model test_X test_Xlength) (scored models test_X test_Xlength).
Proof.
  intros Hin. unfold scored.
  apply (in_map (fun item => (fst item, item_score (snd item) test_X test_Xlength)))
    in Hin.
  exact Hin.
Qed.

(** No score seen so far is above the running maximum. *)
Lemma pick_max (scores seen : dict word float) :
  forall max_prob best_word,
    (forall w s, In (w, s) seen -> PyFloat.gt s max_prob = false) ->
    forall w s, In (w, s) (seen ++ scores) ->
      PyFloat.gt s (fst (pick scores max_prob best_word)) = false.
Proof.
  revert seen.
  induction scores as [|[w0 s0] scores IH]; intros seen max_prob best_word Hseen w s Hin.
  - rewrite app_nil_r in Hin. cbn. eauto.
  - cbn [pick].
    replace (seen ++ (w0, s0) :: scores) with ((seen ++ [(w0, s0)]) ++ scores) in Hin
      by (rewrite <- app_assoc; reflexivity).
    destruct (PyFloat.gt s0 max_prob) eqn:E.
    + apply (IH (seen ++ [(w0, s0)]) s0 (Some w0)) with (w := w); [|exact Hin].
      intros w1 s1 H1. apply in_app_or in H1. destruct H1 as [H1|[[= <- <-]|[]]].
      * apply FloatOrder.gt_false_mono with (y := max_prob); eauto.
      * apply FloatOrder.gt_irrefl.
    + apply (IH (seen ++ [(w0, s0)]) max_prob best_word) with (w := w); [|exact Hin].
      intros w1 s1 H1. apply in_app_or in H1. destruct H1 as [H1|[[= <- <-]|[]]].
      * eauto.
      * exact E.
Qed.

(** Either no score was above the starting maximum and nothing changed, or
    the best word is a scored word and the maximum is its score. *)
Lemma pick_cases (scores : dict word float) :
  forall max_prob best_word,
    (pick scores max_prob best_word = (max_prob, best_word) /\
     forall w s, In (w, s) scores -> PyFloat.gt s max_prob = false)
    \/ (exists w, snd (pick scores max_prob best_word) = Some w /\
                  In (w, fst (pick scores max_prob best_word)) scores).
Proof.
  induction scores as [|[w0 s0] scores IH]; intros max_prob best_word.
  - left. split; [reflexivity|]. intros w s [].
  - cbn [pick]. destruct (PyFloat.gt s0 max_prob) eqn:E.
    + right. destruct (IH s0 (Some w0)) as [[Heq _]|(w & Hw & Hin)].
      * rewrite Heq. exists w0. split; [reflexivity|now left].
      * exists w. split; [exact Hw|now right].
    + destruct (IH max_prob best_word) as [[Heq Hall]|(w & Hw & Hin)].
      * left. split; [exact Heq|].
        intros w s [[= <- <-]|Hin]; eauto.
      * right. exists w. split; [exact Hw|now right].
Qed.

(** One item: the guess is a best word of the item, or it is the guess
    carried over and no score of the item is above [-inf]. *)
Lemma item_guess (models : dict word Model) (test_X : array) (test_Xlength : list Z)
      (best_word : option word) :
  dict_wf models ->
  known_word models best_word ->
  let pm := scored models test_X test_Xlength in
  let g := snd (pick pm neg_infinity best_word) in
  known_word models g /\
  match g with
  | Some w => best_in pm w
  | None => best_word = None /\ all_lowest pm
  end.
Proof.
  intros Hwf Hknown pm g.
  assert (Hpm : dict_wf pm) by (apply scored_wf; exact Hwf).
  assert (Hmax : forall w s, In (w, s) pm ->
                   PyFloat.gt s (fst (pick pm neg_infinity best_word)) = false).
  { intros w s Hin. apply (pick_max pm [] neg_infinity best_word) with (w := w).
    - intros ? ? [].
    - exact Hin. }
  destruct (pick_cases pm neg_infinity best_word) as [[Heq Hall]|(w & Hw & Hin)].
  - subst g. rewrite Heq. cbn [snd]. split; [exact Hknown|].
    destruct best_word as [w0|].
    + cbn in Hknown. rewrite <- (keys_scored models test_X test_Xlength) in Hknown.
      destruct (dict_get_key _ _ String.eqb String.eqb_eq w0 _ Hknown) as [s0 Hs0].
      exists s0. split; [exact Hs0|].
      intros w' s' Hget. apply FloatOrder.not_gt_neg_infinity.
      apply (Hall w'). apply (dict_get_In _ _ String.eqb String.eqb_eq). exact Hget.
    + split; [reflexivity|].
      intros w s Hget. apply (Hall w).
      apply (dict_get_In _ _ String.eqb String.eqb_eq). exact Hget.
  - subst g. rewrite Hw. split.
    + cbn. rewrite <- (keys_scored models test_X test_Xlength).
      apply (in_map fst) in Hin. exact Hin.
    + exists (fst (pick pm neg_infinity best_word)). split.
      * apply (In_dict_get _ _ String.eqb String.eqb_eq); assumption.
      * intros w' s' Hget. apply (Hmax w').
        apply (dict_get_In _ _ String.eqb String.eqb_eq). exact Hget.
Qed.

Lemma run_items_guess (models : dict word Model) :
  dict_wf models ->
  forall items best_word k pm g,
    known_word models best_word ->
    nth_error (run_items models items best_word) k = Some (pm, g) ->
    match g with
    | Some w => In w (keys models) /\ best_in pm w
    | None =>
        best_word = None /\
        forall j pm' g', (j <= k)%nat ->
          nth_error (run_items models items best_word) j = Some (pm', g') ->
          all_lowest pm'
    end.
Proof.
  intros Hwf.
  induction items as [|[test_X test_Xlength] items IH]; intros best_word k pm g Hknown Hk.
  - destruct k; discriminate.
  - cbn [run_items] in *.
    destruct (item_guess models test_X test_Xlength best_word Hwf Hknown)
      as [Hknown' Hhead].
    cbv zeta in Hknown', Hhead.
    destruct k as [|k]; cbn [nth_error] in Hk.
    + injection Hk as <- <-.
      destruct (snd (pick (scored models test_X test_Xlength) neg_infinity best_word))
        as [w|] eqn:Eg.
      * split; [exact Hknown'|exact Hhead].
      * destruct Hhead as [Hnone Hlow]. split; [exact Hnone|].
        intros j pm' g' Hj Hnth. assert (j = 0%nat) by lia. subst j.
        cbn in Hnth. injection Hnth as <- _. exact Hlow.
    + specialize (IH _ k pm g Hknown' Hk).
      destruct g as [w|]; [exact IH|].
      destruct IH as [Hnone Hrest]. rewrite Hnone in Hhead.
      destruct Hhead as [Hbw Hlow]. split; [exact Hbw|].
      intros j pm' g' Hj Hnth. destruct j as [|j]; cbn [nth_error] in Hnth.
      * injection Hnth as <- _. exact Hlow.
      * apply (Hrest j pm' g'); [lia|exact Hnth].
Qed.

Lemma nth_error_split {A B} (l : list (A * B)) (k : nat) (a : A) (b : B) :
  nth_error (map fst l) k = Some a -> nth_error (map snd l) k = Some b ->
  nth_error l k = Some (a, b).
Proof.
  revert k. induction l as [|[a0 b0] l IH]; intros [|k]; cbn; try discriminate.
  - now intros [= ->] [= ->].
  - apply IH.
Qed.

Lemma run_items_length (models : dict word Model) (items : list (array * list Z)) :
  forall best_word,
    List.length (run_items models items best_word) = List.length items.
Proof.
  induction items as [|[test_X test_Xlength] items IH]; intros best_word; cbn;
    [reflexivity|now rewrite IH].
Qed.

Lemma run_items_nth (models : dict word Model) (items : list (array * list Z)) :
  forall best_word k data,
    nth_error items k = Some data ->
    exists g,
      nth_error (run_items models items best_word) k
      = Some (scored models (fst data) (snd data), g).
Proof.
  induction items as [|[test_X test_Xlength] items IH]; intros best_word k data Hk.
  - destruct k; discriminate.
  - destruct k as [|k]; cbn in Hk |- *.
    + injection Hk as <-. eauto.
    + apply IH. exact Hk.
Qed.

Lemma Forall2_nth_error {A B} (R : A -> B -> Prop) (l : list A) (l' : list B) :
  Forall2 R l l' ->
  forall k a, nth_error l k = Some a -> exists b, nth_error l' k = Some b /\ R a b.
Proof.
  induction 1 as [|a0 b0 l l' Hab _ IH]; intros [|k] a; cbn; try discriminate.
  - intros [= <-]. eauto.
  - apply IH.
Qed.

(** The lists [recognize] returns, entry by entry. *)
Lemma recognize_entries (models : dict word Model) (test_set : SinglesData) :
  dict_wf models ->
  ids_valid test_set ->
  exists probs guesses,
    result (recognize models test_set) = Ok (probs, guesses) /\
    List.length probs = List.length (keys (get_all_Xlengths test_set)) /\
    List.length guesses = List.length (keys (get_all_Xlengths test_set)) /\
    forall k word_id,
      nth_error (keys (get_all_Xlengths test_set)) k = Some word_id ->
      exists data g,
        dict_get Z.eqb word_id (get_all_Xlengths test_set) = Some data /\
        nth_error probs k = Some (scored models (fst data) (snd data)) /\
        nth_error guesses k = Some g.
Proof.
  intros Hwf Hvalid.
  destruct (recognize_run models test_set Hwf Hvalid) as (datas & Hdatas & Hres).
  eexists _, _. split; [exact Hres|].
  rewrite !length_map, run_items_length.
  split; [symmetry; eapply Forall2_length; exact Hdatas|].
  split; [symmetry; eapply Forall2_length; exact Hdatas|].
  intros k word_id Hk.
  destruct (Forall2_nth_error _ _ _ Hdatas k word_id Hk) as (data & Hdata & Hget & _).
  destruct (run_items_nth models datas None k data Hdata) as [g Hg].
  exists data, g. split; [exact Hget|].
  rewrite !nth_error_map, Hg. split; reflexivity.
Qed.

End RecognizerFacts.

Section RecognizerClaims.

Context {L : HmmLib}.

Import Recognizer RecognizerSpec.

(** C1 (amended).  [recognize] returns, and the guess it emits for an item
    is either a word of [models] whose recorded log-likelihood in the
    dictionary of that item is maximal (no word of the dictionary has a
    greater value), or [None]; it is [None] only when no log-likelihood
    recorded for that item or for an earlier one is above [-inf]. *)
Theorem recognize_guess_best_or_none (models : dict word Model) (test_set : SinglesData) :
  dict_wf models ->
  ids_valid test_set ->
  exists probs guesses,
    result (recognize models test_set) = Ok (probs, guesses) /\
    forall k pm g,
      nth_error probs k = Some pm -> nth_error guesses k = Some g ->
      match g with
      | Some w => In w (keys models) /\ best_in pm w
      | None =>
          forall j pm', (j <= k)%nat -> nth_error probs j = Some pm' -> all_lowest pm'
      end.
Proof.
  intros Hwf Hvalid.
  destruct (recognize_run models test_set Hwf Hvalid) as (datas & _ & Hres).
  eexists _, _. split; [exact Hres|].
  intros k pm g Hpm Hg.
  pose proof (nth_error_split _ _ _ _ Hpm Hg) as Hk.
  pose proof (run_items_guess models Hwf datas None k pm g I Hk) as Hguess.
  destruct g as [w|]; [exact Hguess|].
  destruct Hguess as [_ Hlow].
  intros j pm' Hj Hpm'.
  rewrite nth_error_map in Hpm'.
  destruct (nth_error (run_items models datas None) j) as [[pm'' g']|] eqn:E;
    [|discriminate].
  injection Hpm' as <-.
  apply (Hlow j pm'' g' Hj E).
Qed.

(** C5.  [recognize] returns two lists of equal length with one entry per
    item of the test set, in the order of its word ids; the dictionary of an
    item has exactly one key for every word of [models], with the value
    recorded for that word's model on the observations of the item. *)
Theorem recognize_lists (models : dict word Model) (test_set : SinglesData) :
  dict_wf models ->
  ids_valid test_set ->
  exists probs guesses,
    result (recognize models test_set) = Ok (probs, guesses) /\
    List.length probs = List.length guesses /\
    List.length probs = List.length (keys (get_all_Xlengths test_set)) /\
    forall k word_id,
      nth_error (keys (get_all_Xlengths test_set)) k = Some word_id ->
      exists pm g test_X test_Xlength,
        dict_get Z.eqb word_id (get_all_Xlengths test_set) = Some (test_X, test_Xlength) /\
        nth_error probs k = Some pm /\
        nth_error guesses k = Some g /\
        dict_wf pm /\
        (forall w, In w (keys pm) <-> In w (keys models)) /\
        (forall w model, In (w, model) models ->
           dict_get String.eqb w pm = Some (item_score model test_X test_Xlength)).
Proof.
  intros Hwf Hvalid.
  destruct (recognize_entries models test_set Hwf Hvalid)
    as (probs & guesses & Hres & Hlp & Hlg & Hentries).
  exists probs, guesses. split; [exact Hres|].
  split; [congruence|]. split; [exact Hlp|].
  intros k word_id Hk.
  destruct (Hentries k word_id Hk) as ([test_X test_Xlength] & g & Hget & Hpm & Hg).
  exists (scored models test_X test_Xlength), g, test_X, test_Xlength.
  repeat split; try assumption.
  - apply scored_wf. exact Hwf.
  - now rewrite keys_scored.
  - now rewrite keys_scored.
  - intros w model Hin.
    apply (In_dict_get _ _ String.eqb String.eqb_eq).
    + apply scored_wf. exact Hwf.
    + apply In_scored. exact Hin.
Qed.

(** C6.  When scoring an item against the model of a word raises,
    [recognize] records [-1000] for that word in the dictionary of the item,
    goes on with the other words, which all get a value, and returns. *)
Theorem recognize_score_raises (models : dict word Model) (test_set : SinglesData) :
  dict_wf models ->
  ids_valid test_set ->
  exists probs guesses,
    result (recognize models test_set) = Ok (probs, guesses) /\
    forall k word_id test_X test_Xlength w model,
      nth_error (keys (get_all_Xlengths test_set)) k = Some word_id ->
      dict_get Z.eqb word_id (get_all_Xlengths test_set) = Some (test_X, test_Xlength) ->
      In (w, model) models ->
      score model test_X test_Xlength = None ->
      exists pm,
        nth_error probs k = Some pm /\
        dict_get String.eqb w pm = Some (-1000)%float /\
        forall w', In w' (keys models) -> exists s, dict_get String.eqb w' pm = Some s.
Proof.
  intros Hwf Hvalid.
  destruct (recognize_entries models test_set Hwf Hvalid)
    as (probs & guesses & Hres & _ & _ & Hentries).
  exists probs, guesses. split; [exact Hres|].
  intros k word_id test_X test_Xlength w model Hk Hget Hin Hraise.
  destruct (Hentries k word_id Hk) as (data & g & Hget' & Hpm & _).
  rewrite Hget in Hget'. injection Hget' as <-. cbn [fst snd] in Hpm.
  exists (scored models test_X test_Xlength). split; [exact Hpm|]. split.
  - replace (-1000)%float with (item_score model test_X test_Xlength)
      by (unfold item_score; now rewrite Hraise).
    apply (In_dict_get _ _ String.eqb String.eqb_eq).
    + apply scored_wf. exact Hwf.
    + apply In_scored. exact Hin.
  - intros w' Hw'. apply (dict_get_key _ _ String.eqb String.eqb_eq).
    now rewrite keys_scored.
Qed.

Lemma recognize_no_models_run (test_set : SinglesData) (ids : list Z) :
  (forall word_id, In word_id ids ->
     In word_id (keys (get_all_Xlengths test_set))) ->
  ids_valid test_set ->
  forall st,
    for_in ids (recognize_item [] test_set) st
    = ([],
       {| probabilities := probabilities st ++ map (fun _ => []) ids;
          guesses := guesses st ++ map (fun _ => best_word st) ids;
          best_word := best_word st;
          prob_map := match ids with [] => prob_map st | _ => [] end;
          max_prob := match ids with [] => max_prob st | _ => neg_infinity end |},
       Ok tt).
Proof.
  intros Hids Hvalid.
  induction ids as [|word_id ids IH]; intros st.
  - cbn. rewrite !app_nil_r. destruct st; reflexivity.
  - assert (Hin : In word_id (keys (get_all_Xlengths test_set)))
      by (apply Hids; now left).
    destruct (dict_get_key _ _ Z.eqb Z.eqb_eq word_id _ Hin) as [data Hdata].
    destruct (py_index_valid (wordlist test_set) word_id (Hvalid word_id Hin))
      as [tw Htw].
    cbn [for_in]. unfold bind at 1.
    unfold recognize_item at 1, dict_item, bind, lift, modify.
    rewrite Hdata, Htw. cbn [for_in ret app].
    rewrite IH by (intros x Hx; apply Hids; now right).
    cbn. rewrite <- !app_assoc. cbn.
    destruct ids; reflexivity.
Qed.

(** C8.  With no models, [recognize] scores nothing and returns, for every
    item of the test set, an empty dictionary and the guess [None]. *)
Theorem recognize_no_models (test_set : SinglesData) :
  ids_valid test_set ->
  let n := List.length (keys (get_all_Xlengths test_set)) in
  recognize [] test_set = ([], Ok (repeat [] n, repeat None n)).
Proof.
  intros Hvalid n.
  unfold recognize, run, bind at 1.
  rewrite recognize_no_models_run by auto.
  cbn. subst n.
  induction (keys (get_all_Xlengths test_set)) as [|word_id ids IH]; [reflexivity|].
  cbn. injection IH as -> ->. reflexivity.
Qed.

End RecognizerClaims.

(** C1 as stated fails: one word whose model scores the only item at [-inf]
    is never taken as the best word, and the guess is [None]. *)
Lemma recognize_guess_none_counterexample :
  exists probs guesses,
    result (@Recognizer.recognize RecognizerExamples.silent_lib
              RecognizerExamples.one_model RecognizerExamples.one_item)
    = Ok (probs, guesses) /\
    ~ RecognizerSpec.guesses_are_best RecognizerExamples.one_model probs guesses.
Proof.
  eexists _, _. split; [vm_compute; reflexivity|].
  intros Hclaim.
  destruct (Hclaim ltac:(discriminate) 0%nat _ _ eq_refl eq_refl) as (w & Hw & _).
  discriminate Hw.
Qed.

(** Closing the side conditions on concrete dicts and test sets. *)
Ltac dict_wf_by_cases :=
  unfold dict_wf; cbn; repeat constructor; cbn; intuition discriminate.

Ltac ids_valid_by_cases :=
  unfold ids_valid; cbn; intros ? ?;
  repeat match goal with
         | H : _ \/ _ |- _ => destruct H
         | H : False |- _ => destruct H
         end; subst; lia.

(** A score of NaN is above nothing either, and leaves the guess at [None]. *)
Example recognize_guess_none_nan :
  result (@Recognizer.recognize RecognizerExamples.nan_lib
            RecognizerExamples.one_model RecognizerExamples.one_item)
  = Ok ([[("JOHN"%string, nan)]], [None]).
Proof. vm_compute. reflexivity. Qed.

(** The guesses of a run over two models and two items. *)
Lemma recognize_guess_best_or_none_witness :
  dict_wf RecognizerExamples.two_models /\
  ids_valid RecognizerExamples.two_items /\
  exists probs guesses,
    result (@Recognizer.recognize RecognizerExamples.mixed_lib
              RecognizerExamples.two_models RecognizerExamples.two_items)
    = Ok (probs, guesses) /\
    forall k pm g,
      nth_error probs k = Some pm -> nth_error guesses k = Some g ->
      match g with
      | Some w =>
          In w (keys RecognizerExamples.two_models) /\ RecognizerSpec.best_in pm w
      | None =>
          forall j pm', (j <= k)%nat -> nth_error probs j = Some pm' ->
                        RecognizerSpec.all_lowest pm'
      end.
Proof.
  assert (Hwf : dict_wf RecognizerExamples.two_models) by dict_wf_by_cases.
  assert (Hvalid : ids_valid RecognizerExamples.two_items) by ids_valid_by_cases.
  split; [exact Hwf|]. split; [exact Hvalid|].
  exact (@recognize_guess_best_or_none RecognizerExamples.mixed_lib
           RecognizerExamples.two_models RecognizerExamples.two_items Hwf Hvalid).
Defined.

(** The lists of a run over two models and two items. *)
Lemma recognize_lists_witness :
  dict_wf RecognizerExamples.two_models /\
  ids_valid RecognizerExamples.two_items /\
  exists probs guesses,
    result (@Recognizer.recognize RecognizerExamples.mixed_lib
              RecognizerExamples.two_models RecognizerExamples.two_items)
    = Ok (probs, guesses) /\
    List.length probs = List.length guesses /\
    List.length probs
    = List.length (keys (get_all_Xlengths RecognizerExamples.two_items)) /\
    forall k word_id,
      nth_error (keys (get_all_Xlengths RecognizerExamples.two_items)) k = Some word_id ->
      exists pm g test_X test_Xlength,
        dict_get Z.eqb word_id (get_all_Xlengths RecognizerExamples.two_items)
        = Some (test_X, test_Xlength) /\
        nth_error probs k = Some pm /\
        nth_error guesses k = Some g /\
        dict_wf pm /\
        (forall w, In w (keys pm) <-> In w (keys RecognizerExamples.two_models)) /\
        (forall w model, In (w, model) RecognizerExamples.two_models ->
           dict_get String.eqb w pm
           = Some (@RecognizerSpec.item_score RecognizerExamples.mixed_lib
                     model test_X test_Xlength)).
Proof.
  assert (Hwf : dict_wf RecognizerExamples.two_models) by dict_wf_by_cases.
  assert (Hvalid : ids_valid RecognizerExamples.two_items) by ids_valid_by_cases.
  split; [exact Hwf|]. split; [exact Hvalid|].
  exact (@recognize_lists RecognizerExamples.mixed_lib
           RecognizerExamples.two_models RecognizerExamples.two_items Hwf Hvalid).
Defined.

(** A run in which the model of BOOK raises on both items. *)
Lemma recognize_score_raises_witness :
  dict_wf RecognizerExamples.two_models /\
  ids_valid RecognizerExamples.two_items /\
  exists probs guesses,
    result (@Recognizer.recognize RecognizerExamples.mixed_lib
              RecognizerExamples.two_models RecognizerExamples.two_items)
    = Ok (probs, guesses) /\
    forall k word_id test_X test_Xlength w model,
      nth_error (keys (get_all_Xlengths RecognizerExamples.two_items)) k = Some word_id ->
      dict_get Z.eqb word_id (get_all_Xlengths RecognizerExamples.two_items)
      = Some (test_X, test_Xlength) ->
      In (w, model) RecognizerExamples.two_models ->
      @score RecognizerExamples.mixed_lib model test_X test_Xlength = None ->
      exists pm,
        nth_error probs k = Some pm /\
        dict_get String.eqb w pm = Some (-1000)%float /\
        forall w', In w' (keys RecognizerExamples.two_models) ->
                   exists s, dict_get String.eqb w' pm = Some s.
Proof.
  assert (Hwf : dict_wf RecognizerExamples.two_models) by dict_wf_by_cases.
  assert (Hvalid : ids_valid RecognizerExamples.two_items) by ids_valid_by_cases.
  split; [exact Hwf|]. split; [exact Hvalid|].
  exact (@recognize_score_raises RecognizerExamples.mixed_lib
           RecognizerExamples.two_models RecognizerExamples.two_items Hwf Hvalid).
Defined.

(** A run over two items with no models. *)
Lemma recognize_no_models_witness :
  ids_valid RecognizerExamples.two_items /\
  @Recognizer.recognize RecognizerExamples.mixed_lib [] RecognizerExamples.two_items
  = ([], Ok ([[]; []], [None; None])).
Proof.
  assert (Hvalid : ids_valid RecognizerExamples.two_items) by ids_valid_by_cases.
  split; [exact Hvalid|].
  exact (@recognize_no_models RecognizerExamples.mixed_lib
           RecognizerExamples.two_items Hvalid).
Defined.

(** The example at work: the raising model of BOOK is recorded at [-1000]
    and JOHN is the guess for both items. *)
Example recognize_two_items :
  result (@Recognizer.recognize RecognizerExamples.mixed_lib
            RecognizerExamples.two_models RecognizerExamples.two_items)
  = Ok ([[("JOHN"%string, (-70)%float); ("BOOK"%string, (-1000)%float)];
         [("JOHN"%string, (-50)%float); ("BOOK"%string, (-1000)%float)]],
        [Some "JOHN"%string; Some "JOHN"%string]).
Proof. vm_compute. reflexivity. Qed.

(** ** The call log *)

Section Emits.

Context {L : HmmLib}.
Context {S : Type} (P : event -> Prop).

Lemma emits_ret {A} (a : A) : emits P (ret a : M S A).
Proof. intros s. constructor. Qed.

Lemma emits_raise {A} (e : exn) : emits P (raise e : M S A).
Proof. intros s. constructor. Qed.

Lemma emits_lift {A} (o : outcome A) : emits P (lift o : M S A).
Proof. intros s. constructor. Qed.

Lemma emits_get : emits P (get : M S S).
Proof. intros s. constructor. Qed.

Lemma emits_put (s' : S) : emits P (put s').
Proof. intros s. constructor. Qed.

Lemma emits_modify (f : S -> S) : emits P (modify f).
Proof. intros s. constructor. Qed.

Lemma emits_emit (ev : event) : P ev -> emits P (emit ev : M S unit).
Proof. intros H s. cbn. auto. Qed.

Lemma emits_call_fit (n rs : Z) (X : array) (lengths : list Z) :
  P (EvFit n rs X lengths) -> emits P (call_fit n rs X lengths : M S Model).
Proof. intros H s. cbn. auto. Qed.

Lemma emits_call_score (m : Model) (X : array) (lengths : list Z) :
  P (EvScore m X lengths) -> emits P (call_score m X lengths : M S float).
Proof. intros H s. cbn. auto. Qed.

Lemma emits_bind {A B} (c : M S A) (k : A -> M S B) :
  emits P c -> (forall a, emits P (k a)) -> emits P (bind c k).
Proof.
  intros Hc Hk s. unfold bind. specialize (Hc s).
  destruct (c s) as [[t s'] [a|e]]; cbn in *; [|exact Hc].
  specialize (Hk a s'). destruct (k a s') as [[t' s''] r]. cbn in *.
  apply Forall_app. auto.
Qed.

Lemma emits_try_except {A} (c : M S A) (h : exn -> M S A) :
  emits P c -> (forall e, emits P (h e)) -> emits P (try_except c h).
Proof.
  intros Hc Hh s. unfold try_except. specialize (Hc s).
  destruct (c s) as [[t s'] [a|e]]; cbn in *; [exact Hc|].
  specialize (Hh e s'). destruct (h e s') as [[t' s''] r]. cbn in *.
  apply Forall_app. auto.
Qed.

Lemma emits_for_in {I} (items : list I) (body : I -> M S unit) :
  (forall i, In i items -> emits P (body i)) -> emits P (for_in items body).
Proof.
  induction items as [|i items IH]; intros Hbody; cbn [for_in].
  - apply emits_ret.
  - apply emits_bind; [apply Hbody; now left|].
    intros _. apply IH. intros j Hj. apply Hbody. now right.
Qed.

Lemma emits_run {A} (c : M S A) (locals : S) :
  emits P c -> Forall P (trace (run c locals)).
Proof.
  intros Hc. unfold run, trace. specialize (Hc locals).
  destruct (c locals) as [[t s'] r]. exact Hc.
Qed.

End Emits.

Lemma In_range (a b i : Z) : In i (range a b) <-> a <= i < b.
Proof.
  unfold range. rewrite in_map_iff. split.
  - intros (k & <- & Hk). apply in_seq in Hk. lia.
  - intros Hi. exists (Z.to_nat (i - a)). split; [lia|]. apply in_seq. lia.
Qed.

Lemma range_nil (a b : Z) : b <= a -> range a b = [].
Proof. intros H. unfold range. replace (Z.to_nat (b - a)) with 0%nat by lia. reflexivity. Qed.

Lemma range_cons (a b : Z) : a < b -> range a b = a :: range (a + 1) b.
Proof.
  intros H. unfold range.
  replace (Z.to_nat (b - a)) with (Datatypes.S (Z.to_nat (b - (a + 1)))) by lia.
  cbn [seq map]. f_equal; [lia|].
  rewrite <- seq_shift, map_map. apply map_ext. intros k. lia.
Qed.

Lemma range_split (a b c : Z) :
  a <= b <= c -> range a c = range a b ++ range b c.
Proof.
  intros H. remember (Z.to_nat (b - a)) as n eqn:En.
  revert a H En. induction n as [|n IH]; intros a H En.
  - assert (a = b) by lia. subst. now rewrite (range_nil b b) by lia.
  - rewrite (range_cons a c), (range_cons a b) by lia.
    cbn [app]. f_equal. apply IH; lia.
Qed.
(** ** SelectorBIC *)

Section LoopFacts.

Context {L : HmmLib}.

Lemma for_in_return_app {S I R} (items1 items2 : list I) (body : I -> M S (flow R))
      (st : S) :
  for_in_return (items1 ++ items2) body st
  = match for_in_return items1 body st with
    | (t, st', Ok Fallthrough) =>
        let '(t', st'', r) := for_in_return items2 body st' in (t ++ t', st'', r)
    | other => other
    end.
Proof.
  revert st. induction items1 as [|i items1 IH]; intros st.
  - cbn. destruct (for_in_return items2 body st) as [[t' st''] r]. reflexivity.
  - cbn [app for_in_return]. unfold bind.
    destruct (body i st) as [[t st'] [[|v]|e]]; [|reflexivity|reflexivity].
    rewrite IH.
    destruct (for_in_return items1 body st') as [[t1 st1] [[|v]|e]]; try reflexivity.
    destruct (for_in_return items2 body st1) as [[t2 st2] r].
    now rewrite app_assoc.
Qed.

End LoopFacts.

Section BICFacts.

Context {L : HmmLib}.

Import SelectorBIC BICSpec.

Variable self : ModelSelector.
Variables (l0 : Z) (ls : list Z).
Hypothesis lengths_self : lengths self = l0 :: ls.

Lemma first_length : py_index (lengths self) 0 = Ok l0.
Proof.
  rewrite lengths_self. unfold py_index. cbn [List.length].
  replace ((0 <=? 0) && (0 <? Z.of_nat (Datatypes.S (List.length ls)))) with true
    by (symmetry; apply andb_true_iff; split; [apply Z.leb_le|apply Z.ltb_lt]; lia).
  reflexivity.
Qed.

Lemma count_lengths : math_log (Z.of_nat (List.length (lengths self)))
                      = Ok (ln (Z.of_nat (List.length (lengths self)))).
Proof.
  unfold math_log. rewrite lengths_self. cbn [List.length].
  replace (Z.of_nat (Datatypes.S (List.length ls)) <=? 0) with false
    by (symmetry; apply Z.leb_gt; lia).
  reflexivity.
Qed.


Lemma bic_try_raises (i : Z) :
  fit_or_score_raises self i ->
  exists t e, forall st, bic_try self i st = (t, st, Raise e).
Proof.
  intros [Hfit|(m & Hfit & Hscore)]; eexists _, _; intros st;
    unfold bic_try, bind, call_fit, call_score, lift, ret.
  - rewrite Hfit. reflexivity.
  - rewrite Hfit, Hscore. cbn. reflexivity.
Qed.

Lemma bic_body_skip (i : Z) (st : vars) :
  l0 <= i -> bic_body self i st = ([], st, Ok Fallthrough).
Proof.
  intros Hi. unfold bic_body, bind, lift. rewrite first_length.
  replace (i >=? l0) with true by (symmetry; rewrite Z.geb_leb; apply Z.leb_le; lia).
  reflexivity.
Qed.


Lemma bic_body_raises (i : Z) :
  i < l0 -> fit_or_score_raises self i ->
  exists t, forall st, bic_body self i st = (t, st, Ok (Returned None)).
Proof.
  intros Hi Hraise. destruct (bic_try_raises i Hraise) as (t & e & Ht).
  exists (t ++ []). intros st.
  unfold bic_body, bind at 1, lift. rewrite first_length.
  replace (i >=? l0) with false by (symmetry; rewrite Z.geb_leb; apply Z.leb_gt; lia).
  unfold try_except, bind. rewrite Ht. unfold ret. cbn. rewrite ?app_nil_r. reflexivity.
Qed.

(** A loop body never raises and returns nothing but [None]. *)
Lemma bic_body_flow (i : Z) (st : vars) :
  exists t st' r,
    bic_body self i st = (t, st', Ok r) /\ (r = Fallthrough \/ r = Returned None).
Proof.
  unfold bic_body, bind at 1, lift. rewrite first_length.
  destruct (i >=? l0); [eexists _, _, _; split; [reflexivity|now left]|].
  unfold try_except, bind at 1.
  destruct (bind (bic_try self i) (fun x => ret (Some x)) st) as [[t st'] [[[m b]|]|e]] eqn:E.
  - unfold bind, get, ret, put, PyFloat.lt. cbn.
    destruct (PrimFloat.ltb b (best_score st')); cbn;
      eexists _, _, _; (split; [reflexivity|now left]).
  - unfold bind in E. destruct (bic_try self i st) as [[t1 st1] [[m b]|e]]; discriminate.
  - unfold ret. cbn. eexists _, _, _; split; [reflexivity|now right].
Qed.

Lemma bic_loop_raises (items : list Z) (i : Z) :
  In i items -> i < l0 -> fit_or_score_raises self i ->
  forall st, exists t st',
    for_in_return items (bic_body self) st = (t, st', Ok (Returned None)).
Proof.
  intros Hin Hi Hraise.
  induction items as [|j items IH]; [contradiction|]. intros st.
  cbn [for_in_return]. unfold bind.
  destruct Hin as [->|Hin].
  - destruct (bic_body_raises i Hi Hraise) as [t Ht]. rewrite Ht.
    eexists _, _. reflexivity.
  - destruct (bic_body_flow j st) as (t & st' & r & E & [->| ->]); rewrite E.
    + destruct (IH Hin st') as (t' & st'' & E'). rewrite E'. eexists _, _. reflexivity.
    + eexists _, _. reflexivity.
Qed.





End BICFacts.

Section BICClaims.

Context {L : HmmLib}.

Import SelectorBIC BICSpec.





(** C10.  When fitting or scoring raises for a candidate that is not
    skipped, [SelectorBIC.select] returns [None], whatever model it had
    found; it stops there, doing what it does when that candidate is the
    last one. *)
Theorem select_bic_none_when_raises (self : ModelSelector) (l0 : Z) (ls : list Z) (i : Z) :
  lengths self = l0 :: ls ->
  min_n_components self <= i <= max_n_components self ->
  i < l0 ->
  fit_or_score_raises self i ->
  result (select self) = Ok None /\
  select self = select (with_bounds self (min_n_components self) i).
Proof.
  intros Hlen Hi Hil Hraise.
  assert (Hloop : forall st, exists t st',
             for_in_return (range (min_n_components self) (i + 1)) (bic_body self) st
             = (t, st', Ok (Returned None))).
  { apply (bic_loop_raises self l0 ls Hlen _ i); [apply In_range; lia|assumption..]. }
  assert (Hsplit : forall st,
             for_in_return (range (min_n_components self) (max_n_components self + 1))
                           (bic_body self) st
             = for_in_return (range (min_n_components self) (i + 1)) (bic_body self) st).
  { intros st.
    rewrite (range_split (min_n_components self) (i + 1) (max_n_components self + 1))
      by lia.
    rewrite for_in_return_app.
    destruct (Hloop st) as (t & st' & E). rewrite E. reflexivity. }
  split.
  - unfold select, run, bind. rewrite Hsplit.
    destruct (Hloop locals) as (t & st' & E). rewrite E. reflexivity.
  - unfold select, run, bind. rewrite Hsplit. reflexivity.
Qed.

End BICClaims.

(** ** SelectorConstant and SelectorCV *)

Section ConstantClaims.

Context {L : HmmLib}.

(** C7.  [SelectorConstant.select] fits exactly one model, with
    [n_constant] states, whatever [min_n_components] and [max_n_components]
    are; it returns that model, and [None] exactly when the fit raises. *)
Theorem select_constant_fits_n_constant (self : ModelSelector) :
  exists prints,
    SelectorConstant.select self
    = (EvFit (n_constant self) (random_state self) (X self) (lengths self) :: prints,
       Ok (fit (n_constant self) (random_state self) (X self) (lengths self))) /\
    Forall (fun ev => exists created w n, ev = EvPrint created w n) prints /\
    forall min_n max_n,
      SelectorConstant.select (with_bounds self min_n max_n)
      = SelectorConstant.select self.
Proof.
  unfold SelectorConstant.select, base_model, run, try_except, bind, call_fit, emit, ret.
  destruct (fit (n_constant self) (random_state self) (X self) (lengths self)) as [m|] eqn:E;
    destruct (verbose self) eqn:V; cbn; eexists; (split; [reflexivity|]);
    (split; [repeat constructor; eauto|]);
    intros min_n max_n; cbn; rewrite ?E, ?V; reflexivity.
Qed.

End ConstantClaims.

Section CVClaims.

Context {L : HmmLib}.

Import SelectorCV.

(** C9.  With fewer training sequences than [min_n_components], which is
    also the number of folds, [SelectorCV.select] returns [None] and fits no
    model: it calls nothing at all. *)
Theorem select_cv_too_few_sequences (self : ModelSelector) :
  Z.of_nat (List.length (sequences self)) < min_n_components self ->
  select self = ([], Ok None).
Proof.
  intros Hfew. unfold select.
  replace (Z.of_nat (List.length (sequences self)) <? min_n_components self) with true
    by (symmetry; apply Z.ltb_lt; exact Hfew).
  reflexivity.
Qed.

Lemma cv_fold_emits (self : ModelSelector) (i : Z) (fold : list nat * list nat)
      (P : event -> Prop) :
  (forall X lengths, P (EvFit i (random_state self) X lengths)) ->
  (forall m X lengths, P (EvScore m X lengths)) ->
  emits P (cv_fold self i fold).
Proof.
  intros Hfit Hscore. unfold cv_fold. destruct fold as [cv_train_idx cv_test_idx].
  apply emits_bind; [apply emits_lift|]. intros [X X_lengths].
  apply emits_bind; [apply emits_lift|]. intros [Y Y_lengths].
  apply emits_try_except; [|intros _; apply emits_ret].
  apply emits_bind; [apply emits_call_fit, Hfit|]. intros m.
  apply emits_bind; [apply emits_modify|]. intros _.
  apply emits_bind; [apply emits_call_score, Hscore|]. intros logL.
  apply emits_bind; [apply emits_get|]. intros st.
  apply emits_bind; [apply emits_lift|]. intros t.
  apply emits_modify.
Qed.

Lemma cv_body_emits (self : ModelSelector) (split_method : KFold) (i : Z)
      (P : event -> Prop) :
  (forall X lengths, P (EvFit i (random_state self) X lengths)) ->
  (forall m X lengths, P (EvScore m X lengths)) ->
  emits P (cv_body self split_method i).
Proof.
  intros Hfit Hscore. unfold cv_body.
  apply emits_bind; [apply emits_modify|]. intros _.
  apply emits_bind; [apply emits_lift|]. intros folds.
  apply emits_bind; [apply emits_for_in; intros; now apply cv_fold_emits|]. intros _.
  apply emits_bind; [apply emits_get|]. intros st.
  apply emits_bind; [apply emits_lift|]. intros avg_score.
  destruct (PyFloat.gt avg_score (best_score st)); [|apply emits_ret].
  destruct (hmm_model st); [apply emits_put|apply emits_raise].
Qed.

(** Every model [SelectorCV.select] fits has a number of states from
    [min_n_components] up to, and not including, [max_n_components]. *)
Lemma select_cv_fits_below_max (self : ModelSelector) :
  Forall (fits_within (min_n_components self) (max_n_components self))
         (trace (select self)).
Proof.
  unfold select.
  destruct (Z.of_nat (List.length (sequences self)) <? min_n_components self).
  - constructor.
  - apply emits_run.
    apply emits_bind; [apply emits_lift|]. intros split_method.
    apply emits_bind; [|intros _; apply emits_bind; [apply emits_get|intros; apply emits_ret]].
    apply emits_for_in. intros i Hi. apply In_range in Hi.
    apply cv_body_emits; intros; cbn; auto.
Qed.

End CVClaims.

(** ** The selectors on concrete inputs *)

(** The examples are selectors that [ModelSelector.__init__] builds. *)
Example fish_of_three_init :
  ModelSelector_init SelectorExamples.three_words
                     (SelectorExamples.training SelectorExamples.three_words)
                     "FISH"%string 3 2 3 14 false
  = Ok SelectorExamples.fish_of_three.
Proof. reflexivity. Qed.

Example fish_2_3_init :
  ModelSelector_init SelectorExamples.fish
                     (SelectorExamples.training SelectorExamples.fish)
                     "FISH"%string 3 2 3 14 false
  = Ok SelectorExamples.fish_2_3.
Proof. reflexivity. Qed.



(** The count at work.  GIVE has two sequences of ten frames; no candidate
    is skipped and none raises.  With the twenty data points for [N] the
    model with two states has the lower BIC score (about 220.97 against
    227.94), yet the model with three states is returned: line 99 takes
    [N = len(self.lengths)], the two sequences, which puts three states
    first (about 195.70 against 204.85). *)
Example select_bic_counts_sequences :
  result (@SelectorBIC.select MoreExamples.close_lib MoreExamples.give_2_3)
  = Ok (Some (3, 20%nat)) /\
  @BICSpec.bic_documented MoreExamples.close_lib MoreExamples.give_2_3 2 (2, 20%nat)
    ((-2) * (-100) + 7 * TableLib.log_table 20)%float /\
  @BICSpec.bic_documented MoreExamples.close_lib MoreExamples.give_2_3 3 (3, 20%nat)
    ((-2) * (-93) + 14 * TableLib.log_table 20)%float /\
  PyFloat.lt ((-2) * (-100) + 7 * TableLib.log_table 20)
             ((-2) * (-93) + 14 * TableLib.log_table 20) = true /\
  @BICSpec.bic_of MoreExamples.close_lib MoreExamples.give_2_3 2 (2, 20%nat)
    ((-2) * (-100) + 7 * TableLib.log_table 2)%float /\
  @BICSpec.bic_of MoreExamples.close_lib MoreExamples.give_2_3 3 (3, 20%nat)
    ((-2) * (-93) + 14 * TableLib.log_table 2)%float /\
  PyFloat.lt ((-2) * (-93) + 14 * TableLib.log_table 2)
             ((-2) * (-100) + 7 * TableLib.log_table 2) = true.
Proof.
  split; [vm_compute; reflexivity|].
  split; [split; [reflexivity|]; exists (-100)%float, [0%float], 7%float;
          repeat split; reflexivity|].
  split; [split; [reflexivity|]; exists (-93)%float, [0%float], 14%float;
          repeat split; reflexivity|].
  split; [vm_compute; reflexivity|].
  split; [split; [reflexivity|]; exists (-100)%float, [0%float], 7%float;
          repeat split; reflexivity|].
  split; [split; [reflexivity|]; exists (-93)%float, [0%float], 14%float;
          repeat split; reflexivity|].
  vm_compute; reflexivity.
Qed.

(** JOHN with a library that cannot fit three states: nothing is returned,
    and four states are never tried. *)
Lemma select_bic_none_when_raises_witness :
  lengths SelectorExamples.john_2_4 = [5; 4] /\
  min_n_components SelectorExamples.john_2_4 <= 3
  <= max_n_components SelectorExamples.john_2_4 /\
  3 < 5 /\
  @BICSpec.fit_or_score_raises SelectorExamples.brittle_lib SelectorExamples.john_2_4 3 /\
  result (@SelectorBIC.select SelectorExamples.brittle_lib SelectorExamples.john_2_4)
  = Ok None /\
  @SelectorBIC.select SelectorExamples.brittle_lib SelectorExamples.john_2_4
  = @SelectorBIC.select SelectorExamples.brittle_lib
      (with_bounds SelectorExamples.john_2_4
                   (min_n_components SelectorExamples.john_2_4) 3).
Proof.
  assert (Hlen : lengths SelectorExamples.john_2_4 = [5; 4]) by reflexivity.
  assert (Hi : min_n_components SelectorExamples.john_2_4 <= 3
               <= max_n_components SelectorExamples.john_2_4) by (cbn; lia).
  assert (Hil : 3 < 5) by lia.
  assert (Hraise : @BICSpec.fit_or_score_raises SelectorExamples.brittle_lib
                     SelectorExamples.john_2_4 3) by (left; reflexivity).
  repeat (split; [assumption|]).
  exact (@select_bic_none_when_raises SelectorExamples.brittle_lib
           SelectorExamples.john_2_4 5 [4] 3 Hlen Hi Hil Hraise).
Defined.

(** GO has one sequence and [min_n_components] is 2. *)
Lemma select_cv_too_few_sequences_witness :
  Z.of_nat (List.length (sequences SelectorExamples.go_2_3))
  < min_n_components SelectorExamples.go_2_3 /\
  @SelectorCV.select SelectorExamples.steep_lib SelectorExamples.go_2_3 = ([], Ok None).
Proof.
  assert (Hfew : Z.of_nat (List.length (sequences SelectorExamples.go_2_3))
                 < min_n_components SelectorExamples.go_2_3) by (cbn; lia).
  split; [exact Hfew|].
  exact (@select_cv_too_few_sequences SelectorExamples.steep_lib
           SelectorExamples.go_2_3 Hfew).
Defined.

(** C3 on a failing input.  With [min_n_components = 2] and
    [max_n_components = 3] the loop runs over [range(2, 3)]: only models
    with two states are fitted, and one of them is returned, although three
    states have the higher average (they win as soon as the upper bound is
    4). *)
Theorem select_cv_leaves_max_out :
  result (@SelectorCV.select SelectorExamples.steep_lib SelectorExamples.fish_2_3)
  = Ok (Some (2, 3%nat)) /\
  Forall (fits_within 2 3)
         (trace (@SelectorCV.select SelectorExamples.steep_lib SelectorExamples.fish_2_3)) /\
  result (@SelectorCV.select SelectorExamples.steep_lib
            (with_bounds SelectorExamples.fish_2_3 2 4))
  = Ok (Some (3, 3%nat)).
Proof.
  split; [vm_compute; reflexivity|]. split; [|vm_compute; reflexivity].
  apply (@select_cv_fits_below_max SelectorExamples.steep_lib SelectorExamples.fish_2_3).
Qed.

(** C4 on a failing input.  For FISH against BOOK and JOHN the documented
    score is 0 with two states and 5 with three, yet the model with two
    states is returned: the score is compared inside the loop over the
    words, and after BOOK alone it stood at 20. *)
Theorem select_dic_compares_partial_scores :
  result (@SelectorDIC.select SelectorExamples.three_words_lib
            SelectorExamples.fish_of_three)
  = Ok (Some (2, 5%nat)) /\
  @DICSpec.dic_documented SelectorExamples.three_words_lib
     SelectorExamples.fish_of_three 2 = Some 0%float /\
  @DICSpec.dic_documented SelectorExamples.three_words_lib
     SelectorExamples.fish_of_three 3 = Some 5%float /\
  PyFloat.gt 5 0 = true.
Proof. repeat split; vm_compute; reflexivity. Qed.

(** ** Floats that can be compared *)

Module FloatTotal.

(** Below [y] but not above [x]: a float that is not NaN and not above
    something below [y] is below [y]. *)
Lemma SFltb_below (x y z : spec_float) :
  SFltb x y = true -> SFltb x z = false -> z <> S754_nan -> SFltb z y = true.
Proof.
  unfold SFltb.
  destruct x as [sx| [|] | | [|] mx ex];
    destruct y as [sy| [|] | | [|] my ey];
    destruct z as [sz| [|] | | [|] mz ez];
    simpl; try discriminate; try reflexivity; try congruence;
    rewrite ?Pos.compare_cont_spec; simpl;
    destruct (Z.compare_spec ex ey); try discriminate;
    destruct (Z.compare_spec ex ez); try discriminate;
    destruct (Z.compare_spec ez ey); try lia; try reflexivity;
    subst;
    destruct (Pos.compare_spec mx my); try discriminate;
    destruct (Pos.compare_spec mx mz); try discriminate;
    destruct (Pos.compare_spec mz my); try lia; try reflexivity;
    simpl; intros; try discriminate; try congruence.
Qed.


Lemma is_nan_spec (z : float) :
  Prim2SF z = S754_nan -> PrimFloat.is_nan z = true.
Proof.
  intros H. unfold PrimFloat.is_nan. rewrite eqb_spec, H. reflexivity.
Qed.

(** [x < y] and not [x < z]: [z] is NaN or [z < y]. *)
Lemma ltb_below (x y z : float) :
  PrimFloat.ltb x y = true -> PrimFloat.ltb x z = false ->
  PrimFloat.is_nan z = true \/ PrimFloat.ltb z y = true.
Proof.
  rewrite !ltb_spec. intros Hxy Hxz.
  assert (Hz : Prim2SF z = S754_nan \/ Prim2SF z <> S754_nan)
    by (destruct (Prim2SF z); (now left) || (right; discriminate)).
  destruct Hz as [Hz|Hz]; [left; now apply is_nan_spec|right].
  now apply (SFltb_below (Prim2SF x)).
Qed.


End FloatTotal.

(** ** Triples *)

Section Hoare.

Context {L : HmmLib}.
Context {S : Type}.

Lemma hoare_ret {A} (P : S -> Prop) (a : A) (Q : A -> S -> Prop) (E : exn -> S -> Prop) :
  (forall s, P s -> Q a s) -> hoare P (ret a) Q E.
Proof. intros H s Hs. cbn. auto. Qed.

Lemma hoare_lift {A} (P : S -> Prop) (o : outcome A) (Q : A -> S -> Prop)
      (E : exn -> S -> Prop) :
  (forall s, P s -> match o with Ok a => Q a s | Raise e => E e s end) ->
  hoare P (lift o) Q E.
Proof. intros H s Hs. cbn. specialize (H s Hs). destruct o; exact H. Qed.

Lemma hoare_raise {A} (P : S -> Prop) (e : exn) (Q : A -> S -> Prop)
      (E : exn -> S -> Prop) :
  (forall s, P s -> E e s) -> hoare P (raise e) Q E.
Proof. intros H s Hs. cbn. auto. Qed.

Lemma hoare_get (P : S -> Prop) (Q : S -> S -> Prop) (E : exn -> S -> Prop) :
  (forall s, P s -> Q s s) -> hoare P get Q E.
Proof. intros H s Hs. cbn. auto. Qed.

Lemma hoare_put (P : S -> Prop) (s' : S) (Q : unit -> S -> Prop) (E : exn -> S -> Prop) :
  (forall s, P s -> Q tt s') -> hoare P (put s') Q E.
Proof. intros H s Hs. cbn. eauto. Qed.

Lemma hoare_modify (P : S -> Prop) (f : S -> S) (Q : unit -> S -> Prop)
      (E : exn -> S -> Prop) :
  (forall s, P s -> Q tt (f s)) -> hoare P (modify f) Q E.
Proof. intros H s Hs. cbn. auto. Qed.

Lemma hoare_call_fit (P : S -> Prop) (n rs : Z) (X : array) (lengths : list Z)
      (Q : Model -> S -> Prop) (E : exn -> S -> Prop) :
  (forall s m, P s -> fit n rs X lengths = Some m -> Q m s) ->
  (forall s, P s -> fit n rs X lengths = None -> E LibraryError s) ->
  hoare P (call_fit n rs X lengths) Q E.
Proof.
  intros Hok Hraise s Hs. cbn.
  destruct (fit n rs X lengths) as [m|] eqn:Efit; eauto.
Qed.

Lemma hoare_call_score (P : S -> Prop) (m : Model) (X : array) (lengths : list Z)
      (Q : float -> S -> Prop) (E : exn -> S -> Prop) :
  (forall s v, P s -> score m X lengths = Some v -> Q v s) ->
  (forall s, P s -> score m X lengths = None -> E LibraryError s) ->
  hoare P (call_score m X lengths) Q E.
Proof.
  intros Hok Hraise s Hs. cbn.
  destruct (score m X lengths) as [v|] eqn:Escore; eauto.
Qed.

Lemma hoare_bind {A B} (P : S -> Prop) (c : M S A) (k : A -> M S B)
      (R : A -> S -> Prop) (Q : B -> S -> Prop) (E : exn -> S -> Prop) :
  hoare P c R E -> (forall a, hoare (R a) (k a) Q E) -> hoare P (bind c k) Q E.
Proof.
  intros Hc Hk s Hs. unfold bind. specialize (Hc s Hs).
  destruct (c s) as [[t s'] [a|e]]; [|exact Hc].
  specialize (Hk a s' Hc). destruct (k a s') as [[t' s''] r]. exact Hk.
Qed.

Lemma hoare_try_except {A} (P : S -> Prop) (c : M S A) (h : exn -> M S A)
      (Q : A -> S -> Prop) (E' E : exn -> S -> Prop) :
  hoare P c Q E' -> (forall e, hoare (E' e) (h e) Q E) -> hoare P (try_except c h) Q E.
Proof.
  intros Hc Hh s Hs. unfold try_except. specialize (Hc s Hs).
  destruct (c s) as [[t s'] [a|e]]; [exact Hc|].
  specialize (Hh e s' Hc). destruct (h e s') as [[t' s''] r]. exact Hh.
Qed.

Lemma hoare_for_in {I} (Inv : S -> Prop) (items : list I) (body : I -> M S unit)
      (E : exn -> S -> Prop) :
  (forall i, In i items -> hoare Inv (body i) (fun _ => Inv) E) ->
  hoare Inv (for_in items body) (fun _ => Inv) E.
Proof.
  induction items as [|i items IH]; intros Hbody; cbn [for_in].
  - apply hoare_ret. auto.
  - apply hoare_bind with (R := fun _ => Inv); [apply Hbody; now left|].
    intros _. apply IH. intros j Hj. apply Hbody. now right.
Qed.

Lemma hoare_weaken {A} (P P' : S -> Prop) (c : M S A) (Q Q' : A -> S -> Prop)
      (E E' : exn -> S -> Prop) :
  hoare P' c Q' E' ->
  (forall s, P s -> P' s) -> (forall a s, Q' a s -> Q a s) ->
  (forall e s, E' e s -> E e s) ->
  hoare P c Q E.
Proof.
  intros Hc HP HQ HE s Hs. specialize (Hc s (HP s Hs)).
  destruct (c s) as [[t s'] [a|e]]; auto.
Qed.

Lemma hoare_run {A} (P : S -> Prop) (c : M S A) (Q : A -> S -> Prop)
      (E : exn -> S -> Prop) (locals : S) :
  hoare P c Q E -> P locals ->
  match result (run c locals) with
  | Ok a => exists s', Q a s'
  | Raise e => exists s', E e s'
  end.
Proof.
  intros Hc Hl. specialize (Hc locals Hl). unfold run, result.
  destruct (c locals) as [[t s'] [a|e]]; cbn; eauto.
Qed.

End Hoare.

(** ** More on the recognizer *)

Section RecognizerMore.

Context {L : HmmLib}.

Import Recognizer RecognizerSpec.

Lemma py_index_invalid {A} (l : list A) (i : Z) :
  ~ (- Z.of_nat (List.length l) <= i < Z.of_nat (List.length l)) ->
  py_index l i = Raise IndexError.
Proof.
  intros Hi. unfold py_index. cbv zeta.
  destruct ((0 <=? i) && (i <? Z.of_nat (List.length l))) eqn:E1.
  { apply andb_true_iff in E1. destruct E1 as [H0 H1].
    apply Z.leb_le in H0. apply Z.ltb_lt in H1. lia. }
  destruct ((- Z.of_nat (List.length l) <=? i) && (i <? 0)) eqn:E2; [|reflexivity].
  apply andb_true_iff in E2. destruct E2 as [H0 H1].
  apply Z.leb_le in H0. apply Z.ltb_lt in H1. lia.
Qed.

(** Scoring a word makes one call and cannot raise, whatever the local
    variables are. *)
Lemma score_word_call (test_X : array) (test_Xlength : list Z) (item : word * Model)
      (st : vars) :
  exists st',
    score_word test_X test_Xlength item st
    = ([EvScore (snd item) test_X test_Xlength], st', Ok tt).
Proof.
  destruct item as [w model].
  unfold score_word, bind, try_except, call_score, modify, get, put, ret.
  destruct (score model test_X test_Xlength) as [v|]; cbn.
  - destruct (PrimFloat.ltb (max_prob st) v); cbn; eexists; reflexivity.
  - destruct (PrimFloat.ltb (max_prob st) (-1000)); cbn; eexists; reflexivity.
Qed.

Lemma score_words_calls (test_X : array) (test_Xlength : list Z)
      (models : dict word Model) :
  forall st, exists st',
    for_in models (score_word test_X test_Xlength) st
    = (score_calls models (test_X, test_Xlength), st', Ok tt).
Proof.
  induction models as [|item models IH]; intros st.
  - exists st. reflexivity.
  - destruct (score_word_call test_X test_Xlength item st) as [st1 E1].
    destruct (IH st1) as [st2 E2].
    exists st2. cbn [for_in]. unfold bind. rewrite E1, E2. reflexivity.
Qed.

Lemma recognize_item_calls (models : dict word Model) (test_set : SinglesData)
      (word_id : Z) (st : vars) :
  In word_id (keys (get_all_Xlengths test_set)) ->
  - Z.of_nat (List.length (wordlist test_set)) <= word_id
    < Z.of_nat (List.length (wordlist test_set)) ->
  exists st',
    recognize_item models test_set word_id st
    = (calls_of models test_set word_id, st', Ok tt).
Proof.
  intros Hin Hidx.
  destruct (dict_get_key _ _ Z.eqb Z.eqb_eq word_id _ Hin) as [[test_X test_Xlength] Hget].
  destruct (py_index_valid (wordlist test_set) word_id Hidx) as [tw Htw].
  destruct (score_words_calls test_X test_Xlength models (new_item st)) as [st1 E1].
  exists (append_item st1).
  unfold recognize_item, calls_of, dict_item, bind, lift, modify.
  rewrite Hget, Htw. cbn [fst snd]. rewrite E1. cbn. rewrite app_nil_r. reflexivity.
Qed.

Lemma recognize_item_index_error (models : dict word Model) (test_set : SinglesData)
      (word_id : Z) (st : vars) :
  In word_id (keys (get_all_Xlengths test_set)) ->
  ~ (- Z.of_nat (List.length (wordlist test_set)) <= word_id
     < Z.of_nat (List.length (wordlist test_set))) ->
  recognize_item models test_set word_id st = ([], st, Raise IndexError).
Proof.
  intros Hin Hidx.
  destruct (dict_get_key _ _ Z.eqb Z.eqb_eq word_id _ Hin) as [data Hget].
  unfold recognize_item, dict_item, bind, lift.
  rewrite Hget, (py_index_invalid _ _ Hidx). reflexivity.
Qed.

Lemma recognize_items_calls (models : dict word Model) (test_set : SinglesData)
      (ids : list Z) :
  incl ids (keys (get_all_Xlengths test_set)) ->
  ids_valid test_set ->
  forall st, exists st',
    for_in ids (recognize_item models test_set) st
    = (flat_map (calls_of models test_set) ids, st', Ok tt).
Proof.
  intros Hincl Hvalid.
  induction ids as [|word_id ids IH]; intros st.
  - exists st. reflexivity.
  - assert (Hin : In word_id (keys (get_all_Xlengths test_set)))
      by (apply Hincl; now left).
    destruct (recognize_item_calls models test_set word_id st Hin (Hvalid _ Hin))
      as [st1 E1].
    destruct (IH (fun x Hx => Hincl x (or_intror Hx)) st1) as [st2 E2].
    exists st2. cbn [for_in flat_map]. unfold bind. rewrite E1, E2. reflexivity.
Qed.

(** X1.  The call log of [recognize].  Every model is scored once on every
    item, item after item in the order of the word ids and, within an item,
    in the order of the models; nothing is fitted or printed. *)
Theorem recognize_call_log (models : dict word Model) (test_set : SinglesData) :
  ids_valid test_set ->
  trace (recognize models test_set)
  = flat_map (calls_of models test_set) (keys (get_all_Xlengths test_set)).
Proof.
  intros Hvalid.
  destruct (recognize_items_calls models test_set _ (incl_refl _) Hvalid locals)
    as [st' E].
  unfold recognize, run, bind, get, ret. rewrite E. cbn. now rewrite app_nil_r.
Qed.

Lemma recognize_items_index_error (models : dict word Model) (test_set : SinglesData)
      (ids : list Z) :
  incl ids (keys (get_all_Xlengths test_set)) ->
  (exists word_id, In word_id ids /\
     ~ (- Z.of_nat (List.length (wordlist test_set)) <= word_id
        < Z.of_nat (List.length (wordlist test_set)))) ->
  forall st, exists t st',
    for_in ids (recognize_item models test_set) st = (t, st', Raise IndexError).
Proof.
  intros Hincl Hbad.
  induction ids as [|word_id ids IH]; intros st.
  - destruct Hbad as (x & [] & _).
  - assert (Hin : In word_id (keys (get_all_Xlengths test_set)))
      by (apply Hincl; now left).
    cbn [for_in]. unfold bind.
    destruct (Z_le_dec (- Z.of_nat (List.length (wordlist test_set))) word_id) as [Hlo|Hlo];
      [destruct (Z_lt_dec word_id (Z.of_nat (List.length (wordlist test_set)))) as [Hhi|Hhi]|].
    + destruct (recognize_item_calls models test_set word_id st Hin (conj Hlo Hhi))
        as [st1 E1].
      rewrite E1.
      destruct (IH (fun x Hx => Hincl x (or_intror Hx))) with (st := st1)
        as (t & st' & E).
      { destruct Hbad as (x & [<-|Hx] & Hbad); [lia|eauto]. }
      rewrite E. eauto.
    + rewrite recognize_item_index_error by (auto; lia). eauto.
    + rewrite recognize_item_index_error by (auto; lia). eauto.
Qed.

(** X2.  A word id outside the word list.  When some word id of the test set
    does not index [wordlist], [recognize] raises [IndexError] and returns
    no list at all. *)
Theorem recognize_index_error (models : dict word Model) (test_set : SinglesData)
        (word_id : Z) :
  In word_id (keys (get_all_Xlengths test_set)) ->
  ~ (- Z.of_nat (List.length (wordlist test_set)) <= word_id
     < Z.of_nat (List.length (wordlist test_set))) ->
  result (recognize models test_set) = Raise IndexError.
Proof.
  intros Hin Hbad.
  destruct (recognize_items_index_error models test_set _ (incl_refl _)
              (ex_intro _ word_id (conj Hin Hbad)) locals) as (t & st' & E).
  unfold recognize, run, bind. rewrite E. reflexivity.
Qed.

Lemma for_in_ext {S I} (items : list I) (body body' : I -> M S unit) :
  (forall i st, In i items -> body i st = body' i st) ->
  forall st, for_in items body st = for_in items body' st.
Proof.
  induction items as [|i items IH]; intros Hext st; [reflexivity|].
  cbn [for_in]. unfold bind. rewrite Hext by now left.
  destruct (body' i st) as [[t st'] [[]|e]]; [|reflexivity].
  rewrite IH by (intros; apply Hext; now right). reflexivity.
Qed.

(** X3.  The true words are not read.  Two test sets with the same
    observations give the same dictionaries, guesses and calls, whatever
    their word lists hold, as long as the word ids index both. *)
Theorem recognize_ignores_wordlist (models : dict word Model)
        (test_set test_set' : SinglesData) :
  get_all_Xlengths test_set = get_all_Xlengths test_set' ->
  ids_valid test_set ->
  ids_valid test_set' ->
  recognize models test_set = recognize models test_set'.
Proof.
  intros Hsame Hvalid Hvalid'.
  unfold recognize, run, bind at 1 3. rewrite <- Hsame.
  rewrite (for_in_ext _ (recognize_item models test_set)
             (recognize_item models test_set')); [reflexivity|].
  intros word_id st Hin.
  destruct (py_index_valid (wordlist test_set) word_id (Hvalid _ Hin)) as [tw Htw].
  assert (Hin' : In word_id (keys (get_all_Xlengths test_set')))
    by (rewrite <- Hsame; exact Hin).
  destruct (py_index_valid (wordlist test_set') word_id (Hvalid' _ Hin')) as [tw' Htw'].
  unfold recognize_item, bind, lift. rewrite <- Hsame, Htw, Htw'. reflexivity.
Qed.

End RecognizerMore.

Section RecognizerGuesses.

Context {L : HmmLib}.

Import Recognizer RecognizerSpec.

Lemma pick_unchanged (scores : dict word float) (max_prob : float)
      (best_word : option word) :
  (forall w s, In (w, s) scores -> PyFloat.gt s max_prob = false) ->
  pick scores max_prob best_word = (max_prob, best_word).
Proof.
  induction scores as [|[w0 s0] scores IH]; intros Hall; [reflexivity|].
  cbn [pick]. rewrite (Hall w0 s0) by now left.
  apply IH. intros w s Hin. apply (Hall w). now right.
Qed.

Lemma run_items_nth_pick (models : dict word Model) (items : list (array * list Z)) :
  forall best_word k data,
    nth_error items k = Some data ->
    nth_error (run_items models items best_word) k
    = Some (scored models (fst data) (snd data),
            snd (pick (scored models (fst data) (snd data)) neg_infinity
                      (match k with
                       | O => best_word
                       | Datatypes.S k' =>
                           nth k' (map snd (run_items models items best_word)) None
                       end))).
Proof.
  induction items as [|[test_X test_Xlength] items IH]; intros best_word k data Hk.
  - destruct k; discriminate.
  - destruct k as [|k]; cbn [nth_error] in Hk.
    + injection Hk as <-. reflexivity.
    + cbn [run_items nth_error]. rewrite (IH _ k data Hk).
      destruct k; reflexivity.
Qed.

(** The entries of the lists [recognize] returns, with the guess as line
    45-47 make it from the guess before. *)
Lemma recognize_guess_steps (models : dict word Model) (test_set : SinglesData) :
  dict_wf models ->
  ids_valid test_set ->
  exists probs guesses,
    result (recognize models test_set) = Ok (probs, guesses) /\
    forall k word_id data,
      nth_error (keys (get_all_Xlengths test_set)) k = Some word_id ->
      dict_get Z.eqb word_id (get_all_Xlengths test_set) = Some data ->
      nth_error probs k = Some (scored models (fst data) (snd data)) /\
      nth_error guesses k
      = Some (snd (pick (scored models (fst data) (snd data)) neg_infinity
                        (guess_before guesses k))).
Proof.
  intros Hwf Hvalid.
  destruct (recognize_run models test_set Hwf Hvalid) as (datas & Hdatas & Hres).
  eexists _, _. split; [exact Hres|].
  intros k word_id data Hk Hget.
  destruct (Forall2_nth_error _ _ _ Hdatas k word_id Hk) as (data' & Hdata & Hget' & _).
  rewrite Hget in Hget'. injection Hget' as <-.
  rewrite !nth_error_map, (run_items_nth_pick models datas None k data Hdata).
  cbn [option_map fst snd]. split; [reflexivity|].
  destruct k; reflexivity.
Qed.

(** X4.  A guess carried over.  An item none of whose log-likelihoods is above
    [-inf] gets the guess of the item before it, and [None] when it is the
    first: [best_word] is not reset between items. *)
Theorem recognize_guess_carried_over (models : dict word Model) (test_set : SinglesData) :
  dict_wf models ->
  ids_valid test_set ->
  exists probs guesses,
    result (recognize models test_set) = Ok (probs, guesses) /\
    forall k pm,
      nth_error probs k = Some pm ->
      all_lowest pm ->
      nth_error guesses k = Some (guess_before guesses k).
Proof.
  intros Hwf Hvalid.
  destruct (recognize_guess_steps models test_set Hwf Hvalid)
    as (probs & guesses & Hres & Hsteps).
  destruct (recognize_entries models test_set Hwf Hvalid)
    as (probs' & guesses' & Hres' & Hlen & _ & _).
  rewrite Hres in Hres'. injection Hres' as <- <-.
  exists probs, guesses. split; [exact Hres|].
  intros k pm Hpm Hlow.
  assert (Hk : (k < List.length (keys (get_all_Xlengths test_set)))%nat).
  { rewrite <- Hlen. apply nth_error_Some. congruence. }
  destruct (nth_error (keys (get_all_Xlengths test_set)) k) as [word_id|] eqn:Eid;
    [|apply nth_error_None in Eid; lia].
  destruct (dict_get_key _ _ Z.eqb Z.eqb_eq word_id _ (nth_error_In _ _ Eid))
    as [data Hget].
  destruct (Hsteps k word_id data Eid Hget) as [Hpm' Hg].
  rewrite Hpm in Hpm'. injection Hpm' as ->.
  rewrite Hg. f_equal.
  rewrite pick_unchanged; [reflexivity|].
  intros w s Hin. apply (Hlow w).
  apply (In_dict_get _ _ String.eqb String.eqb_eq); [|exact Hin].
  apply scored_wf. exact Hwf.
Qed.

Lemma scored_all_raise (models : dict word Model) (test_X : array)
      (test_Xlength : list Z) :
  (forall w model, In (w, model) models -> score model test_X test_Xlength = None) ->
  forall w s, In (w, s) (scored models test_X test_Xlength) -> s = (-1000)%float.
Proof.
  intros Hraise w s Hin. unfold scored in Hin. apply in_map_iff in Hin.
  destruct Hin as ([w' model] & [= <- <-] & Hin). cbn.
  unfold item_score. now rewrite (Hraise w' model Hin).
Qed.

(** X5.  When every model raises.  If scoring an item raises for every model,
    each word is recorded at [-1000] and the guess for the item is the first
    word of [models]. *)
Theorem recognize_all_raise_first_word (models : dict word Model)
        (test_set : SinglesData) (w0 : word) (m0 : Model) (rest : dict word Model) :
  models = (w0, m0) :: rest ->
  dict_wf models ->
  ids_valid test_set ->
  exists probs guesses,
    result (recognize models test_set) = Ok (probs, guesses) /\
    forall k word_id test_X test_Xlength,
      nth_error (keys (get_all_Xlengths test_set)) k = Some word_id ->
      dict_get Z.eqb word_id (get_all_Xlengths test_set) = Some (test_X, test_Xlength) ->
      (forall w model, In (w, model) models -> score model test_X test_Xlength = None) ->
      nth_error guesses k = Some (Some w0).
Proof.
  intros Hmodels Hwf Hvalid.
  destruct (recognize_guess_steps models test_set Hwf Hvalid)
    as (probs & guesses & Hres & Hsteps).
  exists probs, guesses. split; [exact Hres|].
  intros k word_id test_X test_Xlength Hk Hget Hraise.
  destruct (Hsteps k word_id _ Hk Hget) as [_ Hg]. rewrite Hg. cbn [fst snd].
  f_equal.
  pose proof (scored_all_raise models test_X test_Xlength Hraise) as Hall.
  subst models. cbn [scored map fst snd pick] in *.
  rewrite (Hall w0 _ (or_introl eq_refl)).
  replace (PyFloat.gt (-1000) neg_infinity) with true by reflexivity.
  rewrite pick_unchanged; [reflexivity|].
  intros w s Hin. rewrite (Hall w s (or_intror Hin)). reflexivity.
Qed.

End RecognizerGuesses.

Section RecognizerTies.

Context {L : HmmLib}.

Import Recognizer RecognizerSpec.

(** Either nothing was above the starting maximum, or the best word is the
    first whose score is above every score before it (NaN aside). *)
Lemma pick_first (scores : dict word float) :
  forall seen max_prob best_word,
    (forall w s, In (w, s) seen -> PyFloat.gt s max_prob = false) ->
    (pick scores max_prob best_word = (max_prob, best_word) /\
     forall w s, In (w, s) scores -> PyFloat.gt s max_prob = false)
    \/ (exists w pre post,
          snd (pick scores max_prob best_word) = Some w /\
          scores = pre ++ (w, fst (pick scores max_prob best_word)) :: post /\
          forall w' s', In (w', s') (seen ++ pre) ->
            PrimFloat.is_nan s' = true \/
            PyFloat.gt (fst (pick scores max_prob best_word)) s' = true).
Proof.
  induction scores as [|[w0 s0] scores IH]; intros seen max_prob best_word Hseen.
  - left. split; [reflexivity|]. intros w s [].
  - cbn [pick]. destruct (PyFloat.gt s0 max_prob) eqn:E.
    + right.
      assert (Hseen0 : forall w' s', In (w', s') seen ->
                         PrimFloat.is_nan s' = true \/ PyFloat.gt s0 s' = true).
      { intros w' s' Hin. apply (FloatTotal.ltb_below max_prob s0 s'); [exact E|].
        apply (Hseen w' s' Hin). }
      destruct (IH (seen ++ [(w0, s0)]) s0 (Some w0)) as [[Heq _]|(w & pre & post & Hw & Hsplit & Hpre)].
      { intros w s Hin. apply in_app_or in Hin. destruct Hin as [Hin|[[= <- <-]|[]]].
        - apply FloatOrder.gt_false_mono with (y := max_prob); eauto.
        - apply FloatOrder.gt_irrefl. }
      * rewrite Heq. exists w0, [], scores. cbn [fst snd app].
        split; [reflexivity|]. split; [reflexivity|].
        rewrite app_nil_r. exact Hseen0.
      * exists w, ((w0, s0) :: pre), post. split; [exact Hw|].
        split; [cbn [app]; f_equal; exact Hsplit|].
        intros w' s' Hin. apply (Hpre w' s').
        rewrite <- app_assoc. exact Hin.
    + destruct (IH (seen ++ [(w0, s0)]) max_prob best_word)
        as [[Heq Hall]|(w & pre & post & Hw & Hsplit & Hpre)].
      { intros w s Hin. apply in_app_or in Hin. destruct Hin as [Hin|[[= <- <-]|[]]].
        - eauto.
        - exact E. }
      * left. split; [exact Heq|].
        intros w s [[= <- <-]|Hin]; eauto.
      * right. exists w, ((w0, s0) :: pre), post. split; [exact Hw|].
        split; [cbn [app]; f_equal; exact Hsplit|].
        intros w' s' Hin. apply (Hpre w' s').
        rewrite <- app_assoc. exact Hin.
Qed.

(** X6.  Ties go to the first word.  In an item with some log-likelihood above
    [-inf], the guess is the first word of the dictionary whose value is
    maximal: no value of the dictionary is above its value, and its value
    is strictly above the value of every word before it (NaN values
    aside). *)
Theorem recognize_first_best_word (models : dict word Model) (test_set : SinglesData) :
  dict_wf models ->
  ids_valid test_set ->
  exists probs guesses,
    result (recognize models test_set) = Ok (probs, guesses) /\
    forall k pm w0 s0,
      nth_error probs k = Some pm ->
      dict_get String.eqb w0 pm = Some s0 ->
      PyFloat.gt s0 neg_infinity = true ->
      exists w s pre post,
        nth_error guesses k = Some (Some w) /\
        pm = pre ++ (w, s) :: post /\
        (forall w' s', In (w', s') pm -> PyFloat.gt s' s = false) /\
        (forall w' s', In (w', s') pre ->
           PrimFloat.is_nan s' = true \/ PyFloat.gt s s' = true).
Proof.
  intros Hwf Hvalid.
  destruct (recognize_guess_steps models test_set Hwf Hvalid)
    as (probs & guesses & Hres & Hsteps).
  destruct (recognize_entries models test_set Hwf Hvalid)
    as (probs' & guesses' & Hres' & Hlen & _ & _).
  rewrite Hres in Hres'. injection Hres' as <- <-.
  exists probs, guesses. split; [exact Hres|].
  intros k pm w0 s0 Hpm Hget0 Habove.
  assert (Hk : (k < List.length (keys (get_all_Xlengths test_set)))%nat).
  { rewrite <- Hlen. apply nth_error_Some. congruence. }
  destruct (nth_error (keys (get_all_Xlengths test_set)) k) as [word_id|] eqn:Eid;
    [|apply nth_error_None in Eid; lia].
  destruct (dict_get_key _ _ Z.eqb Z.eqb_eq word_id _ (nth_error_In _ _ Eid))
    as [data Hget].
  destruct (Hsteps k word_id data Eid Hget) as [Hpm' Hg].
  rewrite Hpm in Hpm'. injection Hpm' as ->.
  destruct (pick_first (scored models (fst data) (snd data)) [] neg_infinity
                       (guess_before guesses k))
    as [[_ Hall]|(w & pre & post & Hw & Hsplit & Hpre)].
  { intros w s []. }
  - apply (dict_get_In _ _ String.eqb String.eqb_eq) in Hget0.
    rewrite (Hall w0 s0 Hget0) in Habove. discriminate.
  - exists w, (fst (pick (scored models (fst data) (snd data)) neg_infinity
                         (guess_before guesses k))), pre, post.
    split; [rewrite Hg, Hw; reflexivity|]. split; [exact Hsplit|]. split.
    + intros w' s' Hin.
      apply (pick_max (scored models (fst data) (snd data)) [] neg_infinity
                      (guess_before guesses k)) with (w := w').
      * intros ? ? [].
      * exact Hin.
    + intros w' s' Hin. apply (Hpre w' s'). exact Hin.
Qed.

End RecognizerTies.

(** ** More on [ModelSelector.__init__] *)

Lemma dict_get_missing {K V} (eqb : K -> K -> bool)
      (eqb_spec : forall a b, eqb a b = true <-> a = b) (k : K) (d : dict K V) :
  ~ In k (keys d) -> dict_get eqb k d = None.
Proof.
  induction d as [|[k' v'] d IH]; cbn; intros Hn; [reflexivity|].
  rewrite (eqb_false_of_spec _ eqb eqb_spec) by (intros ->; apply Hn; now left).
  apply IH. intros Hin. apply Hn. now right.
Qed.

(** X7.  Building a selector.  [ModelSelector.__init__] raises [KeyError] when
    [this_word] is missing from the sequences or from the lengths; otherwise
    it returns a selector that holds both dicts and the entries of
    [this_word] in them. *)
Theorem ModelSelector_init_key_error
        (all_word_sequences : dict word (list sequence))
        (all_word_Xlengths : dict word (array * list Z)) (w : word)
        (n_const min_n max_n rs : Z) (vb : bool) :
  (~ In w (keys all_word_sequences) \/ ~ In w (keys all_word_Xlengths) ->
   ModelSelector_init all_word_sequences all_word_Xlengths w n_const min_n max_n rs vb
   = Raise KeyError) /\
  (In w (keys all_word_sequences) -> In w (keys all_word_Xlengths) ->
   exists self,
     ModelSelector_init all_word_sequences all_word_Xlengths w n_const min_n max_n rs vb
     = Ok self /\
     words self = all_word_sequences /\ hwords self = all_word_Xlengths /\
     dict_get String.eqb w all_word_sequences = Some (sequences self) /\
     dict_get String.eqb w all_word_Xlengths = Some (X self, lengths self) /\
     this_word self = w /\ n_constant self = n_const /\
     min_n_components self = min_n /\ max_n_components self = max_n /\
     random_state self = rs /\ verbose self = vb).
Proof.
  unfold ModelSelector_init, dict_item. split.
  - intros [Hs|Hx].
    + now rewrite (dict_get_missing String.eqb String.eqb_eq _ _ Hs).
    + destruct (dict_get String.eqb w all_word_sequences); [|reflexivity].
      now rewrite (dict_get_missing String.eqb String.eqb_eq _ _ Hx).
  - intros Hs Hx.
    destruct (dict_get_key _ _ String.eqb String.eqb_eq _ _ Hs) as [seqs ->].
    destruct (dict_get_key _ _ String.eqb String.eqb_eq _ _ Hx) as [[x l] ->].
    eexists. split; [reflexivity|]. cbn. repeat split; reflexivity.
Qed.

(** ** More on SelectorBIC *)

Section LoopsMore.

Context {L : HmmLib}.
Context {S : Type}.

Lemma emits_for_in_return {I R} (P : event -> Prop) (items : list I)
      (body : I -> M S (flow R)) :
  (forall i, In i items -> emits P (body i)) -> emits P (for_in_return items body).
Proof.
  induction items as [|i items IH]; intros Hbody; cbn [for_in_return].
  - apply emits_ret.
  - apply emits_bind; [apply Hbody; now left|].
    intros [|v]; [|apply emits_ret].
    apply IH. intros j Hj. apply Hbody. now right.
Qed.

Lemma emits_bind_lift {A B} (P : event -> Prop) (o : outcome A) (k : A -> M S B) :
  (forall a, o = Ok a -> emits P (k a)) -> emits P (bind (lift o) k).
Proof.
  intros Hk s. unfold bind, lift. destruct o as [a|e]; [|constructor].
  specialize (Hk a eq_refl s). destruct (k a s) as [[t' s''] r]. exact Hk.
Qed.

Lemma hoare_for_in_return {I R} (Inv : S -> Prop) (items : list I)
      (body : I -> M S (flow R)) (Q : R -> S -> Prop) (E : exn -> S -> Prop) :
  (forall i, In i items ->
     hoare Inv (body i)
           (fun r s => match r with Fallthrough => Inv s | Returned v => Q v s end) E) ->
  hoare Inv (for_in_return items body)
        (fun r s => match r with Fallthrough => Inv s | Returned v => Q v s end) E.
Proof.
  induction items as [|i items IH]; intros Hbody; cbn [for_in_return].
  - apply hoare_ret. auto.
  - eapply hoare_bind; [apply Hbody; now left|].
    intros [|v]; cbn beta iota.
    + apply IH. intros j Hj. apply Hbody. now right.
    + apply hoare_ret. auto.
Qed.

Lemma hoare_lift_eq {A} (P : S -> Prop) (o : outcome A) (Q : A -> S -> Prop)
      (E : exn -> S -> Prop) :
  (forall s a, P s -> o = Ok a -> Q a s) ->
  (forall s e, P s -> o = Raise e -> E e s) ->
  hoare P (lift o) Q E.
Proof. intros Hok Hraise s Hs. cbn. destruct o; eauto. Qed.

Lemma hoare_any {A} (P : S -> Prop) (c : M S A) :
  hoare P c (fun _ _ => True) (fun _ _ => True).
Proof. intros s _. destruct (c s) as [[t s'] [a|e]]; exact I. Qed.

(** A fact that does not depend on the local variables can be taken out of
    the precondition. *)
Lemma hoare_pure {A} (P : S -> Prop) (fact : Prop) (c : M S A) (Q : A -> S -> Prop)
      (E : exn -> S -> Prop) :
  (fact -> hoare P c Q E) -> hoare (fun s => P s /\ fact) c Q E.
Proof. intros H s [Hs Hfact]. exact (H Hfact s Hs). Qed.

End LoopsMore.

Section BICMore.

Context {L : HmmLib}.

Import SelectorBIC BICSpec.

(** X8.  A word with no training sequence.  With an empty [self.lengths],
    [SelectorBIC.select] raises [IndexError] at the first candidate, before
    any fit; it returns [None] when there is no candidate at all. *)
Theorem select_bic_no_sequence (self : ModelSelector) :
  lengths self = [] ->
  select self
  = ([], if min_n_components self <=? max_n_components self
         then Raise IndexError else Ok None).
Proof.
  intros Hlen. unfold select.
  destruct (min_n_components self <=? max_n_components self) eqn:E.
  - apply Z.leb_le in E.
    rewrite (range_cons (min_n_components self) (max_n_components self + 1)) by lia.
    cbn [for_in_return]. unfold run, bind, bic_body, lift. rewrite Hlen. reflexivity.
  - apply Z.leb_gt in E.
    rewrite (range_nil (min_n_components self) (max_n_components self + 1)) by lia.
    reflexivity.
Qed.

Lemma bic_loop_all_skipped (self : ModelSelector) (l0 : Z) (ls : list Z)
      (items : list Z) (st : vars) :
  lengths self = l0 :: ls ->
  (forall i, In i items -> l0 <= i) ->
  for_in_return items (bic_body self) st = ([], st, Ok Fallthrough).
Proof.
  intros Hlen. induction items as [|i items IH]; intros Hall; [reflexivity|].
  cbn [for_in_return]. unfold bind.
  rewrite (bic_body_skip self l0 ls Hlen) by (apply Hall; now left).
  rewrite IH by (intros; apply Hall; now right). reflexivity.
Qed.

(** X9.  A short first sequence.  When the first training sequence is no
    longer than [min_n_components], every candidate is skipped:
    [SelectorBIC.select] fits nothing and returns [None]. *)
Theorem select_bic_all_skipped (self : ModelSelector) (l0 : Z) (ls : list Z) :
  lengths self = l0 :: ls ->
  l0 <= min_n_components self ->
  select self = ([], Ok None).
Proof.
  intros Hlen Hshort. unfold select, run, bind.
  rewrite (bic_loop_all_skipped self l0 ls _ locals Hlen); [reflexivity|].
  intros i Hi. apply In_range in Hi. lia.
Qed.

End BICMore.

Section BICCalls.

Context {L : HmmLib}.

Import SelectorBIC BICSpec.

Lemma py_index_first {A} (l : list A) (a : A) :
  py_index l 0 = Ok a -> exists rest, l = a :: rest.
Proof.
  destruct l as [|a0 rest]; [discriminate|].
  unfold py_index. cbn [List.length].
  replace ((0 <=? 0) && (0 <? Z.of_nat (Datatypes.S (List.length rest)))) with true
    by (symmetry; apply andb_true_iff; split; [apply Z.leb_le|apply Z.ltb_lt]; lia).
  cbn. intros [= ->]. eauto.
Qed.

(** X10.  The calls of [SelectorBIC.select].  It fits and scores on the data of
    the word only, with the selector's random state, and never fits a number
    of states outside the bounds or not below the length of the first
    training sequence; it prints nothing. *)
Theorem select_bic_calls (self : ModelSelector) :
  Forall (bic_call self) (trace (select self)).
Proof.
  unfold select. apply emits_run.
  apply emits_bind.
  2:{ intros [|v]; [|apply emits_ret].
      apply emits_bind; [apply emits_get|intros; apply emits_ret]. }
  apply emits_for_in_return. intros i Hi. apply In_range in Hi.
  unfold bic_body. apply emits_bind_lift. intros l0 Hl0.
  destruct (py_index_first _ _ Hl0) as [ls Hlen].
  destruct (i >=? l0) eqn:Eskip; [apply emits_ret|].
  rewrite Z.geb_leb in Eskip. apply Z.leb_gt in Eskip.
  apply emits_bind.
  2:{ intros [[m b]|]; [|apply emits_ret].
      apply emits_bind; [apply emits_get|]. intros st.
      apply emits_bind; [|intros; apply emits_ret].
      destruct (PyFloat.lt b (best_score st)); [apply emits_put|apply emits_ret]. }
  apply emits_try_except; [|intros; apply emits_ret].
  apply emits_bind; [|intros; apply emits_ret].
  unfold bic_try.
  apply emits_bind.
  { apply emits_call_fit. cbn. rewrite Hlen. repeat split; lia. }
  intros m. apply emits_bind; [apply emits_call_score; cbn; auto|].
  intros logL. apply emits_bind; [apply emits_lift|].
  intros x0. apply emits_bind; [apply emits_lift|].
  intros logN. apply emits_bind; [apply emits_lift|].
  intros pf. apply emits_ret.
Qed.

End BICCalls.

Section BICFirst.

Context {L : HmmLib}.

Import SelectorBIC BICSpec.

Variable self : ModelSelector.
Variables (l0 : Z) (ls : list Z).
Hypothesis lengths_self : lengths self = l0 :: ls.

(** One candidate: skipped, fitted and scored, or raising. *)
Lemma bic_body_cases (i : Z) (st : vars) :
  exists t st' r,
    bic_body self i st = (t, st', Ok r) /\
    ((l0 <= i /\ st' = st /\ r = Fallthrough) \/
     (i < l0 /\ exists m b, bic_of self i m b /\
        st' = after_candidate m b st /\ r = Fallthrough) \/
     (i < l0 /\ st' = st /\ r = Returned None)).
Proof.
  destruct (Z_lt_le_dec i l0) as [Hi|Hi].
  2:{ exists [], st, Fallthrough. split; [|left; auto].
      apply (bic_body_skip self l0 ls lengths_self). exact Hi. }
  assert (Hge : (i >=? l0) = false) by (rewrite Z.geb_leb; apply Z.leb_gt; lia).
  unfold bic_body, bind at 1, lift at 1.
  rewrite (first_length self l0 ls lengths_self). cbn beta iota. rewrite Hge.
  unfold try_except, bic_try, bind, call_fit, call_score, lift, ret, get, put.
  rewrite (count_lengths self l0 ls lengths_self).
  destruct (fit i (random_state self) (X self) (lengths self)) as [m|] eqn:Efit;
    [|eexists _, _, _; split; [reflexivity|right; right; auto]].
  destruct (score m (X self) (lengths self)) as [logL|] eqn:Escore;
    [|eexists _, _, _; split; [reflexivity|right; right; auto]].
  destruct (py_index (X self) 0) as [x0|e] eqn:Ex0;
    [|eexists _, _, _; split; [reflexivity|right; right; auto]].
  destruct (float_of_int (n_params i (Z.of_nat (List.length x0)))) as [pf|e] eqn:Epf;
    [|eexists _, _, _; split; [reflexivity|right; right; auto]].
  assert (Hbic : bic_of self i m
                   ((-2) * logL + pf * ln (Z.of_nat (List.length (lengths self))))%float).
  { split; [exact Efit|]. exists logL, x0, pf. repeat split; assumption. }
  unfold PyFloat.lt.
  destruct (PrimFloat.ltb ((-2) * logL + pf * ln (Z.of_nat (List.length (lengths self))))
                          (best_score st)) eqn:Elt;
    (eexists _, _, _; split; [reflexivity|]; right; left; split; [exact Hi|];
     eexists _, _; split; [exact Hbic|]; split; [|reflexivity];
     unfold after_candidate, PyFloat.lt; rewrite Elt; reflexivity).
Qed.




End BICFirst.

Section BICFirstClaims.

Context {L : HmmLib}.

Import SelectorBIC BICSpec.


(** X12.  What [SelectorBIC.select] returns.  For a word with a training
    sequence it never raises, and a model it returns is the model fitted for
    a candidate within the bounds and below the first length, which was
    scored without raising. *)
Theorem select_bic_returns (self : ModelSelector) (l0 : Z) (ls : list Z) :
  lengths self = l0 :: ls ->
  exists best,
    result (select self) = Ok best /\
    forall m, best = Some m ->
      exists i b,
        min_n_components self <= i <= max_n_components self /\ i < l0 /\
        bic_of self i m b.
Proof.
  intros Hlen.
  pose (Inv := fun st : vars =>
                 forall m, best_model st = Some m ->
                   exists i b, min_n_components self <= i <= max_n_components self /\
                               i < l0 /\ bic_of self i m b).
  assert (Hloop : forall items st,
             (forall i, In i items ->
                        min_n_components self <= i <= max_n_components self) ->
             Inv st ->
             exists t st' r,
               for_in_return items (bic_body self) st = (t, st', Ok r) /\
               match r with Fallthrough => Inv st' | Returned v => v = None end).
  { induction items as [|i items IH]; intros st Hitems Hinv.
    - exists [], st, Fallthrough. split; [reflexivity|exact Hinv].
    - cbn [for_in_return]. unfold bind.
      destruct (bic_body_cases self l0 ls Hlen i st)
        as (t & st1 & r1 & E &
            [(Hskip & -> & ->)|[(Hal & m & sc & Hbic & -> & ->)|(Hal & -> & ->)]]);
        rewrite E.
      + destruct (IH st (fun j Hj => Hitems j (or_intror Hj)) Hinv)
          as (t' & st' & r & E' & Hr).
        rewrite E'. eauto.
      + destruct (IH (after_candidate m sc st) (fun j Hj => Hitems j (or_intror Hj)))
          as (t' & st' & r & E' & Hr).
        { unfold after_candidate. destruct (PyFloat.lt sc (best_score st)); [|exact Hinv].
          intros m' [= <-]. exists i, sc. split; [apply Hitems; now left|]. auto. }
        rewrite E'. eauto.
      + exists (t ++ []), st, (Returned None). split; reflexivity. }
  destruct (Hloop (range (min_n_components self) (max_n_components self + 1)) locals)
    as (t & st' & r & E & Hr).
  { intros i Hi. apply In_range in Hi. lia. }
  { intros m [=]. }
  unfold select, run, bind. rewrite E.
  destruct r as [|v]; cbn.
  - exists (best_model st'). split; [reflexivity|exact Hr].
  - subst v. exists None. split; [reflexivity|discriminate].
Qed.

End BICFirstClaims.

(** ** More on SelectorDIC *)

Section DICMore.

Context {L : HmmLib}.

Import SelectorDIC.

Lemma gtb_false_le (i l0 : Z) : (i >? l0) = false -> i <= l0.
Proof. rewrite Z.gtb_ltb. intros H. apply Z.ltb_ge in H. exact H. Qed.

(** X13.  The calls of [SelectorDIC.select].  Every fit uses the selector's
    random state and a number of states within the bounds and no greater
    than the first length of the data it is fitted to, the data of the word
    or of another word of the training set; nothing is printed. *)
Theorem select_dic_calls (self : ModelSelector) :
  Forall (dic_call self) (trace (select self)).
Proof.
  unfold select. apply emits_run.
  apply emits_bind;
    [|intros _; apply emits_bind; [apply emits_get|intros; apply emits_ret]].
  apply emits_for_in. intros i Hi. apply In_range in Hi.
  unfold dic_body. apply emits_try_except; [|intros; apply emits_ret].
  apply emits_bind_lift. intros l0 Hl0.
  destruct (py_index_first _ _ Hl0) as [ls Hlen].
  destruct (i >? l0) eqn:Eskip; [apply emits_ret|]. apply gtb_false_le in Eskip.
  apply emits_bind.
  { apply emits_call_fit. cbn. split; [lia|]. split; [reflexivity|].
    split; [eauto|]. now left. }
  intros hmm_model. apply emits_bind; [apply emits_call_score; exact I|].
  intros this_model_score. apply emits_bind; [apply emits_modify|]. intros _.
  apply emits_for_in. intros w _. unfold dic_word.
  destruct (String.eqb w (this_word self)) eqn:Ew; [apply emits_ret|].
  apply String.eqb_neq in Ew.
  apply emits_bind_lift. intros [X' lengths'] Hxl.
  assert (Hget : dict_get String.eqb w (hwords self) = Some (X', lengths')).
  { unfold dict_item in Hxl. destruct (dict_get String.eqb w (hwords self));
      [injection Hxl as ->; reflexivity|discriminate]. }
  apply emits_bind_lift. intros l0' Hl0'.
  destruct (py_index_first _ _ Hl0') as [ls' Hlen'].
  destruct (i >? l0') eqn:Eskip'; [apply emits_ret|]. apply gtb_false_le in Eskip'.
  apply emits_bind.
  { apply emits_call_fit. cbn. split; [lia|]. split; [reflexivity|].
    split; [eauto|]. right. eauto. }
  intros other. apply emits_bind.
  { apply emits_try_except; [apply emits_call_score; exact I|intros; apply emits_ret]. }
  intros other_score. apply emits_bind; [apply emits_modify|]. intros _.
  apply emits_bind; [apply emits_get|]. intros st.
  apply emits_bind; [apply emits_lift|]. intros inv.
  destruct (PyFloat.gt _ (best_score st)); [apply emits_put|apply emits_ret].
Qed.

(** The loop over the words keeps an invariant of [best_model] that the
    candidate's own model satisfies. *)
Lemma dic_word_keeps (self : ModelSelector) (P : Model -> Prop) (i : Z)
      (hmm_model : Model) (this_model_score : float) (w : word) :
  P hmm_model ->
  hoare (fun st => forall m, best_model st = Some m -> P m)
        (dic_word self i hmm_model this_model_score w)
        (fun _ st => forall m, best_model st = Some m -> P m)
        (fun _ st => forall m, best_model st = Some m -> P m).
Proof.
  intros Hm. set (Inv := fun st : vars => forall m, best_model st = Some m -> P m).
  unfold dic_word.
  destruct (String.eqb w (this_word self)); [apply hoare_ret; auto|].
  apply hoare_bind with (R := fun _ => Inv); [apply hoare_lift_eq; auto|].
  intros [X' lengths'].
  apply hoare_bind with (R := fun _ => Inv); [apply hoare_lift_eq; auto|].
  intros l0'. destruct (i >? l0'); [apply hoare_ret; auto|].
  apply hoare_bind with (R := fun _ => Inv); [apply hoare_call_fit; auto|].
  intros other.
  apply hoare_bind with (R := fun _ => Inv).
  { apply hoare_try_except with (E' := fun _ => Inv);
      [apply hoare_call_score; auto|intros; apply hoare_ret; auto]. }
  intros other_score.
  apply hoare_bind with (R := fun _ => Inv); [apply hoare_modify; auto|].
  intros _. apply hoare_bind with (R := fun _ => Inv); [apply hoare_get; auto|].
  intros st. apply hoare_bind with (R := fun _ => Inv); [apply hoare_lift_eq; auto|].
  intros inv. destruct (PyFloat.gt _ (best_score st)); [|apply hoare_ret; auto].
  apply hoare_put. intros _ _ m [= <-]. exact Hm.
Qed.

(** X14.  What [SelectorDIC.select] returns.  It never raises, and a model it
    returns was fitted to the data of the word itself, for a candidate
    within the bounds and no greater than the first length, and scored
    without raising. *)
Theorem select_dic_returns (self : ModelSelector) :
  exists best,
    result (select self) = Ok best /\
    forall m, best = Some m -> dic_candidate self m.
Proof.
  set (Inv := fun st : vars => forall m, best_model st = Some m -> dic_candidate self m).
  assert (Hrun :
    hoare Inv
          (for_in (range (min_n_components self) (max_n_components self + 1))
                  (dic_body self) ;;;
           st <- get ;; ret (best_model st))%py
          (fun best _ => forall m, best = Some m -> dic_candidate self m)
          (fun _ _ => False)).
  { apply hoare_bind with (R := fun _ => Inv).
    2:{ intros _. apply hoare_bind with (R := fun st s => Inv st);
          [apply hoare_get; auto|]. intros st. apply hoare_ret. auto. }
    apply hoare_for_in. intros i Hi. apply In_range in Hi.
    unfold dic_body.
    apply hoare_try_except with (E' := fun _ => Inv); [|intros; apply hoare_ret; auto].
    apply hoare_bind
      with (R := fun l0 st => Inv st /\ py_index (lengths self) 0 = Ok l0);
      [apply hoare_lift_eq; auto|].
    intros l0. destruct (i >? l0) eqn:Eskip; [apply hoare_ret; intros s [H _]; exact H|].
    apply gtb_false_le in Eskip.
    apply hoare_bind
      with (R := fun m st => (Inv st /\ py_index (lengths self) 0 = Ok l0) /\
                             fit i (random_state self) (X self) (lengths self) = Some m).
    { apply hoare_call_fit; [auto|intros s [H _] _; exact H]. }
    intros hmm_model.
    apply hoare_bind
      with (R := fun v st => Inv st /\ dic_candidate self hmm_model).
    { apply hoare_call_score.
      - intros s v [[Hinv Hl0] Hfit] Hscore. split; [exact Hinv|].
        destruct (py_index_first _ _ Hl0) as [ls Hlen].
        exists i. split; [lia|]. split; [exact Hfit|]. split; eauto.
      - intros s [[H _] _] _. exact H. }
    intros this_model_score.
    apply hoare_bind with (R := fun _ st => Inv st /\ dic_candidate self hmm_model).
    { apply hoare_modify. intros s [H Hc]. split; [exact H|exact Hc]. }
    intros _.
    apply hoare_weaken
      with (P' := fun st => Inv st /\ dic_candidate self hmm_model)
           (Q' := fun _ st => Inv st /\ dic_candidate self hmm_model)
           (E' := fun _ st => Inv st /\ dic_candidate self hmm_model);
      [|auto|intros a s [H _]; exact H|intros e s [H _]; exact H].
    apply hoare_for_in. intros w _.
    intros s [Hinv Hc].
    pose proof (dic_word_keeps self (dic_candidate self) i hmm_model this_model_score
                               w Hc s Hinv) as Hw.
    destruct (dic_word self i hmm_model this_model_score w s) as [[t s'] [a|e]]; auto. }
  pose proof (hoare_run _ _ _ _ locals Hrun) as Hres.
  specialize (Hres ltac:(intros m [=])).
  unfold select.
  match type of Hres with
  | match result ?c with _ => _ end => destruct (result c) as [best|e] eqn:E
  end.
  - exists best. split; [reflexivity|]. destruct Hres as [_ H]. exact H.
  - destruct Hres as [_ []].
Qed.

End DICMore.

Section DICNone.

Context {L : HmmLib}.

Import SelectorDIC.

Lemma hoare_false {S A} (c : M S A) (Q : A -> S -> Prop) (E : exn -> S -> Prop) :
  hoare (fun _ => False) c Q E.
Proof. intros s []. Qed.

(** When every candidate leaves [best_model] at [None], so does [select]. *)
Lemma select_dic_none (self : ModelSelector) :
  (forall i, min_n_components self <= i <= max_n_components self ->
     hoare (fun st => best_model st = None) (dic_body self i)
           (fun _ st => best_model st = None) (fun _ _ => False)) ->
  result (select self) = Ok None.
Proof.
  intros Hbody.
  assert (Hrun :
    hoare (fun st => best_model st = None)
          (for_in (range (min_n_components self) (max_n_components self + 1))
                  (dic_body self) ;;;
           st <- get ;; ret (best_model st))%py
          (fun best _ => best = None) (fun _ _ => False)).
  { apply hoare_bind with (R := fun _ st => best_model st = None).
    - apply hoare_for_in. intros i Hi. apply In_range in Hi. apply Hbody. lia.
    - intros _. apply hoare_bind with (R := fun st _ => best_model st = None);
        [apply hoare_get; auto|].
      intros st. apply hoare_ret. auto. }
  pose proof (hoare_run _ _ _ _ locals Hrun eq_refl) as Hres.
  unfold select.
  match type of Hres with
  | match result ?c with _ => _ end => destruct (result c) as [best|e]
  end.
  - destruct Hres as [_ ->]. reflexivity.
  - destruct Hres as [_ []].
Qed.

(** X15.  A training set of one word.  When the training set has no word but
    [this_word], no score is ever compared and [SelectorDIC.select] returns
    [None], whatever the models of the word are. *)
Theorem select_dic_no_other_word (self : ModelSelector) :
  (forall w, In w (keys (words self)) -> w = this_word self) ->
  result (select self) = Ok None.
Proof.
  intros Halone. apply select_dic_none. intros i _.
  set (Inv := fun st : vars => best_model st = None).
  unfold dic_body.
  apply hoare_try_except with (E' := fun _ => Inv); [|intros; apply hoare_ret; auto].
  apply hoare_bind with (R := fun _ => Inv); [apply hoare_lift_eq; auto|].
  intros l0. destruct (i >? l0); [apply hoare_ret; auto|].
  apply hoare_bind with (R := fun _ => Inv); [apply hoare_call_fit; auto|].
  intros hmm_model.
  apply hoare_bind with (R := fun _ => Inv); [apply hoare_call_score; auto|].
  intros this_model_score.
  apply hoare_bind with (R := fun _ => Inv); [apply hoare_modify; auto|].
  intros _. apply hoare_for_in. intros w Hw.
  unfold dic_word. rewrite (Halone w Hw), String.eqb_refl.
  apply hoare_ret. auto.
Qed.

(** X16.  A word that cannot be fitted.  When fitting or scoring the word
    raises for every candidate, [SelectorDIC.select] returns [None]. *)
Theorem select_dic_unfittable (self : ModelSelector) :
  (forall i, min_n_components self <= i <= max_n_components self ->
             BICSpec.fit_or_score_raises self i) ->
  result (select self) = Ok None.
Proof.
  intros Hraise. apply select_dic_none. intros i Hi.
  set (Inv := fun st : vars => best_model st = None).
  unfold dic_body.
  apply hoare_try_except with (E' := fun _ => Inv); [|intros; apply hoare_ret; auto].
  apply hoare_bind with (R := fun _ => Inv); [apply hoare_lift_eq; auto|].
  intros l0. destruct (i >? l0); [apply hoare_ret; auto|].
  destruct (Hraise i Hi) as [Hfit|(m & Hfit & Hscore)].
  - apply hoare_bind with (R := fun _ _ => False); [|intros; apply hoare_false].
    apply hoare_call_fit; [|auto]. intros s m' _ Hm. congruence.
  - apply hoare_bind
      with (R := fun m' st => Inv st /\ m' = m).
    { apply hoare_call_fit; [|auto]. intros s m' Hs Hm. split; [exact Hs|congruence]. }
    intros hmm_model.
    apply hoare_bind with (R := fun _ _ => False); [|intros; apply hoare_false].
    apply hoare_call_score.
    + intros s v [_ ->] Hv. congruence.
    + intros s [Hs _] _. exact Hs.
Qed.

End DICNone.

(** ** More on SelectorCV *)

Section CVMore.

Context {L : HmmLib}.

Import SelectorCV.

(** X17.  No candidate.  With enough sequences and [max_n_components] no
    greater than [min_n_components], the loop of [SelectorCV.select] has no
    candidate: nothing is fitted, and the result is [None] unless building
    the folds raises. *)
Theorem select_cv_no_candidate (self : ModelSelector) :
  min_n_components self <= Z.of_nat (List.length (sequences self)) ->
  max_n_components self <= min_n_components self ->
  select self
  = ([], match KFold_new (min_n_components self) with
         | Ok _ => Ok None
         | Raise e => Raise e
         end).
Proof.
  intros Henough Hempty. unfold select.
  replace (Z.of_nat (List.length (sequences self)) <? min_n_components self) with false
    by (symmetry; apply Z.ltb_ge; exact Henough).
  rewrite range_nil by exact Hempty.
  unfold run, bind, lift. destruct (KFold_new (min_n_components self)); reflexivity.
Qed.

(** X18.  The calls of [SelectorCV.select].  Every fit uses the selector's
    random state, a number of states from [min_n_components] up to and not
    including [max_n_components], and sequences of the word put together by
    [combine_sequences]; nothing is printed. *)
Theorem select_cv_calls (self : ModelSelector) :
  Forall (cv_call self) (trace (select self)).
Proof.
  unfold select.
  destruct (Z.of_nat (List.length (sequences self)) <? min_n_components self);
    [constructor|].
  apply emits_run.
  apply emits_bind; [apply emits_lift|]. intros split_method.
  apply emits_bind;
    [|intros _; apply emits_bind; [apply emits_get|intros; apply emits_ret]].
  apply emits_for_in. intros i Hi. apply In_range in Hi.
  unfold cv_body.
  apply emits_bind; [apply emits_modify|]. intros _.
  apply emits_bind; [apply emits_lift|]. intros folds.
  apply emits_bind.
  2:{ intros _. apply emits_bind; [apply emits_get|]. intros st.
      apply emits_bind; [apply emits_lift|]. intros avg_score.
      destruct (PyFloat.gt avg_score (best_score st)); [|apply emits_ret].
      destruct (hmm_model st); [apply emits_put|apply emits_raise]. }
  apply emits_for_in. intros [cv_train_idx cv_test_idx] _.
  unfold cv_fold.
  apply emits_bind_lift. intros [X' X_lengths] Hxs.
  apply emits_bind; [apply emits_lift|]. intros [Y Y_lengths].
  apply emits_try_except; [|intros; apply emits_ret].
  apply emits_bind.
  { apply emits_call_fit. cbn. split; [lia|]. split; [reflexivity|]. eauto. }
  intros m. apply emits_bind; [apply emits_modify|]. intros _.
  apply emits_bind; [apply emits_call_score; exact I|]. intros logL.
  apply emits_bind; [apply emits_get|]. intros st.
  apply emits_bind; [apply emits_lift|]. intros t.
  apply emits_modify.
Qed.

(** X19.  What [SelectorCV.select] returns.  A model it returns was fitted for
    one of the candidates to the training sequences of a fold, one of those
    that [KFold(n_splits=self.min_n_components).split(self.sequences)]
    yields, put together by [combine_sequences]: the selector never returns
    a model fitted to anything else, such as all the data of the word. *)
Theorem select_cv_returns (self : ModelSelector) (m : Model) :
  result (select self) = Ok (Some m) -> cv_candidate self m.
Proof.
  unfold select.
  destruct (Z.of_nat (List.length (sequences self)) <? min_n_components self);
    [discriminate|].
  set (Inv := fun st : vars =>
                (forall m, best_model st = Some m -> cv_candidate self m) /\
                (forall m, hmm_model st = Some m -> cv_candidate self m)).
  match goal with
  | |- result (run ?c locals) = _ -> _ =>
      assert (Hrun : hoare Inv c (fun best _ => forall m, best = Some m ->
                                                 cv_candidate self m)
                           (fun _ _ => True))
  end.
  { apply hoare_bind
      with (R := fun sm st => Inv st /\ KFold_new (min_n_components self) = Ok sm);
      [apply hoare_lift_eq; auto|].
    intros split_method. apply hoare_pure. intros Hnew.
    apply hoare_bind with (R := fun _ => Inv).
    2:{ intros _. apply hoare_bind with (R := fun st _ => Inv st);
          [apply hoare_get; auto|].
        intros st. apply hoare_ret. intros _ [H _]. exact H. }
    apply hoare_for_in. intros i Hi. apply In_range in Hi.
    unfold cv_body.
    apply hoare_bind with (R := fun _ => Inv).
    { apply hoare_modify. intros s [H1 H2]. split; assumption. }
    intros _.
    apply hoare_bind
      with (R := fun fs st => Inv st /\
                   KFold_split split_method (sequences self) = Ok fs);
      [apply hoare_lift_eq; auto|].
    intros folds. apply hoare_pure. intros Hfolds.
    apply hoare_bind with (R := fun _ => Inv).
    2:{ intros _. apply hoare_bind with (R := fun st s => Inv s /\ Inv st);
          [apply hoare_get; auto|].
        intros st. apply hoare_bind with (R := fun _ s => Inv s /\ Inv st);
          [apply hoare_lift_eq; auto|].
        intros avg_score.
        destruct (PyFloat.gt avg_score (best_score st));
          [|apply hoare_ret; intros s [H _]; exact H].
        destruct (hmm_model st) as [m0|] eqn:Em0; [|apply hoare_raise; auto].
        apply hoare_put. intros _ [_ [H1 H2]]. split.
        - intros m1 [= <-]. apply H2. exact Em0.
        - exact H2. }
    apply hoare_weaken with (P' := Inv) (Q' := fun _ => Inv) (E' := fun _ => Inv);
      [|auto..].
    apply hoare_for_in. intros [cv_train_idx cv_test_idx] Hfold.
    unfold cv_fold.
    apply hoare_bind
      with (R := fun xs st => Inv st /\
                   combine_sequences cv_train_idx (sequences self) = Ok xs);
      [apply hoare_lift_eq; auto|].
    intros [X' X_lengths].
    apply hoare_bind
      with (R := fun _ st => Inv st /\
                   combine_sequences cv_train_idx (sequences self) = Ok (X', X_lengths));
      [apply hoare_lift_eq; [auto|intros s e [H _] _; exact H]|].
    intros [Y Y_lengths].
    apply hoare_try_except with (E' := fun _ => Inv); [|intros; apply hoare_ret; auto].
    apply hoare_bind
      with (R := fun m0 st => Inv st /\ cv_candidate self m0).
    { apply hoare_call_fit; [|intros s [H _] _; exact H].
      intros s m0 [Hinv Hxs] Hfit. split; [exact Hinv|].
      exists i, split_method, folds, cv_train_idx, cv_test_idx, X', X_lengths.
      repeat split; solve [assumption | lia]. }
    intros m0.
    apply hoare_bind with (R := fun _ => Inv).
    { apply hoare_modify. intros s [[H1 H2] Hc]. split; [exact H1|].
      intros m1 [= <-]. exact Hc. }
    intros _. apply hoare_bind with (R := fun _ => Inv); [apply hoare_call_score; auto|].
    intros logL. apply hoare_bind with (R := fun _ => Inv); [apply hoare_get; auto|].
    intros st. apply hoare_bind with (R := fun _ => Inv); [apply hoare_lift_eq; auto|].
    intros t. apply hoare_modify. intros s [H1 H2]. split; assumption. }
  intros Hres.
  pose proof (hoare_run _ _ _ _ locals Hrun) as Hpost.
  rewrite Hres in Hpost.
  destruct Hpost as [_ H]; [split; intros m0 [=]|]. apply H. reflexivity.
Qed.

End CVMore.

(** ** The float of a count *)

Module CountFloat.

Lemma digits2_pos_lower (p : positive) :
  2 ^ (Zpos (digits2_pos p) - 1) <= Zpos p.
Proof.
  induction p as [p IH|p IH|]; cbn [digits2_pos].
  - rewrite Pos2Z.inj_succ, (Pos2Z.inj_xI p).
    replace (Z.succ (Zpos (digits2_pos p)) - 1) with (Z.succ (Zpos (digits2_pos p) - 1))
      by lia.
    rewrite Z.pow_succ_r by lia.
    remember (2 ^ (Zpos (digits2_pos p) - 1)) as x. lia.
  - rewrite Pos2Z.inj_succ, (Pos2Z.inj_xO p).
    replace (Z.succ (Zpos (digits2_pos p)) - 1) with (Z.succ (Zpos (digits2_pos p) - 1))
      by lia.
    rewrite Z.pow_succ_r by lia.
    remember (2 ^ (Zpos (digits2_pos p) - 1)) as x. lia.
  - reflexivity.
Qed.

Lemma digits2_pos_small (p : positive) :
  Zpos p < 2 ^ 53 -> Zpos (digits2_pos p) <= 53.
Proof.
  intros Hp. pose proof (digits2_pos_lower p) as Hlow.
  destruct (Z_le_gt_dec (Zpos (digits2_pos p)) 53) as [H|H]; [exact H|].
  assert (2 ^ 53 <= 2 ^ (Zpos (digits2_pos p) - 1)) by (apply Z.pow_le_mono_r; lia).
  lia.
Qed.

Lemma digits2_pos_iter (p k : positive) :
  Zpos (digits2_pos (Pos.iter xO p k)) = Zpos (digits2_pos p) + Zpos k.
Proof.
  induction k as [|k IH] using Pos.peano_ind.
  - cbn. lia.
  - rewrite Pos.iter_succ. cbn [digits2_pos]. rewrite Pos2Z.inj_succ, IH. lia.
Qed.

Lemma binary_round_aux_exact (sx : bool) (mz : positive) (ez : Z) :
  fexp prec emax (Zpos (digits2_pos mz) + ez) = ez ->
  ez <= emax - prec ->
  binary_round_aux prec emax sx (Zpos mz) ez loc_Exact = S754_finite sx mz ez.
Proof.
  intros Hexp Hez.
  unfold binary_round_aux, shr_fexp, Zdigits2.
  rewrite Hexp, Z.sub_diag. cbn [shr shr_record_of_loc shr_m loc_of_shr_record
                                 round_nearest_even].
  rewrite Hexp, Z.sub_diag. cbn [shr shr_record_of_loc shr_m].
  replace (ez <=? emax - prec) with true by (symmetry; apply Z.leb_le; exact Hez).
  reflexivity.
Qed.

(** A count below [2^53] is a positive finite float. *)
Lemma of_int_small (z : Z) :
  0 < z < 2 ^ 53 ->
  exists m e, Prim2SF (PyFloat.of_int z) = S754_finite false m e.
Proof.
  intros Hz. destruct z as [|p|p]; try lia.
  pose proof (digits2_pos_small p ltac:(lia)) as Hd.
  assert (Hd1 : 1 <= Zpos (digits2_pos p)) by lia.
  assert (Hfexp : forall d, 1 <= d <= 53 -> fexp prec emax d = d - 53).
  { intros d Hd'. unfold fexp, SpecFloat.emin, prec, emax. lia. }
  assert (Hnorm : exists mz ez,
             binary_normalize prec emax (Zpos p) 0 false = S754_finite false mz ez /\
             valid_binary (S754_finite false mz ez) = true).
  { unfold binary_normalize, binary_round, shl_align.
    rewrite Z.add_0_r, Hfexp by lia. rewrite Z.sub_0_r.
    destruct (Zpos (digits2_pos p) - 53) as [|k|k] eqn:Ek; try lia.
    - exists p, 0.
      assert (Hexp : fexp prec emax (Zpos (digits2_pos p) + 0) = 0)
        by (rewrite Z.add_0_r, Hfexp by lia; exact Ek).
      split.
      + apply binary_round_aux_exact; [exact Hexp|unfold prec, emax; lia].
      + cbn [valid_binary]. unfold bounded, canonical_mantissa.
        rewrite Hexp. reflexivity.
    - exists (Pos.iter xO p k), (Zneg k).
      assert (Hexp : fexp prec emax (Zpos (digits2_pos (Pos.iter xO p k)) + Zneg k)
                     = Zneg k).
      { rewrite digits2_pos_iter.
        replace (Zpos (digits2_pos p) + Zpos k + Zneg k) with (Zpos (digits2_pos p))
          by lia.
        rewrite Hfexp by lia. exact Ek. }
      split.
      + apply binary_round_aux_exact; [exact Hexp|unfold prec, emax; lia].
      + cbn [valid_binary]. unfold bounded, canonical_mantissa.
        rewrite Hexp, Z.eqb_refl. cbn [andb]. apply Z.leb_le. unfold prec, emax. lia. }
  destruct Hnorm as (mz & ez & Hnorm & Hvalid).
  exists mz, ez. unfold PyFloat.of_int. rewrite Hnorm.
  apply Prim2SF_SF2Prim. exact Hvalid.
Qed.

(** The int [0] over a count is a zero, which is above [-inf]. *)
Lemma zero_over_count (z : Z) :
  0 < z < 2 ^ 53 ->
  exists q, int_truediv 0 z = Ok q /\ PyFloat.gt q neg_infinity = true.
Proof.
  intros Hz. destruct (of_int_small z Hz) as (m & e & Hy).
  unfold int_truediv.
  replace (z =? 0) with false by (symmetry; apply Z.eqb_neq; lia).
  eexists. split; [reflexivity|].
  unfold PyFloat.gt. rewrite ltb_spec, div_spec, Hy. reflexivity.
Qed.

End CountFloat.

Section CVUnbound.

Context {L : HmmLib}.

Import SelectorCV.

Lemma cv_fold_unfitted (self : ModelSelector) (i : Z) (train test : list nat)
      (st : vars) :
  (forall X' lengths', fit i (random_state self) X' lengths' = None) ->
  (exists xs ys,
      combine_sequences train (sequences self) = Ok xs /\
      combine_sequences test (sequences self) = Ok ys) ->
  exists t, cv_fold self i (train, test) st = (t, st, Ok tt).
Proof.
  intros Hfit ([X' X_lengths] & [Y Y_lengths] & Hxs & Hys).
  unfold cv_fold, bind, lift, try_except, call_fit, ret.
  rewrite Hxs, Hys, Hfit. cbn. eexists. reflexivity.
Qed.

Lemma cv_folds_unfitted (self : ModelSelector) (i : Z)
      (folds : list (list nat * list nat)) :
  (forall X' lengths', fit i (random_state self) X' lengths' = None) ->
  (forall train test, In (train, test) folds ->
     exists xs ys,
       combine_sequences train (sequences self) = Ok xs /\
       combine_sequences test (sequences self) = Ok ys) ->
  forall st, exists t, for_in folds (cv_fold self i) st = (t, st, Ok tt).
Proof.
  intros Hfit. induction folds as [|[train test] folds IH]; intros Hcombine st.
  - exists []. reflexivity.
  - destruct (cv_fold_unfitted self i train test st Hfit
                (Hcombine train test (or_introl eq_refl))) as [t1 E1].
    destruct (IH (fun tr te H => Hcombine tr te (or_intror H)) st) as [t2 E2].
    exists (t1 ++ t2). cbn [for_in]. unfold bind. rewrite E1, E2. reflexivity.
Qed.

(** X20.  Nothing can be fitted.  When every fit of the first candidate raises,
    its total stays at the int [0], its average [0 / num_splits] is above
    [-inf], and [SelectorCV.select] reads [hmm_model] before any assignment:
    it raises [UnboundLocalError] instead of returning [None]. *)
Theorem select_cv_unbound (self : ModelSelector) (split_method : KFold)
        (folds : list (list nat * list nat)) :
  min_n_components self <= Z.of_nat (List.length (sequences self)) ->
  0 < min_n_components self < 2 ^ 53 ->
  min_n_components self < max_n_components self ->
  KFold_new (min_n_components self) = Ok split_method ->
  KFold_split split_method (sequences self) = Ok folds ->
  (forall train test, In (train, test) folds ->
     exists xs ys,
       combine_sequences train (sequences self) = Ok xs /\
       combine_sequences test (sequences self) = Ok ys) ->
  (forall X' lengths',
     fit (min_n_components self) (random_state self) X' lengths' = None) ->
  result (select self) = Raise UnboundLocalError.
Proof.
  intros Henough Hmin Hrange Hnew Hsplit Hcombine Hfit.
  destruct (CountFloat.zero_over_count _ Hmin) as (q & Hq & Habove).
  unfold select.
  replace (Z.of_nat (List.length (sequences self)) <? min_n_components self) with false
    by (symmetry; apply Z.ltb_ge; exact Henough).
  rewrite (range_cons (min_n_components self) (max_n_components self)) by exact Hrange.
  cbn [for_in].
  destruct (cv_folds_unfitted self (min_n_components self) folds Hfit Hcombine
              (set_total (PInt 0) locals)) as [t Ht].
  unfold run, bind at 1, lift at 1. rewrite Hnew. cbn beta iota.
  unfold bind at 1, bind at 1, cv_body, bind at 1, modify at 1. cbn beta iota.
  unfold bind at 1, lift at 1. rewrite Hsplit. cbn beta iota.
  unfold bind at 1. rewrite Ht. cbn beta iota.
  unfold bind at 1, get at 1. cbn beta iota.
  unfold bind at 1, lift at 1. cbn [total_score set_total locals num_truediv].
  rewrite Hq. cbn beta iota. cbn [best_score set_total locals]. rewrite Habove.
  reflexivity.
Qed.

End CVUnbound.

(** ** The further properties on concrete inputs *)

(** Two models scored on two items: four calls. *)
Lemma recognize_call_log_witness :
  ids_valid RecognizerExamples.two_items /\
  trace (@Recognizer.recognize RecognizerExamples.mixed_lib
           RecognizerExamples.two_models RecognizerExamples.two_items)
  = flat_map (@calls_of RecognizerExamples.mixed_lib RecognizerExamples.two_models
                        RecognizerExamples.two_items)
             (keys (get_all_Xlengths RecognizerExamples.two_items)).
Proof.
  assert (Hvalid : ids_valid RecognizerExamples.two_items) by ids_valid_by_cases.
  split; [exact Hvalid|].
  exact (@recognize_call_log RecognizerExamples.mixed_lib
           RecognizerExamples.two_models RecognizerExamples.two_items Hvalid).
Defined.

(** The word id 5 with a word list of one word. *)
Lemma recognize_index_error_witness :
  In 5 (keys (get_all_Xlengths MoreExamples.stray_item)) /\
  ~ (- Z.of_nat (List.length (wordlist MoreExamples.stray_item)) <= 5
     < Z.of_nat (List.length (wordlist MoreExamples.stray_item))) /\
  result (@Recognizer.recognize RecognizerExamples.mixed_lib
            RecognizerExamples.two_models MoreExamples.stray_item)
  = Raise IndexError.
Proof.
  assert (Hin : In 5 (keys (get_all_Xlengths MoreExamples.stray_item)))
    by (cbn; auto).
  assert (Hbad : ~ (- Z.of_nat (List.length (wordlist MoreExamples.stray_item)) <= 5
                    < Z.of_nat (List.length (wordlist MoreExamples.stray_item))))
    by (cbn; lia).
  split; [exact Hin|]. split; [exact Hbad|].
  exact (@recognize_index_error RecognizerExamples.mixed_lib
           RecognizerExamples.two_models MoreExamples.stray_item 5 Hin Hbad).
Defined.

(** The same observations under BOOK, JOHN and under GIVE, GIVE. *)
Lemma recognize_ignores_wordlist_witness :
  get_all_Xlengths RecognizerExamples.two_items
  = get_all_Xlengths MoreExamples.two_items_relabelled /\
  ids_valid RecognizerExamples.two_items /\
  ids_valid MoreExamples.two_items_relabelled /\
  @Recognizer.recognize RecognizerExamples.mixed_lib RecognizerExamples.two_models
    RecognizerExamples.two_items
  = @Recognizer.recognize RecognizerExamples.mixed_lib RecognizerExamples.two_models
      MoreExamples.two_items_relabelled.
Proof.
  assert (Hsame : get_all_Xlengths RecognizerExamples.two_items
                  = get_all_Xlengths MoreExamples.two_items_relabelled) by reflexivity.
  assert (Hvalid : ids_valid RecognizerExamples.two_items) by ids_valid_by_cases.
  assert (Hvalid' : ids_valid MoreExamples.two_items_relabelled) by ids_valid_by_cases.
  split; [exact Hsame|]. split; [exact Hvalid|]. split; [exact Hvalid'|].
  exact (@recognize_ignores_wordlist RecognizerExamples.mixed_lib
           RecognizerExamples.two_models RecognizerExamples.two_items
           MoreExamples.two_items_relabelled Hsame Hvalid Hvalid').
Defined.

(** Two models and two items.  Both models score the first item at [-50]
    and the second at [-inf]: the second item gets JOHN, the guess of the
    first. *)
Lemma recognize_guess_carried_over_witness :
  dict_wf RecognizerExamples.two_models /\
  ids_valid RecognizerExamples.two_items /\
  exists probs guesses,
    result (@Recognizer.recognize MoreExamples.fading_lib
              RecognizerExamples.two_models RecognizerExamples.two_items)
    = Ok (probs, guesses) /\
    nth_error probs 1
    = Some [("JOHN"%string, neg_infinity); ("BOOK"%string, neg_infinity)] /\
    RecognizerSpec.all_lowest
      [("JOHN"%string, neg_infinity); ("BOOK"%string, neg_infinity)] /\
    guess_before guesses 1 = Some "JOHN"%string /\
    nth_error guesses 1 = Some (guess_before guesses 1).
Proof.
  assert (Hwf : dict_wf RecognizerExamples.two_models) by dict_wf_by_cases.
  assert (Hvalid : ids_valid RecognizerExamples.two_items) by ids_valid_by_cases.
  split; [exact Hwf|]. split; [exact Hvalid|].
  destruct (@recognize_guess_carried_over MoreExamples.fading_lib
              RecognizerExamples.two_models RecognizerExamples.two_items Hwf Hvalid)
    as (probs & guesses & Hres & Hcarry).
  exists probs, guesses. split; [exact Hres|].
  assert (Hval : result (@Recognizer.recognize MoreExamples.fading_lib
                           RecognizerExamples.two_models RecognizerExamples.two_items)
                 = Ok ([[("JOHN"%string, (-50)%float); ("BOOK"%string, (-50)%float)];
                        [("JOHN"%string, neg_infinity); ("BOOK"%string, neg_infinity)]],
                       [Some "JOHN"%string; Some "JOHN"%string]))
    by (vm_compute; reflexivity).
  rewrite Hval in Hres. injection Hres as <- <-.
  assert (Hlow : RecognizerSpec.all_lowest
                   [("JOHN"%string, neg_infinity); ("BOOK"%string, neg_infinity)]).
  { intros w s Hget. cbn in Hget.
    destruct (String.eqb w "JOHN"); [injection Hget as <-; reflexivity|].
    destruct (String.eqb w "BOOK"); [injection Hget as <-; reflexivity|discriminate]. }
  split; [reflexivity|]. split; [exact Hlow|]. split; [reflexivity|].
  exact (Hcarry 1%nat _ eq_refl Hlow).
Defined.

(** Two models, JOHN first, and two items.  Scoring the first item, of three
    frames, raises for both models, and the guess is JOHN; on the second
    item BOOK scores higher and is the guess. *)
Lemma recognize_all_raise_first_word_witness :
  RecognizerExamples.two_models
  = ("JOHN"%string, (2, 10%nat)) :: [("BOOK"%string, (3, 12%nat))] /\
  dict_wf RecognizerExamples.two_models /\
  ids_valid RecognizerExamples.two_items /\
  nth_error (keys (get_all_Xlengths RecognizerExamples.two_items)) 0 = Some 0 /\
  dict_get Z.eqb 0 (get_all_Xlengths RecognizerExamples.two_items)
  = Some (TableLib.frames 3, [3]) /\
  (forall w model, In (w, model) RecognizerExamples.two_models ->
                   @score MoreExamples.choking_lib model (TableLib.frames 3) [3] = None) /\
  exists probs guesses,
    result (@Recognizer.recognize MoreExamples.choking_lib
              RecognizerExamples.two_models RecognizerExamples.two_items)
    = Ok (probs, guesses) /\
    nth_error guesses 1 = Some (Some "BOOK"%string) /\
    nth_error guesses 0 = Some (Some "JOHN"%string).
Proof.
  assert (Hmodels : RecognizerExamples.two_models
                    = ("JOHN"%string, (2, 10%nat)) :: [("BOOK"%string, (3, 12%nat))])
    by reflexivity.
  assert (Hwf : dict_wf RecognizerExamples.two_models) by dict_wf_by_cases.
  assert (Hvalid : ids_valid RecognizerExamples.two_items) by ids_valid_by_cases.
  assert (Hk : nth_error (keys (get_all_Xlengths RecognizerExamples.two_items)) 0
               = Some 0) by reflexivity.
  assert (Hget : dict_get Z.eqb 0 (get_all_Xlengths RecognizerExamples.two_items)
                 = Some (TableLib.frames 3, [3])) by reflexivity.
  assert (Hraise : forall w model,
             In (w, model) RecognizerExamples.two_models ->
             @score MoreExamples.choking_lib model (TableLib.frames 3) [3] = None)
    by (intros w model _; reflexivity).
  split; [exact Hmodels|]. split; [exact Hwf|]. split; [exact Hvalid|].
  split; [exact Hk|]. split; [exact Hget|]. split; [exact Hraise|].
  destruct (@recognize_all_raise_first_word MoreExamples.choking_lib
              RecognizerExamples.two_models RecognizerExamples.two_items
              "JOHN"%string (2, 10%nat) [("BOOK"%string, (3, 12%nat))]
              Hmodels Hwf Hvalid)
    as (probs & guesses & Hres & Hfirst).
  exists probs, guesses. split; [exact Hres|]. split.
  - assert (Hval : result (@Recognizer.recognize MoreExamples.choking_lib
                             RecognizerExamples.two_models RecognizerExamples.two_items)
                   = Ok ([[("JOHN"%string, (-1000)%float); ("BOOK"%string, (-1000)%float)];
                          [("JOHN"%string, (-70)%float); ("BOOK"%string, (-50)%float)]],
                         [Some "JOHN"%string; Some "BOOK"%string]))
      by (vm_compute; reflexivity).
    rewrite Hval in Hres. injection Hres as _ <-. reflexivity.
  - exact (Hfirst 0%nat 0 (TableLib.frames 3) [3] Hk Hget Hraise).
Defined.

(** Two models that both score every item at [-100]: in the tie the guess is
    JOHN, the first word, with BOOK after it. *)
Lemma recognize_first_best_word_witness :
  dict_wf RecognizerExamples.two_models /\
  ids_valid RecognizerExamples.two_items /\
  exists probs guesses,
    result (@Recognizer.recognize MoreExamples.flat_lib
              RecognizerExamples.two_models RecognizerExamples.two_items)
    = Ok (probs, guesses) /\
    nth_error probs 0
    = Some [("JOHN"%string, (-100)%float); ("BOOK"%string, (-100)%float)] /\
    dict_get String.eqb "BOOK"%string
             [("JOHN"%string, (-100)%float); ("BOOK"%string, (-100)%float)]
    = Some (-100)%float /\
    PyFloat.gt (-100) neg_infinity = true /\
    nth_error guesses 0 = Some (Some "JOHN"%string) /\
    exists w s pre post,
      nth_error guesses 0 = Some (Some w) /\
      [("JOHN"%string, (-100)%float); ("BOOK"%string, (-100)%float)]
      = pre ++ (w, s) :: post /\
      (forall w' s',
          In (w', s') [("JOHN"%string, (-100)%float); ("BOOK"%string, (-100)%float)] ->
          PyFloat.gt s' s = false) /\
      (forall w' s', In (w', s') pre ->
         PrimFloat.is_nan s' = true \/ PyFloat.gt s s' = true).
Proof.
  assert (Hwf : dict_wf RecognizerExamples.two_models) by dict_wf_by_cases.
  assert (Hvalid : ids_valid RecognizerExamples.two_items) by ids_valid_by_cases.
  split; [exact Hwf|]. split; [exact Hvalid|].
  destruct (@recognize_first_best_word MoreExamples.flat_lib
              RecognizerExamples.two_models RecognizerExamples.two_items Hwf Hvalid)
    as (probs & guesses & Hres & Hfirst).
  exists probs, guesses. split; [exact Hres|].
  assert (Hval : result (@Recognizer.recognize MoreExamples.flat_lib
                           RecognizerExamples.two_models RecognizerExamples.two_items)
                 = Ok ([[("JOHN"%string, (-100)%float); ("BOOK"%string, (-100)%float)];
                        [("JOHN"%string, (-100)%float); ("BOOK"%string, (-100)%float)]],
                       [Some "JOHN"%string; Some "JOHN"%string]))
    by (vm_compute; reflexivity).
  rewrite Hval in Hres. injection Hres as <- <-.
  split; [reflexivity|]. split; [reflexivity|]. split; [reflexivity|].
  split; [reflexivity|].
  exact (Hfirst 0%nat _ "BOOK"%string (-100)%float eq_refl eq_refl eq_refl).
Defined.

(** GO without a sequence. *)
Lemma select_bic_no_sequence_witness :
  lengths MoreExamples.go_none = [] /\
  @SelectorBIC.select MoreExamples.flat_lib MoreExamples.go_none
  = ([], Raise IndexError).
Proof.
  assert (Hlen : lengths MoreExamples.go_none = []) by reflexivity.
  split; [exact Hlen|].
  exact (@select_bic_no_sequence MoreExamples.flat_lib MoreExamples.go_none Hlen).
Defined.

(** GO with one sequence of two frames and [min_n_components = 2]. *)
Lemma select_bic_all_skipped_witness :
  lengths MoreExamples.go_short = [2] /\
  2 <= min_n_components MoreExamples.go_short /\
  @SelectorBIC.select MoreExamples.flat_lib MoreExamples.go_short = ([], Ok None).
Proof.
  assert (Hlen : lengths MoreExamples.go_short = [2]) by reflexivity.
  assert (Hshort : 2 <= min_n_components MoreExamples.go_short) by (cbn; lia).
  split; [exact Hlen|]. split; [exact Hshort|].
  exact (@select_bic_all_skipped MoreExamples.flat_lib MoreExamples.go_short 2 []
           Hlen Hshort).
Defined.


(** The tie at work: the model with two states is kept. *)
Example select_bic_tie :
  result (@SelectorBIC.select MoreExamples.flat_lib MoreExamples.go_five)
  = Ok (Some (2, 5%nat)).
Proof. vm_compute. reflexivity. Qed.

(** BOOK, whose first sequence has four frames: the model returned is the
    one fitted for three states, a candidate within the bounds and below
    four. *)
Lemma select_bic_returns_witness :
  lengths SelectorExamples.book_2_3 = [4; 3] /\
  result (@SelectorBIC.select SelectorExamples.steep_lib SelectorExamples.book_2_3)
  = Ok (Some (3, 7%nat)) /\
  exists i b,
    min_n_components SelectorExamples.book_2_3 <= i
    <= max_n_components SelectorExamples.book_2_3 /\ i < 4 /\
    @BICSpec.bic_of SelectorExamples.steep_lib SelectorExamples.book_2_3 i (3, 7%nat) b.
Proof.
  assert (Hlen : lengths SelectorExamples.book_2_3 = [4; 3]) by reflexivity.
  assert (Hval : result (@SelectorBIC.select SelectorExamples.steep_lib
                           SelectorExamples.book_2_3)
                 = Ok (Some (3, 7%nat))) by (vm_compute; reflexivity).
  split; [exact Hlen|]. split; [exact Hval|].
  destruct (@select_bic_returns SelectorExamples.steep_lib SelectorExamples.book_2_3
              4 [3] Hlen)
    as (best & Hres & Hbest).
  rewrite Hval in Hres. injection Hres as <-.
  exact (Hbest (3, 7%nat) eq_refl).
Defined.

(** FISH alone in its training set. *)
Lemma select_dic_no_other_word_witness :
  (forall w, In w (keys (words SelectorExamples.fish_2_3)) ->
             w = this_word SelectorExamples.fish_2_3) /\
  result (@SelectorDIC.select SelectorExamples.steep_lib SelectorExamples.fish_2_3)
  = Ok None.
Proof.
  assert (Halone : forall w, In w (keys (words SelectorExamples.fish_2_3)) ->
                             w = this_word SelectorExamples.fish_2_3).
  { cbn. intros w [<-|[]]. reflexivity. }
  split; [exact Halone|].
  exact (@select_dic_no_other_word SelectorExamples.steep_lib
           SelectorExamples.fish_2_3 Halone).
Defined.

(** FISH among three words, with a library that fits nothing. *)
Lemma select_dic_unfittable_witness :
  (forall i,
      min_n_components SelectorExamples.fish_of_three <= i
      <= max_n_components SelectorExamples.fish_of_three ->
      @BICSpec.fit_or_score_raises MoreExamples.never_lib
        SelectorExamples.fish_of_three i) /\
  result (@SelectorDIC.select MoreExamples.never_lib SelectorExamples.fish_of_three)
  = Ok None.
Proof.
  assert (Hraise : forall i,
             min_n_components SelectorExamples.fish_of_three <= i
             <= max_n_components SelectorExamples.fish_of_three ->
             @BICSpec.fit_or_score_raises MoreExamples.never_lib
               SelectorExamples.fish_of_three i)
    by (intros i _; left; reflexivity).
  split; [exact Hraise|].
  exact (@select_dic_unfittable MoreExamples.never_lib
           SelectorExamples.fish_of_three Hraise).
Defined.

(** FISH with two sequences and both bounds at 2. *)
Lemma select_cv_no_candidate_witness :
  min_n_components (with_bounds SelectorExamples.fish_2_3 2 2)
  <= Z.of_nat (List.length (sequences (with_bounds SelectorExamples.fish_2_3 2 2))) /\
  max_n_components (with_bounds SelectorExamples.fish_2_3 2 2)
  <= min_n_components (with_bounds SelectorExamples.fish_2_3 2 2) /\
  @SelectorCV.select SelectorExamples.steep_lib (with_bounds SelectorExamples.fish_2_3 2 2)
  = ([], Ok None).
Proof.
  assert (Henough :
            min_n_components (with_bounds SelectorExamples.fish_2_3 2 2)
            <= Z.of_nat (List.length
                           (sequences (with_bounds SelectorExamples.fish_2_3 2 2))))
    by (cbn; lia).
  assert (Hempty : max_n_components (with_bounds SelectorExamples.fish_2_3 2 2)
                   <= min_n_components (with_bounds SelectorExamples.fish_2_3 2 2))
    by (cbn; lia).
  split; [exact Henough|]. split; [exact Hempty|].
  exact (@select_cv_no_candidate SelectorExamples.steep_lib
           (with_bounds SelectorExamples.fish_2_3 2 2) Henough Hempty).
Defined.

(** FISH with two sequences of three frames: the model returned was fitted
    to the three frames of one fold, and the model fitted to all six frames
    is not a model of a fold. *)
Lemma select_cv_returns_witness :
  result (@SelectorCV.select SelectorExamples.steep_lib SelectorExamples.fish_2_3)
  = Ok (Some (2, 3%nat)) /\
  @fit SelectorExamples.steep_lib 2 (random_state SelectorExamples.fish_2_3)
       (X SelectorExamples.fish_2_3) (lengths SelectorExamples.fish_2_3)
  = Some (2, 6%nat) /\
  ~ @cv_candidate SelectorExamples.steep_lib SelectorExamples.fish_2_3 (2, 6%nat) /\
  @cv_candidate SelectorExamples.steep_lib SelectorExamples.fish_2_3 (2, 3%nat).
Proof.
  assert (Hres : result (@SelectorCV.select SelectorExamples.steep_lib
                           SelectorExamples.fish_2_3)
                 = Ok (Some (2, 3%nat))) by (vm_compute; reflexivity).
  split; [exact Hres|]. split; [reflexivity|]. split.
  - intros (i & split_method & folds & cv_train_idx & cv_test_idx & X' & lengths'
            & _ & Hnew & Hfolds & Hfold & Hxs & Hfit).
    cbn in Hnew. injection Hnew as <-.
    vm_compute in Hfolds. injection Hfolds as <-.
    destruct Hfold as [[= <- <-]|[[= <- <-]|[]]];
      vm_compute in Hxs; injection Hxs as <- <-;
      cbn in Hfit; injection Hfit as _ Hframes; discriminate Hframes.
  - exact (@select_cv_returns SelectorExamples.steep_lib SelectorExamples.fish_2_3
             (2, 3%nat) Hres).
Defined.

(** FISH with two sequences and a library that fits nothing. *)
Lemma select_cv_unbound_witness :
  min_n_components SelectorExamples.fish_2_3
  <= Z.of_nat (List.length (sequences SelectorExamples.fish_2_3)) /\
  0 < min_n_components SelectorExamples.fish_2_3 < 2 ^ 53 /\
  min_n_components SelectorExamples.fish_2_3
  < max_n_components SelectorExamples.fish_2_3 /\
  @KFold_new MoreExamples.never_lib (min_n_components SelectorExamples.fish_2_3)
  = Ok 2 /\
  @KFold_split MoreExamples.never_lib 2 (sequences SelectorExamples.fish_2_3)
  = Ok [([1%nat], [0%nat]); ([0%nat], [1%nat])] /\
  (forall train test,
      In (train, test) [([1%nat], [0%nat]); ([0%nat], [1%nat])] ->
      exists xs ys,
        @combine_sequences MoreExamples.never_lib train
          (sequences SelectorExamples.fish_2_3) = Ok xs /\
        @combine_sequences MoreExamples.never_lib test
          (sequences SelectorExamples.fish_2_3) = Ok ys) /\
  (forall X' lengths',
      @fit MoreExamples.never_lib (min_n_components SelectorExamples.fish_2_3)
        (random_state SelectorExamples.fish_2_3) X' lengths' = None) /\
  result (@SelectorCV.select MoreExamples.never_lib SelectorExamples.fish_2_3)
  = Raise UnboundLocalError.
Proof.
  assert (Henough : min_n_components SelectorExamples.fish_2_3
                    <= Z.of_nat (List.length (sequences SelectorExamples.fish_2_3)))
    by (cbn; lia).
  assert (Hmin : 0 < min_n_components SelectorExamples.fish_2_3 < 2 ^ 53)
    by (cbn; lia).
  assert (Hrange : min_n_components SelectorExamples.fish_2_3
                   < max_n_components SelectorExamples.fish_2_3) by (cbn; lia).
  assert (Hnew : @KFold_new MoreExamples.never_lib
                   (min_n_components SelectorExamples.fish_2_3) = Ok 2)
    by reflexivity.
  assert (Hsplit : @KFold_split MoreExamples.never_lib 2
                     (sequences SelectorExamples.fish_2_3)
                   = Ok [([1%nat], [0%nat]); ([0%nat], [1%nat])]) by reflexivity.
  assert (Hcombine : forall train test,
             In (train, test) [([1%nat], [0%nat]); ([0%nat], [1%nat])] ->
             exists xs ys,
               @combine_sequences MoreExamples.never_lib train
                 (sequences SelectorExamples.fish_2_3) = Ok xs /\
               @combine_sequences MoreExamples.never_lib test
                 (sequences SelectorExamples.fish_2_3) = Ok ys).
  { intros train test [[= <- <-]|[[= <- <-]|[]]]; eexists _, _; split; reflexivity. }
  assert (Hfit : forall X' lengths',
             @fit MoreExamples.never_lib (min_n_components SelectorExamples.fish_2_3)
               (random_state SelectorExamples.fish_2_3) X' lengths' = None)
    by (intros; reflexivity).
  repeat (split; [assumption|]).
  exact (@select_cv_unbound MoreExamples.never_lib SelectorExamples.fish_2_3 2
           [([1%nat], [0%nat]); ([0%nat], [1%nat])]
           Henough Hmin Hrange Hnew Hsplit Hcombine Hfit).
Defined.
